(** * api_yamdb: the view handlers of [api/views.py] over the models of
    [reviews/models.py], as a shallow embedding.

    The relational store is a record of tables; a table is the list of its
    rows in insertion order together with the primary-key sequence.  Every
    handler is a function from the store (and the request) to an outcome and
    the store after the request.  What the handlers import from modules that
    are not part of the sources at hand (the serializers of users, sign-up,
    tokens and reviews, the confirmation-code generator, the token utility)
    is gathered in the class [Collaborators]; the permission classes are
    written out as the spec describes them. *)

From Stdlib Require Import ZArith QArith Lia.
From stdpp Require Import base option list strings pretty.

Local Open Scope string_scope.
Local Open Scope list_scope.
Local Open Scope nat_scope.

(** ** rest_framework.status and the request methods *)

Definition HTTP_200_OK : nat := 200.
Definition HTTP_201_CREATED : nat := 201.
Definition HTTP_204_NO_CONTENT : nat := 204.
Definition HTTP_400_BAD_REQUEST : nat := 400.
Definition HTTP_401_UNAUTHORIZED : nat := 401.
Definition HTTP_403_FORBIDDEN : nat := 403.
Definition HTTP_404_NOT_FOUND : nat := 404.
Definition HTTP_405_METHOD_NOT_ALLOWED : nat := 405.

Inductive Method := GET | HEAD | OPTIONS | POST | PUT | PATCH | DELETE.

#[global] Instance Method_eq_dec : EqDecision Method.
Proof. solve_decision. Defined.

(** [serializer.errors]: field name to messages; the empty dictionary when
    the serializer is valid. *)
Definition Errors : Type := list (string * list string).

(** ** Exceptions, django.db query sets and tables *)

(** The exceptions the handlers meet: those of the object-relational mapper
    and those the framework turns into a response. *)
Inductive Exn :=
| DoesNotExist
| MultipleObjectsReturned
| IntegrityError
| Http404
| ValidationError (detail : list string)
| NotAuthenticated
| PermissionDenied
| AttributeError.

Module orm.

Inductive result (A : Type) :=
| Ok (a : A)
| Raise (e : Exn).
Arguments Ok {A} a.
Arguments Raise {A} e.

Definition bind {A B} (r : result A) (k : A -> result B) : result B :=
  match r with
  | Ok a => k a
  | Raise e => Raise e
  end.

(** A table: its rows, oldest first, and the next value of its
    primary-key sequence. *)
Record Table (A : Type) := mkTable { rows : list A; seq : nat }.
Arguments mkTable {A} rows seq.
Arguments rows {A} t.
Arguments seq {A} t.

Definition empty {A} : Table A := mkTable [] 1.

Section queryset.
Context {A : Type}.

(** [qs.first()] *)
Definition first (qs : list A) : option A := head qs.

(** [qs.exists()] *)
Definition exists_ (qs : list A) : bool :=
  match qs with [] => false | _ :: _ => true end.

(** [qs.get()] *)
Definition get (qs : list A) : result A :=
  match qs with
  | [] => Raise DoesNotExist
  | [a] => Ok a
  | _ :: _ :: _ => Raise MultipleObjectsReturned
  end.

(** [get_object_or_404(qs)]: only the absence of a row becomes [Http404]. *)
Definition get_object_or_404 (qs : list A) : result A :=
  match get qs with
  | Raise DoesNotExist => Raise Http404
  | r => r
  end.
End queryset.

End orm.

Notation "'try!' x := r 'in' k" := (orm.bind r (fun x => k))
  (at level 10, x pattern, r at level 100, k at level 200).

(** ** JSON values: request bodies and response payloads *)

Set Warnings "-register-all".

Inductive JSON :=
| JNull
| JBool (b : bool)
| JInt (z : Z)
| JNum (q : Q)
| JStr (s : string)
| JList (l : list JSON)
| JObject (o : list (string * JSON)).

(** [request.data]: the members of the JSON object sent as body. *)
Definition RequestData : Type := list (string * JSON).

(** [d.get(key)] on a dictionary kept as the list of its items. *)
Fixpoint dict_get {V} (key : string) (d : list (string * V)) : option V :=
  match d with
  | [] => None
  | (k, v) :: d' => if decide (k = key) then Some v else dict_get key d'
  end.

Definition errors_json (e : Errors) : JSON :=
  JObject (map (fun kv => (kv.1, JList (map JStr kv.2))) e).

(** What a request ends in: the [Response] the handler returns, or an
    exception no handler catches, which the server answers with status 500. *)
Inductive Outcome :=
| Response (data : JSON) (status : nat)
| Unhandled (e : Exn).

Definition status_code (o : Outcome) : nat :=
  match o with
  | Response _ st => st
  | Unhandled _ => 500
  end.

Definition detail (message : string) : JSON := JObject [("detail", JStr message)].

(** The framework's exception handler: API exceptions and [Http404] become
    responses, anything else stays unhandled. *)
Definition handle_exception (e : Exn) : Outcome :=
  match e with
  | Http404 => Response (detail "Not found.") HTTP_404_NOT_FOUND
  | ValidationError d => Response (JList (map JStr d)) HTTP_400_BAD_REQUEST
  | NotAuthenticated =>
      Response (detail "Authentication credentials were not provided.")
               HTTP_401_UNAUTHORIZED
  | PermissionDenied =>
      Response (detail "You do not have permission to perform this action.")
               HTTP_403_FORBIDDEN
  | e => Unhandled e
  end.

(** ** reviews/models.py *)

Definition ROLES : list (string * string) :=
  [("user", "Пользователь"); ("moderator", "Модератор"); ("admin", "Администратор")].


Module utf8.
(** A text is held as the bytes of its UTF-8 encoding.  A character of the
    text starts at every byte that is not a continuation byte (a byte of
    the form 10xxxxxx). *)
Definition is_continuation (a : Ascii.ascii) : bool :=
  let n := Ascii.nat_of_ascii a in (128 <=? n) && (n <? 192).

(** [len(s)]: the number of characters. *)
Fixpoint len (s : string) : nat :=
  match s with
  | EmptyString => 0
  | String a s' => if is_continuation a then len s' else S (len s')
  end.

End utf8.

Module User.
(** [class User(AbstractUser)]: of the inherited columns the primary key,
    [username] (unique), [email] and [is_superuser] are kept; [bio] and
    [role] are the two columns the class adds, both nullable. *)
Record t := mk {
  pk : nat;
  username : string;
  email : string;
  is_superuser : bool;
  bio : option string;
  role : option string;
}.

#[global] Instance user_eq_dec : EqDecision t.
Proof. solve_decision. Defined.
End User.

Module UserInstance.
(** A [User] object as a handler holds it: the columns of its row, and the
    attribute [confirmation_code] of the Python object.  The class declares
    no such column, so the attribute is not loaded with a row and [save()]
    does not write it: an object has it only once the handler assigned it,
    and reading it before that raises [AttributeError]. *)
Record t := mk {
  row : User.t;
  confirmation_code : option string;
}.

(** The object the mapper builds for a row it has loaded or inserted. *)
Definition loaded (u : User.t) : t := mk u None.

(** [user.confirmation_code = code] *)
Definition set_confirmation_code (code : string) (i : t) : t :=
  mk (row i) (Some code).

(** [user.confirmation_code] *)
Definition get_confirmation_code (i : t) : orm.result string :=
  match confirmation_code i with
  | Some code => orm.Ok code
  | None => orm.Raise AttributeError
  end.
End UserInstance.

Module Titles.
Record t := mk {
  pk : nat;
  name : string;
  year : Z;
  description : option string;
  genre : string;
  category : string;
}.

#[global] Instance titles_eq_dec : EqDecision t.
Proof. solve_decision. Defined.
End Titles.

Module Categories.
Record t := mk { pk : nat; name : string; slug : string }.

#[global] Instance categories_eq_dec : EqDecision t.
Proof. solve_decision. Defined.
End Categories.

Module Genres.
Record t := mk { pk : nat; name : string; slug : string }.

#[global] Instance genres_eq_dec : EqDecision t.
Proof. solve_decision. Defined.
End Genres.

Module Reviews.
(** [title] and [author] are foreign keys, kept as the primary key of the
    row they point to; [pub_date] is set when the row is created. *)
Record t := mk {
  pk : nat;
  title : nat;
  text : string;
  author : nat;
  score : Z;
  pub_date : nat;
}.


#[global] Instance reviews_eq_dec : EqDecision t.
Proof. solve_decision. Defined.
End Reviews.

Module Comments.
Record t := mk {
  pk : nat;
  text : string;
  review : nat;
  author : nat;
  pub_date : nat;
}.

#[global] Instance comments_eq_dec : EqDecision t.
Proof. solve_decision. Defined.
End Comments.

(** The relational store. *)
Record DB := mkDB {
  users : orm.Table User.t;
  titles : orm.Table Titles.t;
  categories : orm.Table Categories.t;
  genres : orm.Table Genres.t;
  reviews : orm.Table Reviews.t;
  comments : orm.Table Comments.t;
}.

Definition empty_db : DB :=
  mkDB orm.empty orm.empty orm.empty orm.empty orm.empty orm.empty.

Definition with_users (t : orm.Table User.t) (d : DB) : DB :=
  mkDB t (titles d) (categories d) (genres d) (reviews d) (comments d).
Definition with_titles (t : orm.Table Titles.t) (d : DB) : DB :=
  mkDB (users d) t (categories d) (genres d) (reviews d) (comments d).
Definition with_categories (t : orm.Table Categories.t) (d : DB) : DB :=
  mkDB (users d) (titles d) t (genres d) (reviews d) (comments d).
Definition with_genres (t : orm.Table Genres.t) (d : DB) : DB :=
  mkDB (users d) (titles d) (categories d) t (reviews d) (comments d).
Definition with_reviews (t : orm.Table Reviews.t) (d : DB) : DB :=
  mkDB (users d) (titles d) (categories d) (genres d) t (comments d).
Definition with_comments (t : orm.Table Comments.t) (d : DB) : DB :=
  mkDB (users d) (titles d) (categories d) (genres d) (reviews d) t.

(** ** The user serializer's fields

    Modelled from the spec: [UserSerializer] is not part of the sources at
    hand; its fields are taken to be the profile attributes the spec lists
    for User.  [validated_data] and [serializer.data] are then a dictionary
    over these fields, a field being absent ([None]) when the body did not
    supply it. *)
Record UserFields := mkUserFields {
  f_username : option string;
  f_email : option string;
  f_bio : option (option string);
  f_role : option (option string);
}.

Definition set_f_role (r : option (option string)) (f : UserFields) : UserFields :=
  mkUserFields (f_username f) (f_email f) (f_bio f) r.

Definition json_of_nullable (o : option string) : JSON :=
  match o with Some s => JStr s | None => JNull end.

(** The dictionary's items, in the order of the fields. *)
Definition fields_items (f : UserFields) : list (string * JSON) :=
  option_list ((fun s => ("username", JStr s)) <$> f_username f) ++
  option_list ((fun s => ("email", JStr s)) <$> f_email f) ++
  option_list ((fun s => ("bio", json_of_nullable s)) <$> f_bio f) ++
  option_list ((fun s => ("role", json_of_nullable s)) <$> f_role f).

(** The fields of a stored row: all present. *)
Definition fields_of_user (u : User.t) : UserFields :=
  mkUserFields (Some (User.username u)) (Some (User.email u))
               (Some (User.bio u)) (Some (User.role u)).

(** ** What the handlers import from outside the sources at hand *)

Class Collaborators := {
  (** The state of the confirmation-code generator and
      [confirm_code_generator.generator()], which draws a code from it. *)
  GenState : Type;
  generator : GenState -> string * GenState;
  (** [token_generator.get_tokens_for_user(user)]: the payload of the token
      response, computed from the user row. *)
  get_tokens_for_user : User.t -> JSON;
  (** [UserSerializer(instance, data=..., partial=...)]: validation of a body
      against the rows of the user table; [inl] carries [serializer.errors],
      [inr] the validated fields. *)
  UserSerializer :
    list User.t -> option User.t -> bool -> RequestData -> Errors + UserFields;
  (** [SignUpSerializer(data=...)] and [GetTokenSerializer(data=...)]: on a
      valid body, [serializer.data['username']] with [serializer.data['email']]
      and with [serializer.data['confirmation_code']]; both validate the body
      alone, without a look at the store. *)
  SignUpSerializer : RequestData -> Errors + (string * string);
  GetTokenSerializer : RequestData -> Errors + (string * string);
  (** [ReviewsSerializer]: the validated [text] and [score] of a complete
      body, those a partial body supplies, and the rendering of a row; the
      author and the title of a review are not writable through it (the
      handler sets them). *)
  ReviewsSerializer : RequestData -> Errors + (string * Z);
  ReviewsSerializer_partial : RequestData -> Errors + (option string * option Z);
  ReviewsSerializer_data : Reviews.t -> JSON;
}.

(** ** User.objects *)

Module UserObjects.
Import orm.

Definition match_field {A} `{EqDecision A} (k : option A) (a : A) : bool :=
  match k with
  | None => true
  | Some x => bool_decide (x = a)
  end.

(** A row satisfies the keyword arguments of [filter( **kwargs )]. *)
Definition matches (kw : UserFields) (u : User.t) : bool :=
  match_field (f_username kw) (User.username u)
  && match_field (f_email kw) (User.email u)
  && match_field (f_bio kw) (User.bio u)
  && match_field (f_role kw) (User.role u).

Definition by_username (name : string) (t : Table User.t) : list User.t :=
  filter (fun u => User.username u = name) (rows t).

(** [filter(email=email)] with [email] the result of a dictionary's [get]:
    a missing key compares the column with NULL, which no row satisfies. *)
Definition by_email (mail : option string) (t : Table User.t) : list User.t :=
  match mail with
  | Some e => filter (fun u => User.email u = e) (rows t)
  | None => []
  end.

(** The row [create( **kwargs )] inserts: absent character columns are empty,
    absent nullable columns NULL, the key is drawn from the sequence. *)
Definition new_row (kw : UserFields) (t : Table User.t) : User.t :=
  User.mk (seq t)
          (default "" (f_username kw))
          (default "" (f_email kw))
          false
          (default None (f_bio kw))
          (default None (f_role kw)).

(** [create( **kwargs )]: the insert fails on the unique index of [username]. *)
Definition create (kw : UserFields) (t : Table User.t)
  : result (User.t * Table User.t) :=
  let u := new_row kw t in
  if exists_ (by_username (User.username u) t)
  then Raise IntegrityError
  else Ok (u, mkTable (rows t ++ [u]) (S (seq t))).

(** [get_or_create( **kwargs )]: the row and whether it was created. *)
Definition get_or_create (kw : UserFields) (t : Table User.t)
  : result (User.t * bool * Table User.t) :=
  match get (filter (fun u => matches kw u = true) (rows t)) with
  | Ok u => Ok (u, false, t)
  | Raise DoesNotExist =>
      match create kw t with
      | Ok (u, t') => Ok (u, true, t')
      | Raise IntegrityError =>
          match get (filter (fun u => matches kw u = true) (rows t)) with
          | Ok u => Ok (u, false, t)
          | Raise DoesNotExist => Raise IntegrityError
          | Raise e => Raise e
          end
      | Raise e => Raise e
      end
  | Raise e => Raise e
  end.

(** [user.save()] on a row that has a key: the columns of the row of that key
    are rewritten (the row is inserted when there is none); the unique index
    of [username] refuses a name another row holds. *)
Definition save (u : User.t) (t : Table User.t) : result (Table User.t) :=
  if exists_ (filter (fun r => User.username r = User.username u
                                /\ User.pk r <> User.pk u) (rows t))
  then Raise IntegrityError
  else if exists_ (filter (fun r => User.pk r = User.pk u) (rows t))
  then Ok (mkTable (map (fun r => if decide (User.pk r = User.pk u) then u else r)
                        (rows t)) (seq t))
  else Ok (mkTable (rows t ++ [u]) (seq t)).

End UserObjects.

(** ** Deletion with [on_delete=CASCADE]

    A review goes with its title and with its author; a comment goes with
    its review and with its author. *)

Module cascade.
Import orm.

Definition delete_where {A} (P : A -> Prop) `{!forall a, Decision (P a)} (t : Table A)
  : Table A :=
  mkTable (filter (fun a => ~ P a) (rows t)) (seq t).

(** Delete the reviews that satisfy [P], and the comments on them. *)
Definition delete_reviews (P : Reviews.t -> Prop) `{!forall r, Decision (P r)}
    (d : DB) : DB :=
  let gone := map Reviews.pk (filter P (rows (reviews d))) in
  with_comments (delete_where (fun c => Comments.review c ∈ gone) (comments d))
    (with_reviews (delete_where P (reviews d)) d).

Definition delete_title (t : Titles.t) (d : DB) : DB :=
  with_titles (delete_where (fun x => Titles.pk x = Titles.pk t) (titles d))
    (delete_reviews (fun r => Reviews.title r = Titles.pk t) d).

Definition delete_review (r : Reviews.t) (d : DB) : DB :=
  delete_reviews (fun x => Reviews.pk x = Reviews.pk r) d.

Definition delete_user (u : User.t) (d : DB) : DB :=
  let d := delete_reviews (fun r => Reviews.author r = User.pk u) d in
  let d := with_comments (delete_where (fun c => Comments.author c = User.pk u) (comments d)) d in
  with_users (delete_where (fun x => User.pk x = User.pk u) (users d)) d.

End cascade.

(** ** api/views.py: registration and the user resource *)

(** What a request can change: the store, the state of the code generator
    and the mails handed to the dispatch service. *)
Record World `{Collaborators} := mkWorld {
  db : DB;
  gen : GenState;
  outbox : list (string * option string);
}.
Arguments mkWorld {_} db gen outbox.
Arguments db {_} w.
Arguments gen {_} w.
Arguments outbox {_} w.

Section auth_views.
Context `{Collaborators}.
Import orm.

Definition set_db (d : DB) (w : World) : World := mkWorld d (gen w) (outbox w).

Definition user_rows (w : World) : list User.t := rows (users (db w)).

(** Modelled from the spec: [send_confirm_code_to_email(user, email)] is not
    part of the sources at hand; the spec has it hand the code to an
    email-dispatch service, address in, fire and forget.  The code is the
    attribute of the object it is passed. *)
Definition send_confirm_code_to_email (user : UserInstance.t) (email : string)
    (w : World) : World :=
  mkWorld (db w) (gen w) (outbox w ++ [(email, UserInstance.confirmation_code user)]).

(** [signup]: on a valid body, get or create the row of the pair, assign a
    newly generated code to the object, save its columns, mail the code,
    answer 200 with [serializer.data] (the username and the email);
    otherwise answer 400 with the errors. *)
Definition signup (data : RequestData) (w : World) : Outcome * World :=
  match SignUpSerializer data with
  | inr (username, email) =>
      match UserObjects.get_or_create
              (mkUserFields (Some username) (Some email) None None)
              (users (db w)) with
      | Ok (user, created, t) =>
          let (code, g) := generator (gen w) in
          let user := UserInstance.set_confirmation_code code (UserInstance.loaded user) in
          match UserObjects.save (UserInstance.row user) t with
          | Ok t' =>
              (Response (JObject [("username", JStr username); ("email", JStr email)])
                        HTTP_200_OK,
               send_confirm_code_to_email user email
                 (mkWorld (with_users t' (db w)) g (outbox w)))
          | Raise e => (Unhandled e, mkWorld (with_users t (db w)) g (outbox w))
          end
      | Raise e => (Unhandled e, w)
      end
  | inl errors => (Response (errors_json errors) HTTP_400_BAD_REQUEST, w)
  end.

(** [get_token]: 400 with the errors on an invalid body; 404 when
    [filter(username=username).first()] finds no row; else the row is fetched
    with [get] and the attribute [confirmation_code] of the object just
    loaded is read, to be compared with the supplied code: 200 with the
    token, or 400.  On the three last paths [serializer.errors] is the empty
    dictionary. *)
Definition get_token (data : RequestData) (w : World) : Outcome * World :=
  match GetTokenSerializer data with
  | inr (username, code) =>
      match first (UserObjects.by_username username (users (db w))) with
      | Some _ =>
          match get (UserObjects.by_username username (users (db w))) with
          | Ok user =>
              let user := UserInstance.loaded user in
              match UserInstance.get_confirmation_code user with
              | Ok stored =>
                  if decide (stored = code)
                  then (Response (get_tokens_for_user (UserInstance.row user))
                                 HTTP_200_OK, w)
                  else (Response (errors_json []) HTTP_400_BAD_REQUEST, w)
              | Raise e => (Unhandled e, w)
              end
          | Raise e => (Unhandled e, w)
          end
      | None => (Response (errors_json []) HTTP_404_NOT_FOUND, w)
      end
  | inl errors => (Response (errors_json errors) HTTP_400_BAD_REQUEST, w)
  end.

End auth_views.

Module UserViewSet.
Section handlers.
Context `{Collaborators}.
Import orm.

(** [create]: on a valid body, 400 when a row has the supplied email, else
    [get_or_create( **serializer.data )] and 201 with [serializer.data]. *)
Definition create (data : RequestData) (w : World) : Outcome * World :=
  match UserSerializer (user_rows w) None false data with
  | inr fields =>
      let email := f_email fields in
      match first (UserObjects.by_email email (users (db w))) with
      | Some _ => (Response (errors_json []) HTTP_400_BAD_REQUEST, w)
      | None =>
          match UserObjects.get_or_create fields (users (db w)) with
          | Ok (user, created, t) =>
              (Response (JObject (fields_items fields)) HTTP_201_CREATED,
               set_db (with_users t (db w)) w)
          | Raise e => (Unhandled e, w)
          end
      end
  | inl errors => (Response (errors_json errors) HTTP_400_BAD_REQUEST, w)
  end.

(** [ModelSerializer.update(instance, validated_data)] before the save: every
    validated field is assigned to the instance. *)
Definition update (instance : User.t) (validated_data : UserFields) : User.t :=
  User.mk (User.pk instance)
          (default (User.username instance) (f_username validated_data))
          (default (User.email instance) (f_email validated_data))
          (User.is_superuser instance)
          (default (User.bio instance) (f_bio validated_data))
          (default (User.role instance) (f_role validated_data)).

(** The action [me], reached by GET and PATCH of an authenticated caller;
    [request_user] is [request.user], the caller's row as it was loaded. *)
Definition me (request_user : User.t) (method : Method) (data : RequestData)
              (w : World) : Outcome * World :=
  match UserSerializer (user_rows w) (Some request_user) true data with
  | inl errors => (Response (errors_json errors) HTTP_400_BAD_REQUEST, w)
  | inr validated_data =>
      if decide (method = GET)
      then (Response (JObject (fields_items (fields_of_user request_user)))
                     HTTP_200_OK, w)
      else
        let validated_data := set_f_role (Some (User.role request_user)) validated_data in
        let instance := update request_user validated_data in
        match UserObjects.save instance (users (db w)) with
        | Ok t =>
            (Response (JObject (fields_items (fields_of_user instance))) HTTP_200_OK,
             set_db (with_users t (db w)) w)
        | Raise e => (Unhandled e, w)
        end
  end.

(** [destroy], inherited: the row of that [username] and what hangs on it. *)
Definition destroy (username : string) (w : World) : Outcome * World :=
  match get_object_or_404 (UserObjects.by_username username (users (db w))) with
  | Ok u => (Response JNull HTTP_204_NO_CONTENT, set_db (cascade.delete_user u (db w)) w)
  | Raise e => (handle_exception e, w)
  end.

End handlers.
End UserViewSet.

(** ** api/permissions.py *)

Module permissions.

Definition SAFE_METHODS : list Method := [GET; HEAD; OPTIONS].

Definition is_safe (m : Method) : bool := bool_decide (m ∈ SAFE_METHODS).

Definition is_admin (u : User.t) : bool :=
  bool_decide (User.role u = Some "admin") || User.is_superuser u.

Definition is_moderator (u : User.t) : bool :=
  bool_decide (User.role u = Some "moderator").

(** Modelled from the spec: api/permissions.py is not part of the sources at
    hand.  AdminOrReadOnly: unsafe methods require admin or superuser, reads
    are open. *)
Definition AdminOrReadOnly (m : Method) (user : option User.t) : bool :=
  is_safe m || from_option is_admin false user.

(** Modelled from the spec: AdminAndSuperUser, all methods require admin or
    superuser. *)
Definition AdminAndSuperUser (user : option User.t) : bool :=
  from_option is_admin false user.

(** Modelled from the spec: AuthorAdminModeratorOrReadOnly, reads are open;
    an unsafe method requires an authenticated requester, and on an object
    its author, a moderator or an admin. *)
Definition AuthorAdminModeratorOrReadOnly (m : Method) (user : option User.t) : bool :=
  is_safe m || bool_decide (is_Some user).

Definition AuthorAdminModeratorOrReadOnly_object
    (m : Method) (user : option User.t) (author : nat) : bool :=
  is_safe m ||
  match user with
  | Some u => bool_decide (User.pk u = author) || is_moderator u || is_admin u
  | None => false
  end.

(** The exception of a refused request. *)
Definition denied (user : option User.t) : Exn :=
  match user with
  | Some _ => PermissionDenied
  | None => NotAuthenticated
  end.

End permissions.

(** ** api/serializers.py

    The three classes are model serializers with [fields = '__all__']: the
    fields of each are the columns of its model, validated as the column
    types say.  Errors are recorded by their code. *)

Module fields.

Definition is_slug_char (a : Ascii.ascii) : bool :=
  let n := Ascii.nat_of_ascii a in
  ((48 <=? n) && (n <=? 57)) || ((65 <=? n) && (n <=? 90))
  || ((97 <=? n) && (n <=? 122)) || (n =? 45) || (n =? 95).

Fixpoint all_chars (p : Ascii.ascii -> bool) (s : string) : bool :=
  match s with
  | EmptyString => true
  | String a s' => p a && all_chars p s'
  end.

(** A required, non-null, non-blank character field of bounded length, on
    the member of that name as the body gives it; the length is counted in
    characters.  (The member is taken to be a string: the framework's
    trimming of surrounding blanks and its reading of numbers as strings are
    left out.) *)
Definition CharField (max_length : nat) (v : option JSON) : list string + string :=
  match v with
  | None => inl ["required"]
  | Some JNull => inl ["null"]
  | Some (JStr s) =>
      if decide (s = "") then inl ["blank"]
      else if decide (max_length < utf8.len s) then inl ["max_length"]
      else inr s
  | Some _ => inl ["invalid"]
  end.

Definition SlugField (max_length : nat) (v : option JSON) : list string + string :=
  match CharField max_length v with
  | inr s => if all_chars is_slug_char s then inr s else inl ["invalid"]
  | inl e => inl e
  end.

End fields.

Module CategoriesSerializer.

Definition to_internal_value (data : RequestData) : Errors + (string * string) :=
  match fields.CharField 256 (dict_get "name" data),
        fields.SlugField 50 (dict_get "slug" data) with
  | inr name, inr slug => inr (name, slug)
  | inl e, inr _ => inl [("name", e)]
  | inr _, inl e => inl [("slug", e)]
  | inl e1, inl e2 => inl [("name", e1); ("slug", e2)]
  end.

Definition to_representation (c : Categories.t) : JSON :=
  JObject [("id", JInt (Z.of_nat (Categories.pk c)));
           ("name", JStr (Categories.name c));
           ("slug", JStr (Categories.slug c))].

End CategoriesSerializer.

Module GenresSerializer.

Definition to_internal_value (data : RequestData) : Errors + (string * string) :=
  match fields.CharField 256 (dict_get "name" data),
        fields.SlugField 50 (dict_get "slug" data) with
  | inr name, inr slug => inr (name, slug)
  | inl e, inr _ => inl [("name", e)]
  | inr _, inl e => inl [("slug", e)]
  | inl e1, inl e2 => inl [("name", e1); ("slug", e2)]
  end.

Definition to_representation (g : Genres.t) : JSON :=
  JObject [("id", JInt (Z.of_nat (Genres.pk g)));
           ("name", JStr (Genres.name g));
           ("slug", JStr (Genres.slug g))].

End GenresSerializer.

Module TitlesSerializer.

(** An instance of the annotated query set: the row and the value of the
    annotation [rating]. *)
Definition Instance : Type := Titles.t * option Q.

(** [getattr(instance, name)] *)
Definition getattr (obj : Instance) (name : string) : option JSON :=
  if decide (name = "id") then Some (JInt (Z.of_nat (Titles.pk obj.1)))
  else if decide (name = "name") then Some (JStr (Titles.name obj.1))
  else if decide (name = "year") then Some (JInt (Titles.year obj.1))
  else if decide (name = "description")
       then Some (json_of_nullable (Titles.description obj.1))
  else if decide (name = "genre") then Some (JStr (Titles.genre obj.1))
  else if decide (name = "category") then Some (JStr (Titles.category obj.1))
  else if decide (name = "rating")
       then Some (match obj.2 with Some q => JNum q | None => JNull end)
  else None.

(** [fields = '__all__'] with no declared field: the primary key and the
    columns of the model [Titles], in the order of the class. *)
Definition field_names : list string :=
  ["id"; "name"; "year"; "description"; "genre"; "category"].

Definition to_representation (obj : Instance) : JSON :=
  JObject (omap (fun f => (fun v => (f, v)) <$> getattr obj f) field_names).

End TitlesSerializer.

(** ** api/views.py: titles, categories, genres *)

Module TitlesViewSet.
Import orm.

(** [Avg] over the joined values: NULL when there is none, else their sum
    over their number, kept here as the exact fraction in lowest terms (the
    database hands back the nearest floating-point number). *)
Definition Avg (values : list Z) : option Q :=
  match values with
  | [] => None
  | _ :: _ =>
      Some (Qred (Qmake (foldr Z.add 0%Z values) (Pos.of_nat (length values))))
  end.

(** The reverse relation [reviews] of a title. *)
Definition reviews_of (pk : nat) (d : DB) : list Reviews.t :=
  filter (fun r => Reviews.title r = pk) (rows (reviews d)).

(** [queryset = Title.objects.annotate(rating=Avg("reviews__score"))] *)
Definition queryset (d : DB) : list TitlesSerializer.Instance :=
  map (fun t => (t, Avg (map Reviews.score (reviews_of (Titles.pk t) d))))
      (rows (titles d)).

Inductive Action := list_ | create | retrieve | update | partial_update | destroy.

Inductive SerializerClass := serializer_class | create_serializer_class.

Definition get_serializer_class (action : Action) : SerializerClass :=
  match action with
  | create | partial_update => create_serializer_class
  | _ => serializer_class
  end.

(** The requests modelled: the two reads, rendered with [serializer_class],
    that is [TitlesSerializer], and the deletion. *)
Inductive Request :=
| List
| Retrieve (pk : nat)
| Destroy (pk : nat).

Definition method_of (r : Request) : Method :=
  match r with
  | List | Retrieve _ => GET
  | Destroy _ => DELETE
  end.

Definition get_object (pk : nat) (d : DB) : result TitlesSerializer.Instance :=
  get_object_or_404 (filter (fun o => Titles.pk o.1 = pk) (queryset d)).

(** The items of the list response, in the order of the table (query
    parameters for filtering and paging are not modelled). *)
Definition handle_list (d : DB) : Outcome * DB :=
  (Response (JList (map TitlesSerializer.to_representation (queryset d)))
            HTTP_200_OK, d).

Definition handle_retrieve (pk : nat) (d : DB) : Outcome * DB :=
  match get_object pk d with
  | Ok o => (Response (TitlesSerializer.to_representation o) HTTP_200_OK, d)
  | Raise e => (handle_exception e, d)
  end.

Definition handle_destroy (pk : nat) (d : DB) : Outcome * DB :=
  match get_object pk d with
  | Ok o => (Response JNull HTTP_204_NO_CONTENT, cascade.delete_title o.1 d)
  | Raise e => (handle_exception e, d)
  end.

Definition dispatch (user : option User.t) (r : Request) (d : DB) : Outcome * DB :=
  if permissions.AdminOrReadOnly (method_of r) user
  then match r with
       | List => handle_list d
       | Retrieve pk => handle_retrieve pk d
       | Destroy pk => handle_destroy pk d
       end
  else (handle_exception (permissions.denied user), d).

End TitlesViewSet.

Module CategoriesViewSet.
Import orm.

(** The requests modelled; [Retrieve slug] is GET /categories/{slug}. *)
Inductive Request :=
| Create (data : RequestData)
| Retrieve (slug : string)
| PartialUpdate (slug : string) (data : RequestData)
| Destroy (slug : string).

Definition method_of (r : Request) : Method :=
  match r with
  | Create _ => POST
  | Retrieve _ => GET
  | PartialUpdate _ _ => PATCH
  | Destroy _ => DELETE
  end.

(** [create], inherited: validate, insert, answer 201. *)
Definition create (data : RequestData) (d : DB) : Outcome * DB :=
  match CategoriesSerializer.to_internal_value data with
  | inl errors => (Response (errors_json errors) HTTP_400_BAD_REQUEST, d)
  | inr (name, slug) =>
      let t := categories d in
      let c := Categories.mk (seq t) name slug in
      (Response (CategoriesSerializer.to_representation c) HTTP_201_CREATED,
       with_categories (mkTable (rows t ++ [c]) (S (seq t))) d)
  end.

Definition retrieve (slug : string) (d : DB) : Outcome * DB :=
  (Response JNull HTTP_405_METHOD_NOT_ALLOWED, d).

Definition partial_update (slug : string) (data : RequestData) (d : DB)
  : Outcome * DB :=
  (Response JNull HTTP_405_METHOD_NOT_ALLOWED, d).

(** [destroy], inherited, with [lookup_field = 'slug']. *)
Definition destroy (slug : string) (d : DB) : Outcome * DB :=
  match get_object_or_404
          (filter (fun c => Categories.slug c = slug) (rows (categories d))) with
  | Ok c =>
      (Response JNull HTTP_204_NO_CONTENT,
       with_categories
         (cascade.delete_where (fun x => Categories.pk x = Categories.pk c) (categories d)) d)
  | Raise e => (handle_exception e, d)
  end.

Definition dispatch (user : option User.t) (r : Request) (d : DB) : Outcome * DB :=
  if permissions.AdminOrReadOnly (method_of r) user
  then match r with
       | Create data => create data d
       | Retrieve slug => retrieve slug d
       | PartialUpdate slug data => partial_update slug data d
       | Destroy slug => destroy slug d
       end
  else (handle_exception (permissions.denied user), d).

End CategoriesViewSet.

Module GenresViewSet.
Import orm.

Inductive Request :=
| Create (data : RequestData)
| Retrieve (slug : string)
| Destroy (slug : string).

Definition method_of (r : Request) : Method :=
  match r with
  | Create _ => POST
  | Retrieve _ => GET
  | Destroy _ => DELETE
  end.

Definition create (data : RequestData) (d : DB) : Outcome * DB :=
  match GenresSerializer.to_internal_value data with
  | inl errors => (Response (errors_json errors) HTTP_400_BAD_REQUEST, d)
  | inr (name, slug) =>
      let t := genres d in
      let g := Genres.mk (seq t) name slug in
      (Response (GenresSerializer.to_representation g) HTTP_201_CREATED,
       with_genres (mkTable (rows t ++ [g]) (S (seq t))) d)
  end.

Definition retrieve (slug : string) (d : DB) : Outcome * DB :=
  (Response JNull HTTP_405_METHOD_NOT_ALLOWED, d).

Definition destroy (slug : string) (d : DB) : Outcome * DB :=
  match get_object_or_404
          (filter (fun g => Genres.slug g = slug) (rows (genres d))) with
  | Ok g =>
      (Response JNull HTTP_204_NO_CONTENT,
       with_genres (cascade.delete_where (fun x => Genres.pk x = Genres.pk g) (genres d)) d)
  | Raise e => (handle_exception e, d)
  end.

Definition dispatch (user : option User.t) (r : Request) (d : DB) : Outcome * DB :=
  if permissions.AdminOrReadOnly (method_of r) user
  then match r with
       | Create data => create data d
       | Retrieve slug => retrieve slug d
       | Destroy slug => destroy slug d
       end
  else (handle_exception (permissions.denied user), d).

End GenresViewSet.

(** ** api/views.py: reviews *)

Module ReviewsViewSet.
Section handlers.
Context `{Collaborators}.
Import orm.

Inductive Request :=
| List
| Create (data : RequestData)
| Retrieve (pk : nat)
| Update (pk : nat) (data : RequestData)
| PartialUpdate (pk : nat) (data : RequestData)
| Destroy (pk : nat).

Definition method_of (r : Request) : Method :=
  match r with
  | List | Retrieve _ => GET
  | Create _ => POST
  | Update _ _ => PUT
  | PartialUpdate _ _ => PATCH
  | Destroy _ => DELETE
  end.

Definition title_by_pk (title_id : nat) (d : DB) : list Titles.t :=
  filter (fun t => Titles.pk t = title_id) (rows (titles d)).

Definition get_queryset (title_id : nat) (d : DB) : result (list Reviews.t) :=
  try! title := get_object_or_404 (title_by_pk title_id d) in
  Ok (filter (fun r => Reviews.title r = Titles.pk title) (rows (reviews d))).

(** [serializer.save(author=..., title=...)] on a new row. *)
Definition save_new (author : User.t) (title : Titles.t) (now : nat)
    (validated_data : string * Z) (d : DB) : Reviews.t * DB :=
  let t := reviews d in
  let r := Reviews.mk (seq t) (Titles.pk title) validated_data.1
                      (User.pk author) validated_data.2 now in
  (r, with_reviews (mkTable (rows t ++ [r]) (S (seq t))) d).

Definition perform_create (request_user : User.t) (title_id : nat) (now : nat)
    (validated_data : string * Z) (d : DB) : result (Reviews.t * DB) :=
  try! title := get_object_or_404 (title_by_pk title_id d) in
  if exists_ (filter (fun r => Reviews.author r = User.pk request_user)
                     (TitlesViewSet.reviews_of (Titles.pk title) d))
  then Raise (ValidationError ["Можно добавить только один отзыв к произведению"])
  else Ok (save_new request_user title now validated_data d).

(** [create], inherited: the body is validated before [perform_create]. *)
Definition create (request_user : User.t) (title_id : nat) (now : nat)
    (data : RequestData) (d : DB) : Outcome * DB :=
  match ReviewsSerializer data with
  | inl errors => (Response (errors_json errors) HTTP_400_BAD_REQUEST, d)
  | inr validated_data =>
      match perform_create request_user title_id now validated_data d with
      | Ok (r, d') => (Response (ReviewsSerializer_data r) HTTP_201_CREATED, d')
      | Raise e => (handle_exception e, d)
      end
  end.

(** [get_object]: the row of that key among the title's reviews, subject to
    the object permission. *)
Definition get_object (user : option User.t) (m : Method) (title_id pk : nat)
    (d : DB) : result Reviews.t :=
  try! qs := get_queryset title_id d in
  try! r := get_object_or_404 (filter (fun r => Reviews.pk r = pk) qs) in
  if permissions.AuthorAdminModeratorOrReadOnly_object m user (Reviews.author r)
  then Ok r
  else Raise (permissions.denied user).

(** [serializer.save()] on an existing row: the validated fields are
    assigned and the row rewritten. *)
Definition save_changes (r : Reviews.t) (validated_data : option string * option Z)
    (d : DB) : Reviews.t * DB :=
  let r' := Reviews.mk (Reviews.pk r) (Reviews.title r)
                       (default (Reviews.text r) validated_data.1)
                       (Reviews.author r)
                       (default (Reviews.score r) validated_data.2)
                       (Reviews.pub_date r) in
  let t := reviews d in
  (r', with_reviews
         (mkTable (map (fun x => if decide (Reviews.pk x = Reviews.pk r) then r' else x)
                       (rows t)) (seq t)) d).

Definition handle_list (title_id : nat) (d : DB) : Outcome * DB :=
  match get_queryset title_id d with
  | Ok qs => (Response (JList (map ReviewsSerializer_data qs)) HTTP_200_OK, d)
  | Raise e => (handle_exception e, d)
  end.

Definition handle_retrieve (user : option User.t) (title_id pk : nat) (d : DB)
  : Outcome * DB :=
  match get_object user GET title_id pk d with
  | Ok r => (Response (ReviewsSerializer_data r) HTTP_200_OK, d)
  | Raise e => (handle_exception e, d)
  end.

Definition handle_update (user : option User.t) (title_id pk : nat)
    (data : RequestData) (d : DB) : Outcome * DB :=
  match get_object user PUT title_id pk d with
  | Ok r =>
      match ReviewsSerializer data with
      | inl errors => (Response (errors_json errors) HTTP_400_BAD_REQUEST, d)
      | inr v =>
          let (r', d') := save_changes r (Some v.1, Some v.2) d in
          (Response (ReviewsSerializer_data r') HTTP_200_OK, d')
      end
  | Raise e => (handle_exception e, d)
  end.

Definition handle_partial_update (user : option User.t) (title_id pk : nat)
    (data : RequestData) (d : DB) : Outcome * DB :=
  match get_object user PATCH title_id pk d with
  | Ok r =>
      match ReviewsSerializer_partial data with
      | inl errors => (Response (errors_json errors) HTTP_400_BAD_REQUEST, d)
      | inr v =>
          let (r', d') := save_changes r v d in
          (Response (ReviewsSerializer_data r') HTTP_200_OK, d')
      end
  | Raise e => (handle_exception e, d)
  end.

Definition handle_destroy (user : option User.t) (title_id pk : nat) (d : DB)
  : Outcome * DB :=
  match get_object user DELETE title_id pk d with
  | Ok r => (Response JNull HTTP_204_NO_CONTENT, cascade.delete_review r d)
  | Raise e => (handle_exception e, d)
  end.

(** A request to /titles/{title_id}/reviews/ by [user] at time [now]. *)
Definition dispatch (user : option User.t) (title_id : nat) (now : nat)
    (r : Request) (d : DB) : Outcome * DB :=
  if permissions.AuthorAdminModeratorOrReadOnly (method_of r) user
  then match r with
       | List => handle_list title_id d
       | Create data =>
           match user with
           | Some u => create u title_id now data d
           | None => (handle_exception NotAuthenticated, d)
           end
       | Retrieve pk => handle_retrieve user title_id pk d
       | Update pk data => handle_update user title_id pk data d
       | PartialUpdate pk data => handle_partial_update user title_id pk data d
       | Destroy pk => handle_destroy user title_id pk d
       end
  else (handle_exception (permissions.denied user), d).

End handlers.
End ReviewsViewSet.

(** ** The API as a whole: requests and their sequences *)

Section api.
Context `{Collaborators}.
Import orm.

(** The endpoints modelled.  Left out are the endpoints that only read,
    the administrator's reads and updates of users by username, the writes
    of titles and the comments: none of them inserts a user, a category, a
    genre or a review, and none changes the author or the title of a
    review. *)
Inductive Endpoint :=
| AuthSignup (data : RequestData)
| AuthToken (data : RequestData)
| UsersCreate (data : RequestData)
| UsersMe (m : Method) (data : RequestData)
| UsersDestroy (username : string)
| TitlesEndpoint (r : TitlesViewSet.Request)
| CategoriesEndpoint (r : CategoriesViewSet.Request)
| GenresEndpoint (r : GenresViewSet.Request)
| ReviewsEndpoint (title_id : nat) (r : ReviewsViewSet.Request).

(** A request: the key of the user its token names (none for an anonymous
    request), the time it arrives, and what it asks. *)
Record Call := mkCall {
  credentials : option nat;
  now : nat;
  endpoint : Endpoint;
}.

(** [request.user]: the row the token names, loaded when the request
    arrives; a token that names no row is refused. *)
Definition authenticate (c : option nat) (w : World) : result (option User.t) :=
  match c with
  | None => Ok None
  | Some pk =>
      match first (filter (fun u => User.pk u = pk) (user_rows w)) with
      | Some u => Ok (Some u)
      | None => Raise NotAuthenticated
      end
  end.

Definition on_db (f : DB -> Outcome * DB) (w : World) : Outcome * World :=
  let (o, d) := f (db w) in (o, set_db d w).

Definition refuse (user : option User.t) (w : World) : Outcome * World :=
  (handle_exception (permissions.denied user), w).

Definition api (c : Call) (w : World) : Outcome * World :=
  match authenticate (credentials c) w with
  | Raise e => (handle_exception e, w)
  | Ok user =>
      match endpoint c with
      | AuthSignup data => signup data w
      | AuthToken data => get_token data w
      | UsersCreate data =>
          if permissions.AdminAndSuperUser user
          then UserViewSet.create data w else refuse user w
      | UsersMe m data =>
          match user with
          | Some u =>
              if decide (m = GET \/ m = PATCH)
              then UserViewSet.me u m data w
              else (Response JNull HTTP_405_METHOD_NOT_ALLOWED, w)
          | None => refuse user w
          end
      | UsersDestroy username =>
          if permissions.AdminAndSuperUser user
          then UserViewSet.destroy username w else refuse user w
      | TitlesEndpoint r => on_db (TitlesViewSet.dispatch user r) w
      | CategoriesEndpoint r => on_db (CategoriesViewSet.dispatch user r) w
      | GenresEndpoint r => on_db (GenresViewSet.dispatch user r) w
      | ReviewsEndpoint title_id r =>
          on_db (ReviewsViewSet.dispatch user title_id (now c) r) w
      end
  end.

(** The world after a sequence of requests, served one after the other. *)
Fixpoint run (cs : list Call) (w : World) : World :=
  match cs with
  | [] => w
  | c :: cs' => run cs' (api c w).2
  end.

(** [n] calls of [signup] with the same body. *)
Fixpoint signup_times (n : nat) (data : RequestData) (w : World) : World :=
  match n with
  | O => w
  | S n' => signup_times n' data (signup data w).2
  end.

(** The world after the token requests [ds], served in order. *)
Fixpoint get_token_all (ds : list RequestData) (w : World) : World :=
  match ds with
  | [] => w
  | d :: ds' => get_token_all ds' (get_token d w).2
  end.

End api.

(** ** Constraints and invariants of the store *)

(** The constraints the user table carries: unique [username], unique
    primary key, keys below the sequence. *)
Definition users_wf (t : orm.Table User.t) : Prop :=
  NoDup (map User.username (orm.rows t))
  /\ NoDup (map User.pk (orm.rows t))
  /\ Forall (fun u => User.pk u < orm.seq t) (orm.rows t).

(** The rows of a table have pairwise distinct keys, all below the sequence. *)
Definition keys_wf {A} (pk : A -> nat) (t : orm.Table A) : Prop :=
  NoDup (map pk (orm.rows t)) /\ Forall (fun a => pk a < orm.seq t) (orm.rows t).

(** The reviews of author [u] on title [t]. *)
Definition reviews_by (u t : nat) (d : DB) : list Reviews.t :=
  filter (fun r => Reviews.author r = u /\ Reviews.title r = t) (orm.rows (reviews d)).

Definition one_review_per_pair (d : DB) : Prop :=
  forall u t, length (reviews_by u t d) <= 1.

(** No two categories share a slug and no two genres share a slug. *)
Definition slugs_unique (d : DB) : Prop :=
  NoDup (map Categories.slug (orm.rows (categories d)))
  /\ NoDup (map Genres.slug (orm.rows (genres d))).

#[global] Instance slugs_unique_dec d : Decision (slugs_unique d).
Proof. unfold slugs_unique. apply _. Defined.

(** The rows that hold the pair [(username, email)]. *)
Definition with_pair (username email : string) (l : list User.t) : list User.t :=
  filter (fun u => User.username u = username /\ User.email u = email) l.

(** The rows of the user table after the row of [u]'s key is rewritten
    as [u]. *)
Definition rewrite_row (u : User.t) (l : list User.t) : list User.t :=
  map (fun r => if decide (User.pk r = User.pk u) then u else r) l.

(** The username is free or held by a row with that very email: what
    [get_or_create] by the pair needs in order not to hit the unique index. *)
Definition signable (username email : string) (t : orm.Table User.t) : Prop :=
  forall u, u ∈ orm.rows t -> User.username u = username -> User.email u = email.

(** The keyword arguments [signup] passes to [get_or_create]. *)
Definition pair_kwargs (username email : string) : UserFields :=
  mkUserFields (Some username) (Some email) None None.

(** The body of the answer to a successful [signup]. *)
Definition signup_data (username email : string) : JSON :=
  JObject [("username", JStr username); ("email", JStr email)].

(** The world a successful [signup] leaves: the user table is [t], the
    generator has advanced, the code it yielded went out by mail. *)
Definition signed_up `{Collaborators} (w : World) (t : orm.Table User.t)
    (email : string) : World :=
  mkWorld (with_users t (db w)) (generator (gen w)).2
          (outbox w ++ [(email, Some (generator (gen w)).1)]).

(** Some row holds the username. *)
Definition has_name (username : string) (t : orm.Table User.t) : Prop :=
  exists x, x ∈ orm.rows t /\ User.username x = username.

(** What one request may do to the review table: remove rows; rewrite rows
    without touching their key, author and title; or append one row, keyed
    by the sequence, for a pair (author, title) that has no review yet. *)
Inductive reviews_step (t t' : orm.Table Reviews.t) : Prop :=
| step_remove :
    orm.rows t' `sublist_of` orm.rows t -> orm.seq t' = orm.seq t ->
    reviews_step t t'
| step_rewrite (g : Reviews.t -> Reviews.t) :
    orm.rows t' = map g (orm.rows t) -> orm.seq t' = orm.seq t ->
    (forall x, x ∈ orm.rows t ->
               Reviews.pk (g x) = Reviews.pk x
               /\ Reviews.author (g x) = Reviews.author x
               /\ Reviews.title (g x) = Reviews.title x) ->
    reviews_step t t'
| step_append (r : Reviews.t) :
    orm.rows t' = orm.rows t ++ [r] -> orm.seq t' = S (orm.seq t) ->
    Reviews.pk r = orm.seq t ->
    filter (fun x => Reviews.author x = Reviews.author r
                     /\ Reviews.title x = Reviews.title r) (orm.rows t) = [] ->
    reviews_step t t'.

(** The review table satisfies its key constraint and holds at most one
    review per author and title. *)
Definition reviews_ok (d : DB) : Prop :=
  keys_wf Reviews.pk (reviews d) /\ one_review_per_pair d.

(** The message of the refusal of a second review. *)
Definition one_review_message : string :=
  "Можно добавить только один отзыв к произведению".

(** A create operation on the two slugged resources: POST /categories/ or
    POST /genres/ by [user] with the body [data]. *)
Inductive Creation :=
| NewCategory (user : option User.t) (data : RequestData)
| NewGenre (user : option User.t) (data : RequestData).

Definition create_one (c : Creation) (d : DB) : DB :=
  match c with
  | NewCategory user data =>
      (CategoriesViewSet.dispatch user (CategoriesViewSet.Create data) d).2
  | NewGenre user data =>
      (GenresViewSet.dispatch user (GenresViewSet.Create data) d).2
  end.

Fixpoint create_all (cs : list Creation) (d : DB) : DB :=
  match cs with
  | [] => d
  | c :: cs' => create_all cs' (create_one c d)
  end.

(** What the slug column does guarantee of a stored value. *)
Definition valid_slug (s : string) : Prop :=
  s <> "" /\ String.length s <= 50 /\ fields.all_chars fields.is_slug_char s = true.

(** The keys of both tables are distinct and every stored slug is valid. *)
Definition slugged_ok (d : DB) : Prop :=
  keys_wf Categories.pk (categories d)
  /\ keys_wf Genres.pk (genres d)
  /\ Forall (fun c => valid_slug (Categories.slug c)) (orm.rows (categories d))
  /\ Forall (fun g => valid_slug (Genres.slug g)) (orm.rows (genres d)).

(** The sum of a list of scores. *)
Definition total (values : list Z) : Z := foldr Z.add 0%Z values.

(** ** A concrete set of collaborators and a few stores, for the examples *)

Module example.

Definition str_member (key : string) (data : RequestData) : option string :=
  match dict_get key data with
  | Some (JStr s) => Some s
  | _ => None
  end.

(** A text member: absent, or a string. *)
Definition text_member (key : string) (data : RequestData)
  : list string + option string :=
  match dict_get key data with
  | None => inr None
  | Some (JStr s) => inr (Some s)
  | Some _ => inl ["invalid"]
  end.

(** A nullable text member: absent, null, or a string. *)
Definition nullable_member (key : string) (data : RequestData)
  : list string + option (option string) :=
  match dict_get key data with
  | None => inr None
  | Some JNull => inr (Some None)
  | Some (JStr s) => inr (Some (Some s))
  | Some _ => inl ["invalid"]
  end.

(** A user serializer that checks the type of each member, requires
    [username] and [email] unless partial, and refuses a [username] that a
    row other than the instance holds. *)
Definition user_serializer (rows : list User.t) (instance : option User.t)
    (partial : bool) (data : RequestData) : Errors + UserFields :=
  match text_member "username" data, text_member "email" data,
        nullable_member "bio" data, nullable_member "role" data with
  | inr u, inr e, inr b, inr r =>
      if negb partial && negb (bool_decide (is_Some u /\ is_Some e))
      then inl [("non_field_errors", ["required"])]
      else if bool_decide (Exists (fun x => Some (User.username x) = u
                                           /\ Some (User.pk x) <> (User.pk <$> instance)) rows)
      then inl [("username", ["unique"])]
      else inr (mkUserFields u e b r)
  | inl err, _, _, _ => inl [("username", err)]
  | _, inl err, _, _ => inl [("email", err)]
  | _, _, inl err, _ => inl [("bio", err)]
  | _, _, _, inl err => inl [("role", err)]
  end.

Definition pair_serializer (k1 k2 : string) (data : RequestData)
  : Errors + (string * string) :=
  match str_member k1 data, str_member k2 data with
  | Some a, Some b => inr (a, b)
  | None, _ => inl [(k1, ["required"])]
  | _, None => inl [(k2, ["required"])]
  end.

Definition reviews_serializer_partial (data : RequestData)
  : Errors + (option string * option Z) :=
  match text_member "text" data, dict_get "score" data with
  | inr t, None => inr (t, None)
  | inr t, Some (JInt z) =>
      if decide (1 <= z <= 10)%Z then inr (t, Some z) else inl [("score", ["invalid"])]
  | inr _, Some _ => inl [("score", ["invalid"])]
  | inl err, _ => inl [("text", err)]
  end.

Definition reviews_serializer (data : RequestData) : Errors + (string * Z) :=
  match reviews_serializer_partial data with
  | inr (Some t, Some z) => inr (t, z)
  | inr _ => inl [("non_field_errors", ["required"])]
  | inl err => inl err
  end.

Definition reviews_data (r : Reviews.t) : JSON :=
  JObject [("id", JInt (Z.of_nat (Reviews.pk r)));
           ("text", JStr (Reviews.text r));
           ("author", JInt (Z.of_nat (Reviews.author r)));
           ("score", JInt (Reviews.score r));
           ("pub_date", JInt (Z.of_nat (Reviews.pub_date r)))].

#[global] Instance collaborators : Collaborators := {|
  GenState := nat;
  generator := fun n => ("code-" +:+ pretty n, S n);
  get_tokens_for_user := fun u => JObject [("token", JStr ("jwt:" +:+ User.username u))];
  UserSerializer := user_serializer;
  SignUpSerializer := pair_serializer "username" "email";
  GetTokenSerializer := pair_serializer "username" "confirmation_code";
  ReviewsSerializer := reviews_serializer;
  ReviewsSerializer_partial := reviews_serializer_partial;
  ReviewsSerializer_data := reviews_data;
|}.



Definition alice : User.t :=
  User.mk 1 "alice" "a@x.com" false None (Some "user").

Definition bob : User.t :=
  User.mk 2 "bob" "b@x.com" false (Some "critic") (Some "admin").

Definition world (us : list User.t) (next : nat) (d : DB) : World :=
  mkWorld (with_users (orm.mkTable us next) d) next [].

(** A store with one user and one with two. *)
Definition w_alice : World := world [alice] 2 empty_db.
Definition w_two : World := world [alice; bob] 3 empty_db.

Definition dune : Titles.t := Titles.mk 1 "Dune" 1965 None "sci-fi" "book".

(** A store with the title [dune] and two reviews of it, of scores 7 and 8. *)
Definition d_reviewed : DB :=
  with_reviews (orm.mkTable [Reviews.mk 1 1 "fine" 1 7 10; Reviews.mk 2 1 "good" 2 8 11] 3)
    (with_titles (orm.mkTable [dune] 2) (db w_two)).

Definition body (members : list (string * string)) : RequestData :=
  map (fun kv => (kv.1, JStr kv.2)) members.

(** A store without users, and request bodies used below. *)
Definition w_empty : World := mkWorld empty_db 0 [].



Definition signup_alice : RequestData :=
  body [("username", "alice"); ("email", "a@x.com")].

Definition token_alice : RequestData :=
  body [("username", "alice"); ("confirmation_code", "code-0")].

(** The world over [d_reviewed], a review body, and the request of the user
    of key [pk] to post it on the title of key [title]. *)
Definition w_reviewed : World := mkWorld d_reviewed 0 [].

Definition review_body : RequestData := [("text", JStr "again"); ("score", JInt 3)].

Definition post_review (pk title : nat) : Call :=
  mkCall (Some pk) 20 (ReviewsEndpoint title (ReviewsViewSet.Create review_body)).

(** Two category bodies with the same slug, posted by the admin [bob]. *)
Definition film : RequestData := body [("name", "Film"); ("slug", "film")].
Definition movie : RequestData := body [("name", "Movie"); ("slug", "film")].

Definition same_slug_twice : list Creation :=
  [NewCategory (Some bob) film; NewCategory (Some bob) movie].

End example.

(** ** api/views.py: comments *)

(** What [CommentsViewSet] imports from outside the sources at hand:
    [CommentsSerializer], given as the validated [text] of a complete body,
    the one a partial body supplies, and the rendering of a row; the author
    and the review of a comment are not writable through it (the handler
    sets them). *)
Class CommentCollaborators := {
  CommentsSerializer : RequestData -> Errors + string;
  CommentsSerializer_partial : RequestData -> Errors + option string;
  CommentsSerializer_data : Comments.t -> JSON;
}.

Module CommentsViewSet.
Section handlers.
Context `{CommentCollaborators}.
Import orm.

Inductive Request :=
| List
| Create (data : RequestData)
| Retrieve (pk : nat)
| Update (pk : nat) (data : RequestData)
| PartialUpdate (pk : nat) (data : RequestData)
| Destroy (pk : nat).

Definition method_of (r : Request) : Method :=
  match r with
  | List | Retrieve _ => GET
  | Create _ => POST
  | Update _ _ => PUT
  | PartialUpdate _ _ => PATCH
  | Destroy _ => DELETE
  end.

(** [rest_framework.permissions.IsAuthenticatedOrReadOnly] *)
Definition IsAuthenticatedOrReadOnly (m : Method) (user : option User.t) : bool :=
  permissions.is_safe m || bool_decide (is_Some user).

(** [permission_classes]: both classes must allow the request. *)
Definition has_permission (m : Method) (user : option User.t) : bool :=
  permissions.AuthorAdminModeratorOrReadOnly m user && IsAuthenticatedOrReadOnly m user.

(** [get_object_or_404(Review, pk=review_id, title=title_id)] *)
Definition get_review (title_id review_id : nat) (d : DB) : result Reviews.t :=
  get_object_or_404
    (filter (fun r => Reviews.pk r = review_id /\ Reviews.title r = title_id)
            (rows (reviews d))).

Definition get_queryset (title_id review_id : nat) (d : DB)
  : result (list Comments.t) :=
  try! review := get_review title_id review_id d in
  Ok (filter (fun c => Comments.review c = Reviews.pk review) (rows (comments d))).

(** [perform_create]: the review is looked up under the title, then
    [serializer.save(author=self.request.user, review=review)] inserts. *)
Definition perform_create (request_user : User.t) (title_id review_id now : nat)
    (text : string) (d : DB) : result (Comments.t * DB) :=
  try! review := get_review title_id review_id d in
  let t := comments d in
  let c := Comments.mk (seq t) text (Reviews.pk review) (User.pk request_user) now in
  Ok (c, with_comments (mkTable (rows t ++ [c]) (S (seq t))) d).

(** [create], inherited: the body is validated before [perform_create]. *)
Definition create (request_user : User.t) (title_id review_id now : nat)
    (data : RequestData) (d : DB) : Outcome * DB :=
  match CommentsSerializer data with
  | inl errors => (Response (errors_json errors) HTTP_400_BAD_REQUEST, d)
  | inr text =>
      match perform_create request_user title_id review_id now text d with
      | Ok (c, d') => (Response (CommentsSerializer_data c) HTTP_201_CREATED, d')
      | Raise e => (handle_exception e, d)
      end
  end.

(** [get_object]: the row of that key among the review's comments, subject
    to the object permission. *)
Definition get_object (user : option User.t) (m : Method)
    (title_id review_id pk : nat) (d : DB) : result Comments.t :=
  try! qs := get_queryset title_id review_id d in
  try! c := get_object_or_404 (filter (fun c => Comments.pk c = pk) qs) in
  if permissions.AuthorAdminModeratorOrReadOnly_object m user (Comments.author c)
  then Ok c
  else Raise (permissions.denied user).

(** [serializer.save()] on an existing row. *)
Definition save_changes (c : Comments.t) (text : option string) (d : DB)
  : Comments.t * DB :=
  let c' := Comments.mk (Comments.pk c) (default (Comments.text c) text)
                        (Comments.review c) (Comments.author c)
                        (Comments.pub_date c) in
  let t := comments d in
  (c', with_comments
         (mkTable (map (fun x => if decide (Comments.pk x = Comments.pk c) then c' else x)
                       (rows t)) (seq t)) d).

Definition handle_list (title_id review_id : nat) (d : DB) : Outcome * DB :=
  match get_queryset title_id review_id d with
  | Ok qs => (Response (JList (map CommentsSerializer_data qs)) HTTP_200_OK, d)
  | Raise e => (handle_exception e, d)
  end.

Definition handle_retrieve (user : option User.t) (title_id review_id pk : nat)
    (d : DB) : Outcome * DB :=
  match get_object user GET title_id review_id pk d with
  | Ok c => (Response (CommentsSerializer_data c) HTTP_200_OK, d)
  | Raise e => (handle_exception e, d)
  end.

Definition handle_update (user : option User.t) (title_id review_id pk : nat)
    (data : RequestData) (d : DB) : Outcome * DB :=
  match get_object user PUT title_id review_id pk d with
  | Ok c =>
      match CommentsSerializer data with
      | inl errors => (Response (errors_json errors) HTTP_400_BAD_REQUEST, d)
      | inr text =>
          let (c', d') := save_changes c (Some text) d in
          (Response (CommentsSerializer_data c') HTTP_200_OK, d')
      end
  | Raise e => (handle_exception e, d)
  end.

Definition handle_partial_update (user : option User.t) (title_id review_id pk : nat)
    (data : RequestData) (d : DB) : Outcome * DB :=
  match get_object user PATCH title_id review_id pk d with
  | Ok c =>
      match CommentsSerializer_partial data with
      | inl errors => (Response (errors_json errors) HTTP_400_BAD_REQUEST, d)
      | inr text =>
          let (c', d') := save_changes c text d in
          (Response (CommentsSerializer_data c') HTTP_200_OK, d')
      end
  | Raise e => (handle_exception e, d)
  end.

Definition handle_destroy (user : option User.t) (title_id review_id pk : nat)
    (d : DB) : Outcome * DB :=
  match get_object user DELETE title_id review_id pk d with
  | Ok c =>
      (Response JNull HTTP_204_NO_CONTENT,
       with_comments
         (cascade.delete_where (fun x => Comments.pk x = Comments.pk c) (comments d)) d)
  | Raise e => (handle_exception e, d)
  end.

(** A request to /titles/{title_id}/reviews/{review_id}/comments/ by [user]
    at time [now]. *)
Definition dispatch (user : option User.t) (title_id review_id now : nat)
    (r : Request) (d : DB) : Outcome * DB :=
  if has_permission (method_of r) user
  then match r with
       | List => handle_list title_id review_id d
       | Create data =>
           match user with
           | Some u => create u title_id review_id now data d
           | None => (handle_exception NotAuthenticated, d)
           end
       | Retrieve pk => handle_retrieve user title_id review_id pk d
       | Update pk data => handle_update user title_id review_id pk data d
       | PartialUpdate pk data => handle_partial_update user title_id review_id pk data d
       | Destroy pk => handle_destroy user title_id review_id pk d
       end
  else (handle_exception (permissions.denied user), d).

End handlers.
End CommentsViewSet.

(** ** The API with the comments *)

Section api_all.
Context `{Collaborators} `{CommentCollaborators}.
Import orm.

(** A request to one of the endpoints of [api], or to the comments of a
    review.  These are the requests written out here: registration and
    token exchange; creation of a user by an administrator, the caller's own
    profile, deletion of a user; list, retrieval and deletion of titles;
    creation, retrieval, PATCH and deletion of categories; creation,
    retrieval and deletion of genres; and every request on reviews and on
    comments.  The other requests the views serve (creation and update of
    titles, PUT of a category, the administrator's list, retrieval and PATCH
    of users, the lists of categories and genres) are not among them. *)
Inductive AnyCall :=
| CoreCall (c : Call)
| CommentsCall (credentials : option nat) (now : nat) (title_id review_id : nat)
               (r : CommentsViewSet.Request).

Definition api_all (c : AnyCall) (w : World) : Outcome * World :=
  match c with
  | CoreCall c => api c w
  | CommentsCall cred now title_id review_id r =>
      match authenticate cred w with
      | Raise e => (handle_exception e, w)
      | Ok user => on_db (CommentsViewSet.dispatch user title_id review_id now r) w
      end
  end.

Fixpoint run_all (cs : list AnyCall) (w : World) : World :=
  match cs with
  | [] => w
  | c :: cs' => run_all cs' (api_all c w).2
  end.

(** The requests that only read: the token exchange and every GET. *)
Definition reads (c : AnyCall) : bool :=
  match c with
  | CoreCall c =>
      match endpoint c with
      | AuthToken _ => true
      | UsersMe m _ => bool_decide (m = GET)
      | TitlesEndpoint r => bool_decide (TitlesViewSet.method_of r = GET)
      | CategoriesEndpoint r => bool_decide (CategoriesViewSet.method_of r = GET)
      | GenresEndpoint r => bool_decide (GenresViewSet.method_of r = GET)
      | ReviewsEndpoint _ r => bool_decide (ReviewsViewSet.method_of r = GET)
      | _ => false
      end
  | CommentsCall _ _ _ _ r => bool_decide (CommentsViewSet.method_of r = GET)
  end.

End api_all.

(** ** Integrity of the store as a whole *)

(** Every table satisfies its key constraint, the user table also the
    uniqueness of [username]. *)
Definition store_ok (d : DB) : Prop :=
  users_wf (users d)
  /\ keys_wf Titles.pk (titles d)
  /\ keys_wf Categories.pk (categories d)
  /\ keys_wf Genres.pk (genres d)
  /\ keys_wf Reviews.pk (reviews d)
  /\ keys_wf Comments.pk (comments d).

Definition user_exists (pk : nat) (d : DB) : Prop :=
  exists u, u ∈ orm.rows (users d) /\ User.pk u = pk.

Definition title_exists (pk : nat) (d : DB) : Prop :=
  exists t, t ∈ orm.rows (titles d) /\ Titles.pk t = pk.

Definition review_exists (pk : nat) (d : DB) : Prop :=
  exists r, r ∈ orm.rows (reviews d) /\ Reviews.pk r = pk.

(** No foreign key dangles: the title and the author of every review are
    stored, and so are the review and the author of every comment. *)
Definition references_ok (d : DB) : Prop :=
  (forall r, r ∈ orm.rows (reviews d) ->
             title_exists (Reviews.title r) d /\ user_exists (Reviews.author r) d)
  /\ (forall c, c ∈ orm.rows (comments d) ->
                review_exists (Comments.review c) d /\ user_exists (Comments.author c) d).


Module example_comments.

Definition comments_serializer_partial (data : RequestData) : Errors + option string :=
  match example.text_member "text" data with
  | inr t => inr t
  | inl err => inl [("text", err)]
  end.

Definition comments_serializer (data : RequestData) : Errors + string :=
  match comments_serializer_partial data with
  | inr (Some t) => inr t
  | inr None => inl [("text", ["required"])]
  | inl err => inl err
  end.

Definition comments_data (c : Comments.t) : JSON :=
  JObject [("id", JInt (Z.of_nat (Comments.pk c)));
           ("text", JStr (Comments.text c));
           ("author", JInt (Z.of_nat (Comments.author c)));
           ("pub_date", JInt (Z.of_nat (Comments.pub_date c)))].

#[global] Instance collaborators : CommentCollaborators := {|
  CommentsSerializer := comments_serializer;
  CommentsSerializer_partial := comments_serializer_partial;
  CommentsSerializer_data := comments_data;
|}.

(** [example.d_reviewed] with a second title, [emma], a review of it by
    [alice], and two comments on the first review of [dune]. *)
Definition emma : Titles.t := Titles.mk 2 "Emma" 1815 None "novel" "book".

Definition d_commented : DB :=
  with_comments
    (orm.mkTable [Comments.mk 1 "agreed" 1 2 12; Comments.mk 2 "thanks" 1 1 13] 3)
    (with_reviews
       (orm.mkTable [Reviews.mk 1 1 "fine" 1 7 10; Reviews.mk 2 1 "good" 2 8 11;
                     Reviews.mk 3 2 "witty" 1 9 12] 4)
       (with_titles (orm.mkTable [example.dune; emma] 3) (db example.w_two))).

Definition w_commented : World := mkWorld d_commented 0 [].

Definition comment_body : RequestData := [("text", JStr "indeed")].

(** A session over [w_commented]: [carol] registers; [bob], an
    administrator, reviews [emma]; [carol] comments on that review; [bob]
    creates a category, deletes the title [dune] and then the user
    [alice]. *)
Definition session : list AnyCall :=
  [CoreCall (mkCall None 20
               (AuthSignup (example.body [("username", "carol"); ("email", "c@x.com")])));
   CoreCall (example.post_review 2 2);
   CommentsCall (Some 3) 21 2 4 (CommentsViewSet.Create comment_body);
   CoreCall (mkCall (Some 2) 22
               (CategoriesEndpoint (CategoriesViewSet.Create example.film)));
   CoreCall (mkCall (Some 2) 23 (TitlesEndpoint (TitlesViewSet.Destroy 1)));
   CoreCall (mkCall (Some 2) 24 (UsersDestroy "alice"))].

End example_comments.

(** * Properties *)

Ltac by_evaluation := apply (bool_decide_unpack _); vm_compute; exact I.

(** ** Filtering on a unique column *)

Section unique_column.
Context {A B : Type} `{EqDecision B} (f : A -> B).

Lemma filter_key_none (l : list A) (k : B) :
  (forall y, y ∈ l -> f y <> k) -> filter (fun y => f y = k) l = [].
Proof.
  induction l as [|a l IH]; intros Hn; [done|].
  rewrite filter_cons_False.
  - apply IH. intros y Hy. apply Hn. by right.
  - apply Hn. by left.
Qed.

Lemma filter_key_unique (l : list A) (x : A) :
  NoDup (map f l) -> x ∈ l -> filter (fun y => f y = f x) l = [x].
Proof.
  induction l as [|a l IH]; intros Hnd Hx; [by apply elem_of_nil in Hx|].
  cbn in Hnd. apply NoDup_cons in Hnd as [Hna Hnd].
  apply elem_of_cons in Hx as [->|Hx].
  - rewrite filter_cons_True by done. f_equal.
    apply filter_key_none. intros y Hy Heq. apply Hna.
    rewrite <- Heq. apply list_elem_of_fmap. by exists y.
  - rewrite filter_cons_False; [by apply IH|].
    intros Heq. apply Hna. rewrite Heq. apply list_elem_of_fmap. by exists x.
Qed.

Lemma filter_key_cases (l : list A) (k : B) :
  NoDup (map f l) ->
  filter (fun y => f y = k) l = []
  \/ exists x, x ∈ l /\ f x = k /\ filter (fun y => f y = k) l = [x].
Proof.
  intros Hnd.
  destruct (decide (Exists (fun y => f y = k) l)) as [Hex|Hno].
  - right. apply Exists_exists in Hex as (x & Hx & <-).
    exists x. split; [done|]. split; [done|]. by apply filter_key_unique.
  - left. apply filter_key_none. intros y Hy Heq. apply Hno.
    apply Exists_exists. by exists y.
Qed.

End unique_column.

Section auth_properties.
Context `{Collaborators}.
Import orm.

Lemma by_username_stored (t : Table User.t) (u : User.t) :
  users_wf t -> u ∈ rows t ->
  UserObjects.by_username (User.username u) t = [u].
Proof.
  intros (Hnd & _) Hu. unfold UserObjects.by_username.
  by apply (filter_key_unique User.username).
Qed.

Lemma by_username_unknown (t : Table User.t) (name : string) :
  (forall u, u ∈ rows t -> User.username u <> name) ->
  UserObjects.by_username name t = [].
Proof. apply (filter_key_none User.username). Qed.

(** The two answers of [get_token] to a body the serializer accepts. *)
Lemma get_token_cases (w : World) (data : RequestData) (username code : string) :
  users_wf (users (db w)) ->
  GetTokenSerializer data = inr (username, code) ->
  ((forall u, u ∈ user_rows w -> User.username u <> username) ->
     get_token data w = (Response (errors_json []) HTTP_404_NOT_FOUND, w))
  /\ (forall u, u ∈ user_rows w -> User.username u = username ->
        get_token data w = (Unhandled AttributeError, w)).
Proof.
  intros Hwf Hser. unfold get_token. rewrite Hser. split.
  - intros Hno. by rewrite by_username_unknown.
  - intros u Hu <-. by rewrite by_username_stored.
Qed.

(** C3. For a token request whose body the serializer accepts, over a user
    table that satisfies its constraints: when no row holds the username the
    answer is 404, as the claim has it; when a row holds it then, whatever
    the supplied code, the handler reads [confirmation_code] on the object
    it has just loaded, [class User] has no such column, and the read raises
    [AttributeError], which nothing handles: the request ends in a server
    error, not in 400 and not in 200 with a token. *)
Theorem get_token_registered_raises
    (w : World) (data : RequestData) (username code : string) :
  users_wf (users (db w)) ->
  GetTokenSerializer data = inr (username, code) ->
  ((forall u, u ∈ user_rows w -> User.username u <> username) ->
     (get_token data w).1 = Response (errors_json []) HTTP_404_NOT_FOUND
     /\ status_code (get_token data w).1 = 404)
  /\ (forall u, u ∈ user_rows w -> User.username u = username ->
        (get_token data w).1 = Unhandled AttributeError
        /\ status_code (get_token data w).1 = 500
        /\ status_code (get_token data w).1 <> HTTP_400_BAD_REQUEST
        /\ status_code (get_token data w).1 <> HTTP_200_OK).
Proof.
  intros Hwf Hser.
  destruct (get_token_cases w data username code Hwf Hser) as (H404 & Hraise).
  split.
  - intros Hno. by rewrite (H404 Hno).
  - intros u Hu Hname. rewrite (Hraise u Hu Hname). cbn.
    split; [done|]. split; [done|]. split; discriminate.
Qed.

End auth_properties.

Lemma get_token_registered_raises_witness :
  outbox (signup example.signup_alice example.w_empty).2 = [("a@x.com", Some "code-0")]
  /\ (get_token example.token_alice (signup example.signup_alice example.w_empty).2).1
     = Unhandled AttributeError
  /\ (get_token (example.body [("username", "alice"); ("confirmation_code", "guess")])
                (signup example.signup_alice example.w_empty).2).1
     = Unhandled AttributeError
  /\ (get_token (example.body [("username", "carol"); ("confirmation_code", "code-0")])
                (signup example.signup_alice example.w_empty).2).1
     = Response (errors_json []) HTTP_404_NOT_FOUND.
Proof.
  set (w := (signup example.signup_alice example.w_empty).2).
  assert (Hwf : users_wf (users (db w))) by by_evaluation.
  assert (Hrows : user_rows w = [User.mk 1 "alice" "a@x.com" false None None])
    by reflexivity.
  split; [reflexivity|]. split; [|split].
  - apply (get_token_registered_raises w example.token_alice "alice" "code-0" Hwf eq_refl)
      with (u := User.mk 1 "alice" "a@x.com" false None None); [by_evaluation|reflexivity].
  - apply (get_token_registered_raises w
             (example.body [("username", "alice"); ("confirmation_code", "guess")])
             "alice" "guess" Hwf eq_refl)
      with (u := User.mk 1 "alice" "a@x.com" false None None); [by_evaluation|reflexivity].
  - apply (get_token_registered_raises w
             (example.body [("username", "carol"); ("confirmation_code", "code-0")])
             "carol" "code-0" Hwf eq_refl).
    intros u Hu. rewrite Hrows in Hu. apply list_elem_of_singleton in Hu as ->.
    discriminate.
Defined.

(** ** Categories: the single-object read *)

(** C8. A GET of /categories/{slug} is answered 405 Method Not Allowed,
    whoever asks, whatever the slug and whatever the store holds, a category
    of that slug or none; the store is left as it was. *)
Theorem categories_retrieve_not_allowed
    (user : option User.t) (slug : string) (d : DB) :
  CategoriesViewSet.method_of (CategoriesViewSet.Retrieve slug) = GET
  /\ CategoriesViewSet.dispatch user (CategoriesViewSet.Retrieve slug) d
     = (Response JNull HTTP_405_METHOD_NOT_ALLOWED, d)
  /\ status_code (CategoriesViewSet.dispatch user (CategoriesViewSet.Retrieve slug) d).1
     <> HTTP_200_OK
  /\ status_code (CategoriesViewSet.dispatch user (CategoriesViewSet.Retrieve slug) d).1
     <> HTTP_404_NOT_FOUND.
Proof.
  assert (Hd : CategoriesViewSet.dispatch user (CategoriesViewSet.Retrieve slug) d
               = (Response JNull HTTP_405_METHOD_NOT_ALLOWED, d)).
  { unfold CategoriesViewSet.dispatch, permissions.AdminOrReadOnly. by cbn. }
  rewrite Hd. repeat split; cbn; discriminate.
Qed.

(** ** The self-service endpoint *)

Section me_properties.
Context `{Collaborators}.
Import orm.

(** C10. [me] validates the body before it looks at the method: a GET whose
    body fails validation is answered 400 with the serializer's errors, and a
    GET is answered 200 with the caller's profile exactly when the body
    passes validation; neither changes anything. *)
Theorem me_get_validates_first (u : User.t) (data : RequestData) (w : World) :
  (forall errors,
      UserSerializer (user_rows w) (Some u) true data = inl errors ->
      UserViewSet.me u GET data w
      = (Response (errors_json errors) HTTP_400_BAD_REQUEST, w))
  /\ (forall fields,
        UserSerializer (user_rows w) (Some u) true data = inr fields ->
        UserViewSet.me u GET data w
        = (Response (JObject (fields_items (fields_of_user u))) HTTP_200_OK, w))
  /\ (status_code (UserViewSet.me u GET data w).1 = HTTP_200_OK
      <-> exists fields, UserSerializer (user_rows w) (Some u) true data = inr fields).
Proof.
  unfold UserViewSet.me.
  destruct (UserSerializer (user_rows w) (Some u) true data) as [errors|fields].
  - split; [|split].
    + by intros ? [= ->].
    + by intros ? [=].
    + cbn. split; [discriminate|]. by intros [? [=]].
  - split; [|split].
    + by intros ? [=].
    + by intros ? _.
    + cbn. split; [|done]. intros _. by exists fields.
Qed.

End me_properties.

Lemma me_get_validates_first_witness :
  UserViewSet.me example.alice GET [("email", JInt 5)] example.w_alice
  = (Response (errors_json [("email", ["invalid"])]) HTTP_400_BAD_REQUEST,
     example.w_alice)
  /\ UserViewSet.me example.alice GET [] example.w_alice
     = (Response (JObject [("username", JStr "alice"); ("email", JStr "a@x.com");
                           ("bio", JNull); ("role", JStr "user")]) HTTP_200_OK,
        example.w_alice).
Proof.
  split.
  - apply (me_get_validates_first example.alice [("email", JInt 5)] example.w_alice).
    reflexivity.
  - apply (proj1 (proj2 (me_get_validates_first example.alice [] example.w_alice))
             (mkUserFields None None None None)).
    reflexivity.
Defined.

(** ** The user table under its constraints *)

Section column_facts.
Context {A : Type}.

Lemma filter_none (P : A -> Prop) `{!forall a, Decision (P a)} (l : list A) :
  (forall y, y ∈ l -> ~ P y) -> filter P l = [].
Proof.
  induction l as [|a l IH]; intros Hn; [done|].
  rewrite filter_cons_False; [|apply Hn; by left].
  apply IH. intros y Hy. apply Hn. by right.
Qed.

Lemma exists_filter (P : A -> Prop) `{!forall a, Decision (P a)} (l : list A) (x : A) :
  x ∈ l -> P x -> orm.exists_ (filter P l) = true.
Proof.
  intros Hx HP.
  assert (Hin : x ∈ filter P l) by by apply list_elem_of_filter.
  destruct (filter P l); [by apply elem_of_nil in Hin|done].
Qed.

Lemma key_inj {B} `{EqDecision B} (f : A -> B) (l : list A) (x y : A) :
  NoDup (map f l) -> x ∈ l -> y ∈ l -> f y = f x -> y = x.
Proof.
  intros Hnd Hx Hy Heq.
  assert (Hin : y ∈ filter (fun z => f z = f x) l) by by apply list_elem_of_filter.
  rewrite (filter_key_unique f l x Hnd Hx) in Hin.
  by apply list_elem_of_singleton in Hin.
Qed.

End column_facts.

Section user_table.
Import orm.

Lemma save_rewrites (t : Table User.t) (u u' : User.t) :
  u ∈ rows t ->
  User.pk u' = User.pk u ->
  (forall r, r ∈ rows t -> User.username r = User.username u' -> User.pk r = User.pk u) ->
  UserObjects.save u' t = Ok (mkTable (rewrite_row u' (rows t)) (seq t)).
Proof.
  intros Hu Hpk Hfree. unfold UserObjects.save.
  rewrite filter_none.
  - cbn. by rewrite (exists_filter _ _ u).
  - intros r Hr [Hname Hne]. apply Hne. rewrite Hpk. by apply Hfree.
Qed.

Lemma rewrite_row_elem (u x : User.t) (l : list User.t) :
  x ∈ rewrite_row u l -> x = u \/ (x ∈ l /\ User.pk x <> User.pk u).
Proof.
  unfold rewrite_row. intros Hx.
  apply list_elem_of_fmap in Hx as (r & -> & Hr).
  destruct (decide (User.pk r = User.pk u)); [by left|by right].
Qed.

Lemma rewrite_row_stored (u u' : User.t) (l : list User.t) :
  u ∈ l -> User.pk u' = User.pk u -> u' ∈ rewrite_row u' l.
Proof.
  intros Hu Hpk. unfold rewrite_row. apply list_elem_of_fmap.
  exists u. by rewrite decide_True.
Qed.

Lemma rewrite_row_keys (u : User.t) (l : list User.t) :
  map User.pk (rewrite_row u l) = map User.pk l.
Proof.
  unfold rewrite_row. induction l as [|a l IH]; [done|].
  cbn. rewrite IH. by destruct (decide (User.pk a = User.pk u)) as [->|].
Qed.

(** What [save] leaves in the table, whatever its branch. *)
Lemma save_elem (t t' : Table User.t) (u x : User.t) :
  UserObjects.save u t = Ok t' -> x ∈ rows t' ->
  x = u \/ (x ∈ rows t /\ User.pk x <> User.pk u).
Proof.
  unfold UserObjects.save.
  destruct (exists_ (filter _ (rows t))); [done|].
  destruct (exists_ (filter (fun r => User.pk r = User.pk u) (rows t))) eqn:Hex;
    intros [= <-]; cbn.
  - apply rewrite_row_elem.
  - intros Hx. apply elem_of_app in Hx as [Hx|Hx].
    + right. split; [done|]. intros Heq.
      by rewrite (exists_filter _ _ x) in Hex.
    + left. by apply list_elem_of_singleton in Hx.
Qed.

End user_table.

Section me_patch.
Context `{Collaborators}.
Import orm.

Lemma me_patch_unfold (u : User.t) (data : RequestData) (w : World) :
  UserViewSet.me u PATCH data w =
  match UserSerializer (user_rows w) (Some u) true data with
  | inl errors => (Response (errors_json errors) HTTP_400_BAD_REQUEST, w)
  | inr fields =>
      let stored := UserViewSet.update u (set_f_role (Some (User.role u)) fields) in
      match UserObjects.save stored (users (db w)) with
      | Ok t => (Response (JObject (fields_items (fields_of_user stored))) HTTP_200_OK,
                 set_db (with_users t (db w)) w)
      | Raise e => (Unhandled e, w)
      end
  end.
Proof. unfold UserViewSet.me. by destruct (UserSerializer _ _ _ _). Qed.

(** C4. A PATCH of /users/me by a caller whose row is stored leaves the role
    of that row as it was, whatever the body says about [role] and whether
    or not the request succeeds; when the body passes validation (and the
    username it ends with is not held by another row) the answer is 200 and
    the stored row takes every other field the body supplies. *)
Theorem me_patch_pins_role (u : User.t) (data : RequestData) (w : World) :
  users_wf (users (db w)) ->
  u ∈ user_rows w ->
  (forall x, x ∈ user_rows (UserViewSet.me u PATCH data w).2 ->
             User.pk x = User.pk u -> User.role x = User.role u)
  /\ (forall fields,
        UserSerializer (user_rows w) (Some u) true data = inr fields ->
        (forall r, r ∈ user_rows w ->
                   User.username r = default (User.username u) (f_username fields) ->
                   User.pk r = User.pk u) ->
        let stored := UserViewSet.update u (set_f_role (Some (User.role u)) fields) in
        UserViewSet.me u PATCH data w
        = (Response (JObject (fields_items (fields_of_user stored))) HTTP_200_OK,
           set_db (with_users (mkTable (rewrite_row stored (user_rows w))
                                       (seq (users (db w)))) (db w)) w)
        /\ stored ∈ user_rows (UserViewSet.me u PATCH data w).2
        /\ User.pk stored = User.pk u
        /\ User.role stored = User.role u
        /\ User.username stored = default (User.username u) (f_username fields)
        /\ User.email stored = default (User.email u) (f_email fields)
        /\ User.bio stored = default (User.bio u) (f_bio fields)).
Proof.
  intros Hwf Hu. rewrite me_patch_unfold. split.
  - intros x.
    assert (Hsame : x ∈ user_rows w -> User.pk x = User.pk u -> User.role x = User.role u).
    { intros Hx Hpk. destruct Hwf as (_ & Hkeys & _).
      by rewrite (key_inj User.pk _ u x Hkeys Hu Hx Hpk). }
    destruct (UserSerializer (user_rows w) (Some u) true data) as [errors|fields];
      [exact Hsame|].
    cbn zeta.
    destruct (UserObjects.save _ (users (db w))) as [t|e] eqn:Hsave; [|exact Hsame].
    cbn. intros Hx Hpk.
    destruct (save_elem _ _ _ _ Hsave Hx) as [->|[_ Hne]]; [done|].
    by destruct Hne.
  - intros fields Hser Hfree. rewrite Hser. cbn zeta.
    rewrite (save_rewrites _ u) by done.
    split; [done|]. split; [|done].
    cbn. by apply (rewrite_row_stored u).
Qed.

End me_patch.

Lemma me_patch_pins_role_witness :
  (forall x,
      x ∈ user_rows (UserViewSet.me example.alice PATCH
                       (example.body [("role", "admin"); ("bio", "hi")])
                       example.w_alice).2 ->
      User.pk x = 1 -> User.role x = Some "user")
  /\ UserViewSet.me example.alice PATCH
       (example.body [("role", "admin"); ("bio", "hi")]) example.w_alice
     = (Response (JObject [("username", JStr "alice"); ("email", JStr "a@x.com");
                           ("bio", JStr "hi"); ("role", JStr "user")]) HTTP_200_OK,
        example.world
          [User.mk 1 "alice" "a@x.com" false (Some "hi") (Some "user")]
          2 empty_db).
Proof.
  assert (Hwf : users_wf (users (db example.w_alice))) by by_evaluation.
  assert (Hin : example.alice ∈ user_rows example.w_alice) by by_evaluation.
  destruct (me_patch_pins_role example.alice
              (example.body [("role", "admin"); ("bio", "hi")])
              example.w_alice Hwf Hin) as [Hrole Hfields].
  split; [exact Hrole|].
  destruct (Hfields (mkUserFields None None (Some (Some "hi")) (Some (Some "admin")))
                    eq_refl) as [Heq _].
  - intros r Hr _. apply list_elem_of_singleton in Hr as ->. reflexivity.
  - rewrite Heq. reflexivity.
Defined.

(** ** Creation of users by an administrator *)

Section users_create.
Context `{Collaborators}.
Import orm.




End users_create.



(** ** Registration: what a call of [signup] does to the user table *)

Section rewrite_facts.

Lemma filter_unique {A B} `{EqDecision B} (f : A -> B)
    (P : A -> Prop) `{!forall a, Decision (P a)} (l : list A) (x : A) :
  NoDup (map f l) -> x ∈ l -> P x -> (forall y, P y -> f y = f x) ->
  filter P l = [x].
Proof.
  intros Hnd Hx HP Hkey.
  induction l as [|a l IH]; [by apply elem_of_nil in Hx|].
  cbn in Hnd. apply NoDup_cons in Hnd as [Hna Hnd].
  apply elem_of_cons in Hx as [->|Hx].
  - rewrite filter_cons_True by done. f_equal.
    apply filter_none. intros y Hy HPy. apply Hna.
    rewrite <- (Hkey y HPy). apply list_elem_of_fmap. by exists y.
  - rewrite filter_cons_False; [by apply IH|].
    intros HPa. apply Hna. rewrite (Hkey a HPa).
    apply list_elem_of_fmap. by exists x.
Qed.

Lemma rewrite_row_fresh (u : User.t) (l : list User.t) :
  (forall r, r ∈ l -> User.pk r <> User.pk u) -> rewrite_row u l = l.
Proof.
  intros Hne. unfold rewrite_row. induction l as [|a l IH]; [done|].
  cbn. rewrite decide_False by (apply Hne; by left).
  f_equal. apply IH. intros r Hr. apply Hne. by right.
Qed.

Lemma rewrite_row_column {B} (f : User.t -> B) (u : User.t) (l : list User.t) :
  (forall r, r ∈ l -> User.pk r = User.pk u -> f r = f u) ->
  map f (rewrite_row u l) = map f l.
Proof.
  intros Hsame. unfold rewrite_row. induction l as [|a l IH]; [done|].
  cbn. f_equal.
  - destruct (decide (User.pk a = User.pk u)); [|done].
    symmetry. apply Hsame; [by left|done].
  - apply IH. intros r Hr. apply Hsame. by right.
Qed.

Lemma rewrite_row_app (u : User.t) (l k : list User.t) :
  rewrite_row u (l ++ k) = rewrite_row u l ++ rewrite_row u k.
Proof. unfold rewrite_row. apply fmap_app. Qed.

Lemma matches_pair (username email : string) (u : User.t) :
  UserObjects.matches (pair_kwargs username email) u = true
  <-> User.username u = username /\ User.email u = email.
Proof.
  unfold UserObjects.matches, pair_kwargs. cbn.
  rewrite !andb_true_r, andb_true_iff, !bool_decide_eq_true.
  split; intros [? ?]; split; congruence.
Qed.

End rewrite_facts.

Section signup_steps.
Context `{Collaborators}.
Import orm.

Lemma rewrite_row_same (u : User.t) (l : list User.t) :
  NoDup (map User.pk l) -> u ∈ l -> rewrite_row u l = l.
Proof.
  intros Hkeys Hu. unfold rewrite_row.
  rewrite <- (list_fmap_id l) at 2. apply list_fmap_ext.
  intros i r Hr. apply list_elem_of_lookup_2 in Hr.
  destruct (decide (User.pk r = User.pk u)) as [Hpk|]; [|done].
  symmetry. by apply (key_inj User.pk l u r).
Qed.

Lemma table_same {A} (t : Table A) : mkTable (rows t) (seq t) = t.
Proof. by destruct t. Qed.

Lemma with_users_same (d : DB) : with_users (users d) d = d.
Proof. by destruct d. Qed.

(** [signup] for a pair a row holds: the row is found, its columns are
    saved as they are, and the store is as it was. *)
Lemma signup_known (data : RequestData) (username email : string) (w : World)
    (u : User.t) :
  users_wf (users (db w)) ->
  SignUpSerializer data = inr (username, email) ->
  u ∈ user_rows w -> User.username u = username -> User.email u = email ->
  signup data w
  = (Response (signup_data username email) HTTP_200_OK,
     signed_up w (users (db w)) email).
Proof.
  intros Hwf Hser Hu Hname Hmail. unfold signup, signed_up. rewrite Hser.
  unfold UserObjects.get_or_create.
  change (mkUserFields (Some username) (Some email) None None)
    with (pair_kwargs username email).
  rewrite (filter_unique User.username
             (fun x => UserObjects.matches (pair_kwargs username email) x = true)
             _ u).
  - cbn. destruct (generator (gen w)) as [code g]. cbn.
    rewrite (save_rewrites _ u); [|done|done|].
    + rewrite rewrite_row_same; [|apply Hwf|done]. by rewrite table_same.
    + intros r Hr Heq. destruct Hwf as (Hnames & _).
      by rewrite (key_inj User.username _ u r Hnames Hu Hr Heq).
  - apply Hwf.
  - exact Hu.
  - by apply matches_pair.
  - intros y Hy. apply matches_pair in Hy as [-> _]. by rewrite Hname.
Qed.

(** [signup] for a username no row holds: one row is inserted. *)
Lemma signup_new (data : RequestData) (username email : string) (w : World) :
  users_wf (users (db w)) ->
  SignUpSerializer data = inr (username, email) ->
  (forall u, u ∈ user_rows w -> User.username u <> username) ->
  let u := UserObjects.new_row (pair_kwargs username email) (users (db w)) in
  signup data w
  = (Response (signup_data username email) HTTP_200_OK,
     signed_up w (mkTable (user_rows w ++ [u]) (S (seq (users (db w))))) email).
Proof.
  intros Hwf Hser Hfree. unfold signup, signed_up. rewrite Hser.
  unfold UserObjects.get_or_create.
  change (mkUserFields (Some username) (Some email) None None)
    with (pair_kwargs username email).
  rewrite filter_none.
  2:{ intros y Hy Hm. apply matches_pair in Hm as [Hm _]. by apply (Hfree y). }
  cbn. unfold UserObjects.create.
  rewrite by_username_unknown by exact Hfree. cbn.
  destruct (generator (gen w)) as [code g]. cbn.
  set (u := UserObjects.new_row (pair_kwargs username email) (users (db w))).
  assert (Hkeys : forall r, r ∈ rows (users (db w)) -> User.pk r <> User.pk u).
  { intros r Hr. destruct Hwf as (_ & _ & Hlt).
    rewrite Forall_forall in Hlt. specialize (Hlt r Hr). cbn. lia. }
  assert (Hrw : rewrite_row u (rows (users (db w)) ++ [u]) = user_rows w ++ [u]).
  { rewrite rewrite_row_app, rewrite_row_fresh by exact Hkeys.
    unfold rewrite_row. cbn. by rewrite decide_True. }
  unfold UserObjects.save. cbn.
  rewrite filter_none.
  2:{ intros r Hr [Hn Hk]. apply elem_of_app in Hr as [Hr|Hr].
      - by apply (Hfree r).
      - apply list_elem_of_singleton in Hr as ->. by apply Hk. }
  cbn. rewrite (exists_filter _ _ u); [|apply elem_of_app; right; by left|done].
  do 3 f_equal. by rewrite <- Hrw.
Qed.

Lemma signup_collision (data : RequestData) (username email : string) (w : World)
    (x : User.t) :
  SignUpSerializer data = inr (username, email) ->
  x ∈ user_rows w -> User.username x = username -> User.email x <> email ->
  users_wf (users (db w)) ->
  signup data w = (Unhandled IntegrityError, w).
Proof.
  intros Hser Hx Hname Hmail Hwf. unfold signup. rewrite Hser.
  unfold UserObjects.get_or_create.
  change (mkUserFields (Some username) (Some email) None None)
    with (pair_kwargs username email).
  rewrite filter_none.
  2:{ intros y Hy Hm. apply matches_pair in Hm as [Hn He].
      destruct Hwf as (Hnames & _).
      assert (y = x) as -> by (apply (key_inj User.username _ x y Hnames Hx Hy); congruence).
      done. }
  cbn. unfold UserObjects.create. cbn.
  rewrite <- Hname, by_username_stored by done. done.
Qed.

End signup_steps.

Section signup_repeated.
Context `{Collaborators}.
Import orm.

Lemma pair_at_most_one (username email : string) (t : Table User.t) :
  users_wf t -> length (with_pair username email (rows t)) <= 1.
Proof.
  intros (Hnames & _). unfold with_pair.
  destruct (filter_key_cases User.username (rows t) username Hnames)
    as [Hnone|(x & Hx & Hname & Hone)].
  - rewrite filter_none; [cbn; lia|].
    intros y Hy [Hn _].
    by apply (filter_nil_not_elem_of _ _ y Hnone Hn).
  - destruct (decide (User.email x = email)) as [Hmail|Hmail].
    + rewrite (filter_unique User.username _ _ x); [cbn; lia|done..|].
      intros y [Hn _]. congruence.
    + rewrite filter_none; [cbn; lia|].
      intros y Hy [Hn He].
      assert (y = x) as -> by (apply (key_inj User.username _ x y Hnames Hx Hy); congruence).
      done.
Qed.

(** One accepted call of [signup] on a table that satisfies its constraints,
    for a username that is free or bound to that email. *)
Lemma signup_step (data : RequestData) (username email : string) (w : World) :
  users_wf (users (db w)) ->
  SignUpSerializer data = inr (username, email) ->
  signable username email (users (db w)) ->
  exists t u,
    signup data w
    = (Response (signup_data username email) HTTP_200_OK, signed_up w t email)
    /\ users_wf t
    /\ signable username email t
    /\ with_pair username email (rows t) = [u]
    /\ (has_name username (users (db w)) -> t = users (db w)).
Proof.
  intros Hwf Hser Hsig.
  pose proof Hwf as (Hnames & Hkeys & Hlt).
  destruct (filter_key_cases User.username (rows (users (db w))) username Hnames)
    as [Hnone|(x & Hx & Hname & _)].
  - assert (Hfree : forall u, u ∈ user_rows w -> User.username u <> username).
    { intros u Hu Hn. by apply (filter_nil_not_elem_of _ _ u Hnone Hn). }
    eexists _, _. split; [by apply signup_new|].
    set (u := UserObjects.new_row _ _). cbn [rows seq].
    assert (Hpk : User.pk u = seq (users (db w))) by done.
    assert (Hun : User.username u = username) by done.
    assert (Hue : User.email u = email) by done.
    rewrite Forall_forall in Hlt.
    split; [|split; [|split]].
    + split; [|split]; cbn [rows seq].
      * rewrite fmap_app. apply NoDup_app. split; [done|]. split; [|apply NoDup_singleton].
        intros n Hn Hn'. apply list_elem_of_singleton in Hn'. subst n.
        apply list_elem_of_fmap in Hn as (r & Hr1 & Hr2).
        apply (Hfree r Hr2). congruence.
      * rewrite fmap_app. apply NoDup_app. split; [done|]. split; [|apply NoDup_singleton].
        intros n Hn Hn'. apply list_elem_of_singleton in Hn'. subst n.
        apply list_elem_of_fmap in Hn as (r & Hr1 & Hr2).
        specialize (Hlt r Hr2). cbn in Hr1. lia.
      * apply Forall_app. split.
        -- apply Forall_forall. intros r Hr. specialize (Hlt r Hr). lia.
        -- apply Forall_singleton. cbn. lia.
    + intros r Hr Hn. cbn in Hr. apply elem_of_app in Hr as [Hr|Hr].
      * by destruct (Hfree r Hr).
      * by apply list_elem_of_singleton in Hr as ->.
    + unfold with_pair. rewrite filter_app.
      rewrite filter_none.
      2:{ intros y Hy [Hn _]. by apply (Hfree y). }
      by rewrite filter_cons_True.
    + intros (y & Hy & Hn). by destruct (Hfree y Hy).
  - assert (Hmail : User.email x = email) by by apply Hsig.
    exists (users (db w)), x. split; [by apply (signup_known _ _ _ _ x)|].
    split; [done|]. split; [done|]. split; [|done].
    apply (filter_unique User.username); [done|done|done|].
    intros y [Hn _]. congruence.
Qed.

Lemma signup_ok_inv (data : RequestData) (w : World) :
  users_wf (users (db w)) ->
  status_code (signup data w).1 = HTTP_200_OK ->
  exists username email,
    SignUpSerializer data = inr (username, email)
    /\ signable username email (users (db w)).
Proof.
  intros Hwf Hok.
  destruct (SignUpSerializer data) as [errors|[username email]] eqn:Hser.
  - unfold signup in Hok. by rewrite Hser in Hok.
  - exists username, email. split; [done|].
    intros x Hx Hname. destruct (decide (User.email x = email)) as [|Hne]; [done|].
    by rewrite (signup_collision data username email w x) in Hok.
Qed.

Lemma signup_times_inv (data : RequestData) (username email : string) (n : nat) :
  SignUpSerializer data = inr (username, email) ->
  forall w,
    users_wf (users (db w)) ->
    signable username email (users (db w)) ->
    users_wf (users (db (signup_times n data w)))
    /\ signable username email (users (db (signup_times n data w)))
    /\ (1 <= n -> has_name username (users (db (signup_times n data w)))).
Proof.
  intros Hser. induction n as [|n IH]; intros w Hwf Hsig.
  - cbn. split; [done|]. split; [done|]. lia.
  - destruct (signup_step data username email w Hwf Hser Hsig)
      as (t & u & Heq & Hwf' & Hsig' & Hpair & _).
    cbn [signup_times]. rewrite Heq. cbn [snd].
    assert (Hname : has_name username t).
    { exists u. assert (Hin : u ∈ with_pair username email (rows t))
        by (rewrite Hpair; by left).
      apply list_elem_of_filter in Hin as [[Hn _] Hin]. done. }
    destruct (IH (signed_up w t email) Hwf' Hsig') as (IH1 & IH2 & IH3).
    split; [done|]. split; [done|]. intros _.
    destruct n as [|n]; [done|]. apply IH3. lia.
Qed.

(** Whatever the serializer, a call of [signup] that names a username held
    by a row with another email is not answered 200: the body is refused, or
    [get_or_create] runs into the unique index of [username]. *)
Lemma signup_collision_not_ok (data : RequestData) (w : World) (x : User.t) :
  users_wf (users (db w)) ->
  x ∈ user_rows w ->
  (forall username email,
      SignUpSerializer data = inr (username, email) ->
      User.username x = username /\ User.email x <> email) ->
  status_code (signup data w).1 <> HTTP_200_OK.
Proof.
  intros Hwf Hx Hbound.
  destruct (SignUpSerializer data) as [errors|[username email]] eqn:Hser.
  - unfold signup. by rewrite Hser.
  - destruct (Hbound username email eq_refl) as [Hname Hmail].
    by rewrite (signup_collision data username email w x).
Qed.

(** C5, as the code has it.  On a user table that satisfies its constraints,
    for a body the serializer accepts as the pair (username, email), the
    username being free or held by a row with that very email: however many
    times the call has been made before, the next call of [signup] with the
    body is answered 200; at most one row holds the pair before it and
    exactly one after it; the call draws one code from the generator and
    hands it, with the email, to the mail dispatch; and from the second call
    on the store is left exactly as it was: no row is added, none is
    changed, no key is drawn. *)
Theorem signup_idempotent (data : RequestData) (username email : string) (w : World) :
  users_wf (users (db w)) ->
  SignUpSerializer data = inr (username, email) ->
  signable username email (users (db w)) ->
  forall n,
    let wn := signup_times n data w in
    (signup data wn).1 = Response (signup_data username email) HTTP_200_OK
    /\ length (with_pair username email (user_rows wn)) <= 1
    /\ (exists u, with_pair username email (user_rows (signup data wn).2) = [u])
    /\ gen (signup data wn).2 = (generator (gen wn)).2
    /\ outbox (signup data wn).2 = outbox wn ++ [(email, Some (generator (gen wn)).1)]
    /\ (1 <= n -> db (signup data wn).2 = db wn).
Proof.
  intros Hwf Hser Hsig n wn.
  destruct (signup_times_inv data username email n Hser w Hwf Hsig)
    as (Hwfn & Hsign & Hnamen).
  destruct (signup_step data username email wn Hwfn Hser Hsign)
    as (t & u & Heq & _ & _ & Hpair & Hid).
  rewrite Heq. cbn [fst snd signed_up db gen outbox].
  split; [done|]. split; [by apply pair_at_most_one|].
  split; [by exists u|]. split; [done|]. split; [done|].
  intros Hn. rewrite (Hid (Hnamen Hn)). apply with_users_same.
Qed.

End signup_repeated.

Lemma signup_idempotent_witness :
  (signup example.signup_alice
          (signup_times 2 example.signup_alice example.w_empty)).1
  = Response (signup_data "alice" "a@x.com") HTTP_200_OK
  /\ length (with_pair "alice" "a@x.com"
               (user_rows (signup_times 2 example.signup_alice example.w_empty))) <= 1
  /\ user_rows (signup_times 3 example.signup_alice example.w_empty)
     = [User.mk 1 "alice" "a@x.com" false None None]
  /\ outbox (signup_times 3 example.signup_alice example.w_empty)
     = [("a@x.com", Some "code-0"); ("a@x.com", Some "code-1");
        ("a@x.com", Some "code-2")].
Proof.
  assert (Hwf : users_wf (users (db example.w_empty))) by by_evaluation.
  assert (Hsig : signable "alice" "a@x.com" (users (db example.w_empty))).
  { intros u Hu. by apply elem_of_nil in Hu. }
  destruct (signup_idempotent example.signup_alice "alice" "a@x.com" example.w_empty
              Hwf eq_refl Hsig 2) as (Hok & Hone & _).
  split; [exact Hok|]. split; [exact Hone|]. split; reflexivity.
Defined.

(** C5, as the claim states it, fails: with [alice] registered under
    a@x.com, a call of [signup] for [alice] with another email is not
    answered 200 but ends in the integrity error of the unique index, and
    it stores nothing. *)
Lemma signup_counterexample :
  signup (example.body [("username", "alice"); ("email", "alice@y.org")])
         example.w_alice
  = (Unhandled IntegrityError, example.w_alice)
  /\ status_code
       (signup (example.body [("username", "alice"); ("email", "alice@y.org")])
               example.w_alice).1 = 500.
Proof. split; reflexivity. Qed.

(** ** Token exchange: nothing is consumed, and nothing is accepted *)

Section token_properties.
Context `{Collaborators}.
Import orm.

Lemma get_token_world (data : RequestData) (w : World) : (get_token data w).2 = w.
Proof.
  unfold get_token.
  destruct (GetTokenSerializer data) as [errors|[username code]]; [done|].
  destruct (first _); [|done].
  by destruct (get _) as [user|e].
Qed.

Lemma get_token_all_world (ds : list RequestData) (w : World) :
  get_token_all ds w = w.
Proof.
  revert w. induction ds as [|d ds IH]; intros w; [done|].
  cbn. by rewrite get_token_world.
Qed.

Lemma get_token_not_ok (data : RequestData) (w : World) :
  status_code (get_token data w).1 <> HTTP_200_OK.
Proof.
  unfold get_token.
  destruct (GetTokenSerializer data) as [errors|[username code]]; [done|].
  destruct (first _); [|done].
  by destruct (get _) as [user|e].
Qed.

(** C6. A token request changes nothing, as the claim has it: the world
    after it is the world before it, and after any number of token requests
    a request is answered as it would have been before them, so nothing is
    used up and nothing expires.  But there is no code to remain valid: no
    token request is answered 200, in any store and for any body; and the
    very code that an accepted [signup] has just mailed is not exchanged for
    a token, the request ends in [AttributeError], which nothing handles. *)
Theorem get_token_never_accepts :
  (forall data w, (get_token data w).2 = w)
  /\ (forall ds data w, get_token data (get_token_all ds w) = get_token data w)
  /\ (forall data w, status_code (get_token data w).1 <> HTTP_200_OK)
  /\ (forall sdata tdata username email w,
        users_wf (users (db w)) ->
        SignUpSerializer sdata = inr (username, email) ->
        GetTokenSerializer tdata = inr (username, (generator (gen w)).1) ->
        signable username email (users (db w)) ->
        status_code (signup sdata w).1 = HTTP_200_OK
        /\ outbox (signup sdata w).2 = outbox w ++ [(email, Some (generator (gen w)).1)]
        /\ get_token tdata (signup sdata w).2
           = (Unhandled AttributeError, (signup sdata w).2)).
Proof.
  split; [exact get_token_world|].
  split; [intros ds data w; by rewrite get_token_all_world|].
  split; [exact get_token_not_ok|].
  intros sdata tdata username email w Hwf Hs Ht Hsig.
  destruct (signup_step sdata username email w Hwf Hs Hsig)
    as (t & u & Heq & Hwf' & _ & Hpair & _).
  rewrite Heq. cbn [fst snd]. split; [done|]. split; [done|].
  assert (Hin : u ∈ with_pair username email (rows t)) by (rewrite Hpair; by left).
  apply list_elem_of_filter in Hin as [[Hname _] Hin].
  by apply (get_token_cases (signed_up w t email) tdata username _ Hwf' Ht) with (u := u).
Qed.

End token_properties.

Lemma get_token_never_accepts_witness :
  outbox (signup example.signup_alice example.w_alice).2 = [("a@x.com", Some "code-2")]
  /\ get_token (example.body [("username", "alice"); ("confirmation_code", "code-2")])
               (signup example.signup_alice example.w_alice).2
     = (Unhandled AttributeError, (signup example.signup_alice example.w_alice).2).
Proof.
  destruct (@get_token_never_accepts example.collaborators) as (_ & _ & _ & Hmailed).
  assert (Hwf : users_wf (users (db example.w_alice))) by by_evaluation.
  split; [reflexivity|].
  apply (Hmailed example.signup_alice
           (example.body [("username", "alice"); ("confirmation_code", "code-2")])
           "alice" "a@x.com" example.w_alice Hwf eq_refl eq_refl).
  intros u Hu _. apply list_elem_of_singleton in Hu as ->. reflexivity.
Defined.

(** ** One review per author and title *)

Section review_counting.
Context {A : Type} (P : A -> Prop) `{!forall a, Decision (P a)}.

Lemma filter_sublist_length (l1 l2 : list A) :
  l1 `sublist_of` l2 -> length (filter P l1) <= length (filter P l2).
Proof.
  induction 1 as [|x l1 l2 _ IH|x l1 l2 _ IH]; [done| |].
  - rewrite !filter_cons. destruct (decide (P x)); cbn; lia.
  - rewrite filter_cons. destruct (decide (P x)); cbn; lia.
Qed.

Lemma filter_map_length (g : A -> A) (l : list A) :
  (forall x, x ∈ l -> P (g x) <-> P x) ->
  length (filter P (map g l)) = length (filter P l).
Proof.
  induction l as [|a l IH]; intros Hg; [done|].
  assert (Ha : P (g a) <-> P a) by (apply Hg; by left).
  assert (Hl : length (filter P (map g l)) = length (filter P l)).
  { apply IH. intros x Hx. apply Hg. by right. }
  cbn [map]. rewrite !filter_cons.
  destruct (decide (P (g a))) as [Hy|Hn], (decide (P a)) as [Hy'|Hn']; cbn;
    rewrite ?Hl; try done.
  - destruct Hn'. by apply Ha.
  - destruct Hn. by apply Ha.
Qed.

End review_counting.

Lemma sublist_map {A B} (f : A -> B) (l1 l2 : list A) :
  l1 `sublist_of` l2 -> map f l1 `sublist_of` map f l2.
Proof.
  induction 1; cbn; [done|by apply sublist_skip|by apply sublist_cons].
Qed.

Lemma sublist_keys_wf {A} (pk : A -> nat) (l1 l2 : list A) (n : nat) :
  l1 `sublist_of` l2 -> keys_wf pk (orm.mkTable l2 n) -> keys_wf pk (orm.mkTable l1 n).
Proof.
  intros Hsub [Hnd Hlt]. cbn in *. split; cbn.
  - apply (sublist_NoDup _ (map pk l2)); [done|]. by apply sublist_map.
  - rewrite !Forall_forall in *. intros x Hx. apply Hlt.
    by apply (elem_of_sublist l1).
Qed.

Lemma reviews_step_keeps_keys (t t' : orm.Table Reviews.t) :
  reviews_step t t' -> keys_wf Reviews.pk t -> keys_wf Reviews.pk t'.
Proof.
  destruct t as [l n], t' as [l' n']. cbn.
  intros [Hsub Hseq|g Hg Hseq Hsame|r Hr Hseq Hpk _] Hwf; cbn in *; subst.
  - by apply (sublist_keys_wf _ _ l).
  - destruct Hwf as [Hnd Hlt]. cbn in *.
    assert (Hkeys : map Reviews.pk (map g l) = map Reviews.pk l).
    { clear Hnd Hlt. induction l as [|a l IH]; [done|]. cbn. f_equal.
      - apply Hsame. by left.
      - apply IH. intros x Hx. apply Hsame. by right. }
    split; cbn; [by rewrite Hkeys|].
    rewrite !Forall_forall in *. intros y Hy.
    apply list_elem_of_fmap in Hy as (x & -> & Hx).
    destruct (Hsame x Hx) as (-> & _). by apply Hlt.
  - destruct Hwf as [Hnd Hlt]. cbn in *. rewrite Forall_forall in Hlt.
    split; cbn.
    + rewrite fmap_app. apply NoDup_app. split; [done|].
      split; [|apply NoDup_singleton].
      intros k Hk Hk'. apply list_elem_of_singleton in Hk'. subst k.
      apply list_elem_of_fmap in Hk as (x & Hx1 & Hx2). specialize (Hlt x Hx2). lia.
    + apply Forall_app. split.
      * apply Forall_forall. intros x Hx. specialize (Hlt x Hx). lia.
      * apply Forall_singleton. lia.
Qed.

Lemma reviews_step_keeps_invariant (d d' : DB) :
  reviews_step (reviews d) (reviews d') ->
  one_review_per_pair d -> one_review_per_pair d'.
Proof.
  intros Hstep Hinv u t. specialize (Hinv u t). unfold reviews_by in *.
  destruct Hstep as [Hsub _|g Hg _ Hsame|r Hr _ _ Hnone].
  - etrans; [by apply filter_sublist_length|done].
  - rewrite Hg, filter_map_length; [done|].
    intros x Hx. destruct (Hsame x Hx) as (_ & -> & ->). done.
  - rewrite Hr, filter_app, length_app.
    destruct (decide (Reviews.author r = u /\ Reviews.title r = t)) as [[<- <-]|Hne].
    + rewrite Hnone, filter_cons, filter_nil. destruct (decide _); cbn; lia.
    + rewrite (filter_cons_False _ r) by done. cbn. lia.
Qed.

Lemma reviews_step_ok (d d' : DB) :
  reviews_step (reviews d) (reviews d') -> reviews_ok d -> reviews_ok d'.
Proof.
  intros Hstep [Hkeys Hinv]. split.
  - by apply (reviews_step_keeps_keys (reviews d)).
  - by apply (reviews_step_keeps_invariant d).
Qed.

Lemma reviews_step_same (t t' : orm.Table Reviews.t) : t' = t -> reviews_step t t'.
Proof. intros ->. by apply step_remove. Qed.

Lemma delete_reviews_step (P : Reviews.t -> Prop) `{!forall r, Decision (P r)} (d : DB) :
  reviews_step (reviews d) (reviews (cascade.delete_reviews P d)).
Proof. apply step_remove; cbn; [apply sublist_filter|done]. Qed.

Section api_reviews.
Context `{Collaborators}.
Import orm.

Lemma signup_reviews (data : RequestData) (w : World) :
  reviews (db (signup data w).2) = reviews (db w).
Proof.
  unfold signup.
  destruct (SignUpSerializer data) as [errors|[username email]]; [done|].
  destruct (UserObjects.get_or_create _ _) as [[[user created] t]|e]; [|done].
  destruct (generator (gen w)) as [code g].
  by destruct (UserObjects.save _ t).
Qed.

Lemma users_create_reviews (data : RequestData) (w : World) :
  reviews (db (UserViewSet.create data w).2) = reviews (db w).
Proof.
  unfold UserViewSet.create.
  destruct (UserSerializer _ _ _ _) as [errors|fields]; [done|]. cbn zeta.
  destruct (first _); [done|].
  by destruct (UserObjects.get_or_create _ _) as [[[user created] t]|e].
Qed.

Lemma me_reviews (u : User.t) (m : Method) (data : RequestData) (w : World) :
  reviews (db (UserViewSet.me u m data w).2) = reviews (db w).
Proof.
  unfold UserViewSet.me.
  destruct (UserSerializer _ _ _ _) as [errors|fields]; [done|].
  destruct (decide (m = GET)); [done|]. cbn zeta.
  by destruct (UserObjects.save _ _).
Qed.

Lemma users_destroy_step (username : string) (w : World) :
  reviews_step (reviews (db w)) (reviews (db (UserViewSet.destroy username w).2)).
Proof.
  unfold UserViewSet.destroy.
  destruct (get_object_or_404 _) as [u|e]; [|by apply reviews_step_same].
  cbn. apply step_remove; cbn; [apply sublist_filter|done].
Qed.

Lemma titles_step (user : option User.t) (r : TitlesViewSet.Request) (d : DB) :
  reviews_step (reviews d) (reviews (TitlesViewSet.dispatch user r d).2).
Proof.
  unfold TitlesViewSet.dispatch.
  destruct (permissions.AdminOrReadOnly _ _); [|by apply reviews_step_same].
  destruct r as [|pk|pk]; cbn.
  - by apply reviews_step_same.
  - unfold TitlesViewSet.handle_retrieve.
    destruct (TitlesViewSet.get_object pk d); by apply reviews_step_same.
  - unfold TitlesViewSet.handle_destroy.
    destruct (TitlesViewSet.get_object pk d) as [o|e]; [|by apply reviews_step_same].
    cbn. apply step_remove; cbn; [apply sublist_filter|done].
Qed.

Lemma categories_reviews (user : option User.t) (r : CategoriesViewSet.Request) (d : DB) :
  reviews (CategoriesViewSet.dispatch user r d).2 = reviews d.
Proof.
  unfold CategoriesViewSet.dispatch.
  destruct (permissions.AdminOrReadOnly _ _); [|done].
  destruct r as [data|slug|slug data|slug]; cbn; [|done|done|].
  - unfold CategoriesViewSet.create.
    by destruct (CategoriesSerializer.to_internal_value data) as [errors|[name slug]].
  - unfold CategoriesViewSet.destroy. by destruct (get_object_or_404 _).
Qed.

Lemma genres_reviews (user : option User.t) (r : GenresViewSet.Request) (d : DB) :
  reviews (GenresViewSet.dispatch user r d).2 = reviews d.
Proof.
  unfold GenresViewSet.dispatch.
  destruct (permissions.AdminOrReadOnly _ _); [|done].
  destruct r as [data|slug|slug]; cbn; [|done|].
  - unfold GenresViewSet.create.
    by destruct (GenresSerializer.to_internal_value data) as [errors|[name slug]].
  - unfold GenresViewSet.destroy. by destruct (get_object_or_404 _).
Qed.

Lemma get_object_or_404_elem {A} (l : list A) (a : A) :
  get_object_or_404 l = Ok a -> l = [a].
Proof. destruct l as [|x [|y l]]; cbn; [done| |done]. by intros [= ->]. Qed.

Lemma exists_false {A} (l : list A) : exists_ l = false -> l = [].
Proof. by destruct l. Qed.

Lemma review_get_object_elem (user : option User.t) (m : Method) (title_id pk : nat)
    (d : DB) (r : Reviews.t) :
  ReviewsViewSet.get_object user m title_id pk d = Ok r -> r ∈ rows (reviews d).
Proof.
  unfold ReviewsViewSet.get_object, ReviewsViewSet.get_queryset.
  destruct (get_object_or_404 (ReviewsViewSet.title_by_pk title_id d)) as [t|e];
    cbn; [|done].
  destruct (get_object_or_404 (filter _ _)) as [x|e] eqn:Hget; cbn; [|done].
  destruct (permissions.AuthorAdminModeratorOrReadOnly_object _ _ _); [|discriminate].
  intros [= <-]. apply get_object_or_404_elem in Hget.
  assert (Hin : x ∈ [x]) by by left. rewrite <- Hget in Hin.
  apply list_elem_of_filter in Hin as [_ Hin].
  by apply list_elem_of_filter in Hin as [_ Hin].
Qed.

Lemma save_changes_step (r : Reviews.t) (v : option string * option Z) (d : DB) :
  keys_wf Reviews.pk (reviews d) ->
  r ∈ rows (reviews d) ->
  reviews_step (reviews d) (reviews (ReviewsViewSet.save_changes r v d).2).
Proof.
  intros [Hkeys _] Hr. unfold ReviewsViewSet.save_changes. cbn.
  eapply step_rewrite; cbn; [done|done|].
  intros x Hx. cbn beta.
  destruct (decide (Reviews.pk x = Reviews.pk r)) as [Heq|]; cbn; [|done].
  by rewrite (key_inj Reviews.pk _ r x Hkeys Hr Hx Heq).
Qed.

Lemma perform_create_step (u : User.t) (title_id now : nat) (v : string * Z)
    (d d' : DB) (r : Reviews.t) :
  ReviewsViewSet.perform_create u title_id now v d = Ok (r, d') ->
  reviews_step (reviews d) (reviews d').
Proof.
  unfold ReviewsViewSet.perform_create.
  destruct (get_object_or_404 _) as [t|e]; cbn; [|done].
  destruct (exists_ _) eqn:Hex; [done|].
  intros [= <- <-]. apply exists_false in Hex.
  unfold TitlesViewSet.reviews_of in Hex. rewrite list_filter_filter in Hex.
  by eapply step_append; cbn.
Qed.

Lemma reviews_dispatch_step (user : option User.t) (title_id now : nat)
    (r : ReviewsViewSet.Request) (d : DB) :
  keys_wf Reviews.pk (reviews d) ->
  reviews_step (reviews d) (reviews (ReviewsViewSet.dispatch user title_id now r d).2).
Proof.
  intros Hkeys. unfold ReviewsViewSet.dispatch.
  destruct (permissions.AuthorAdminModeratorOrReadOnly _ _); [|by apply reviews_step_same].
  destruct r as [|data|pk|pk data|pk data|pk].
  - unfold ReviewsViewSet.handle_list.
    destruct (ReviewsViewSet.get_queryset _ _); by apply reviews_step_same.
  - destruct user as [u|]; [|by apply reviews_step_same].
    unfold ReviewsViewSet.create.
    destruct (ReviewsSerializer data) as [errors|v]; [by apply reviews_step_same|].
    destruct (ReviewsViewSet.perform_create _ _ _ _ _) as [[x d']|e] eqn:Hc;
      [|by apply reviews_step_same].
    cbn. by apply (perform_create_step u title_id now v d d' x).
  - unfold ReviewsViewSet.handle_retrieve.
    destruct (ReviewsViewSet.get_object _ _ _ _ _); by apply reviews_step_same.
  - unfold ReviewsViewSet.handle_update.
    destruct (ReviewsViewSet.get_object _ _ _ _ _) as [x|e] eqn:Hget;
      [|by apply reviews_step_same].
    destruct (ReviewsSerializer data) as [errors|v]; [by apply reviews_step_same|].
    apply save_changes_step; [done|]. by apply review_get_object_elem in Hget.
  - unfold ReviewsViewSet.handle_partial_update.
    destruct (ReviewsViewSet.get_object _ _ _ _ _) as [x|e] eqn:Hget;
      [|by apply reviews_step_same].
    destruct (ReviewsSerializer_partial data) as [errors|v]; [by apply reviews_step_same|].
    apply save_changes_step; [done|]. by apply review_get_object_elem in Hget.
  - unfold ReviewsViewSet.handle_destroy.
    destruct (ReviewsViewSet.get_object _ _ _ _ _) as [x|e];
      [|by apply reviews_step_same].
    cbn. apply step_remove; cbn; [apply sublist_filter|done].
Qed.

Lemma api_reviews_step (c : Call) (w : World) :
  keys_wf Reviews.pk (reviews (db w)) ->
  reviews_step (reviews (db w)) (reviews (db (api c w).2)).
Proof.
  intros Hkeys. unfold api.
  destruct (authenticate (credentials c) w) as [user|e]; [|by apply reviews_step_same].
  destruct (endpoint c) as [data|data|data|m data|username|r|r|r|title_id r].
  - apply reviews_step_same, signup_reviews.
  - apply reviews_step_same. by rewrite get_token_world.
  - destruct (permissions.AdminAndSuperUser user); [|by apply reviews_step_same].
    apply reviews_step_same, users_create_reviews.
  - destruct user as [u|]; [|by apply reviews_step_same].
    destruct (decide _); [|by apply reviews_step_same].
    apply reviews_step_same, me_reviews.
  - destruct (permissions.AdminAndSuperUser user); [|by apply reviews_step_same].
    apply users_destroy_step.
  - unfold on_db.
    pose proof (titles_step user r (db w)) as Hs.
    by destruct (TitlesViewSet.dispatch user r (db w)).
  - unfold on_db.
    pose proof (categories_reviews user r (db w)) as Hs.
    destruct (CategoriesViewSet.dispatch user r (db w)). by apply reviews_step_same.
  - unfold on_db.
    pose proof (genres_reviews user r (db w)) as Hs.
    destruct (GenresViewSet.dispatch user r (db w)). by apply reviews_step_same.
  - unfold on_db.
    pose proof (reviews_dispatch_step user title_id (now c) r (db w) Hkeys) as Hs.
    by destruct (ReviewsViewSet.dispatch user title_id (now c) r (db w)).
Qed.

Lemma run_reviews_ok (cs : list Call) (w : World) :
  reviews_ok (db w) -> reviews_ok (db (run cs w)).
Proof.
  revert w. induction cs as [|c cs IH]; intros w Hok; [done|].
  cbn. apply IH. apply (reviews_step_ok (db w)); [|done].
  apply api_reviews_step, Hok.
Qed.

End api_reviews.

Section one_review.
Context `{Collaborators}.
Import orm.

Lemma second_post_refused (d : DB) (u : User.t) (title_id now : nat)
    (data : RequestData) (t : Titles.t) (x : Reviews.t) :
  NoDup (map Titles.pk (rows (titles d))) ->
  t ∈ rows (titles d) -> Titles.pk t = title_id ->
  x ∈ rows (reviews d) -> Reviews.author x = User.pk u -> Reviews.title x = title_id ->
  exists payload,
    ReviewsViewSet.dispatch (Some u) title_id now (ReviewsViewSet.Create data) d
    = (Response payload HTTP_400_BAD_REQUEST, d)
    /\ (forall v, ReviewsSerializer data = inr v ->
                  payload = JList [JStr one_review_message])
    /\ (forall e, ReviewsSerializer data = inl e -> payload = errors_json e).
Proof.
  intros Hkeys Ht Hpk Hx Hauthor Htitle.
  unfold ReviewsViewSet.dispatch, permissions.AuthorAdminModeratorOrReadOnly.
  cbn [ReviewsViewSet.method_of permissions.is_safe].
  rewrite (bool_decide_eq_true_2 (is_Some (Some u))) by done.
  rewrite orb_true_r. unfold ReviewsViewSet.create.
  destruct (ReviewsSerializer data) as [errors|v].
  - exists (errors_json errors). split; [done|]. split; [done|]. by intros ? [= ->].
  - exists (JList [JStr one_review_message]).
    split; [|split; [done|done]].
    unfold ReviewsViewSet.perform_create, ReviewsViewSet.title_by_pk.
    rewrite <- Hpk, (filter_key_unique Titles.pk _ t) by done. cbn.
    rewrite (exists_filter _ _ x); [done| |done].
    unfold TitlesViewSet.reviews_of. apply list_elem_of_filter. split; [congruence|done].
Qed.

(** C2. The empty store holds at most one review per author and title, and
    every request of the API keeps it so: after any sequence of requests
    served from a store whose review table satisfies its key constraint and
    holds at most one review per pair, at most one review of author [u] on
    title [t] is stored, for every [u] and [t].  In particular, when [u]
    already has a review on an existing title, a POST by [u] to that title's
    reviews is answered 400 and leaves the store as it was; for a body the
    serializer accepts the answer carries the message of the check in
    [perform_create], otherwise the serializer's errors. *)
Theorem one_review_per_author_and_title :
  reviews_ok empty_db
  /\ (forall cs w,
        reviews_ok (db w) ->
        forall u t, length (reviews_by u t (db (run cs w))) <= 1)
  /\ (forall d u title_id now data t x,
        NoDup (map Titles.pk (rows (titles d))) ->
        t ∈ rows (titles d) -> Titles.pk t = title_id ->
        x ∈ rows (reviews d) -> Reviews.author x = User.pk u ->
        Reviews.title x = title_id ->
        exists payload,
          ReviewsViewSet.dispatch (Some u) title_id now (ReviewsViewSet.Create data) d
          = (Response payload HTTP_400_BAD_REQUEST, d)
          /\ (forall v, ReviewsSerializer data = inr v ->
                        payload = JList [JStr one_review_message])
          /\ (forall e, ReviewsSerializer data = inl e -> payload = errors_json e)).
Proof.
  split; [|split].
  - split; [split; cbn; [apply NoDup_nil_2|apply Forall_nil_2]|].
    intros u t. cbn. lia.
  - intros cs w Hok. by apply run_reviews_ok.
  - apply second_post_refused.
Qed.

End one_review.

Lemma one_review_per_author_and_title_witness :
  ReviewsViewSet.dispatch (Some example.alice) 1 20
    (ReviewsViewSet.Create example.review_body) example.d_reviewed
  = (Response (JList [JStr one_review_message]) HTTP_400_BAD_REQUEST, example.d_reviewed)
  /\ length (reviews_by 1 1
               (db (run [example.post_review 1 1; example.post_review 2 1;
                         example.post_review 1 1] example.w_reviewed))) <= 1.
Proof.
  destruct (@one_review_per_author_and_title example.collaborators)
    as (_ & Hrun & Hpost).
  split.
  - destruct (Hpost example.d_reviewed example.alice 1 20 example.review_body
                    example.dune (Reviews.mk 1 1 "fine" 1 7 10))
      as (payload & Heq & Hmsg & _);
      [by_evaluation|by_evaluation|reflexivity|by_evaluation|reflexivity|reflexivity|].
    rewrite Heq. by rewrite (Hmsg ("again", 3%Z) eq_refl).
  - apply Hrun. split; [by_evaluation|].
    intros u t. unfold reviews_by. cbn.
    repeat (destruct (decide _) as [[? ?]|?]); cbn; lia.
Defined.

(** ** Slugs of categories and genres *)

Section slugs.
Import orm.

Lemma slug_char_single (a : Ascii.ascii) :
  fields.is_slug_char a = true -> utf8.is_continuation a = false.
Proof.
  unfold fields.is_slug_char, utf8.is_continuation. cbn zeta.
  intros Hslug. apply andb_false_iff. left. apply Nat.leb_gt.
  repeat (apply orb_prop in Hslug as [Hslug|Hslug]);
    try (apply andb_prop in Hslug as [_ Hslug]; apply Nat.leb_le in Hslug; lia);
    apply Nat.eqb_eq in Hslug; lia.
Qed.

(** A text of slug characters has one byte per character. *)
Lemma slug_len (s : string) :
  fields.all_chars fields.is_slug_char s = true -> utf8.len s = String.length s.
Proof.
  induction s as [|a s IH]; [done|]. cbn.
  intros Hall. apply andb_prop in Hall as [Ha Hs].
  by rewrite (slug_char_single a Ha), IH.
Qed.

Lemma SlugField_valid (v : option JSON) (s : string) :
  fields.SlugField 50 v = inr s -> valid_slug s.
Proof.
  unfold fields.SlugField, fields.CharField.
  destruct v as [[| | | |x| |]|]; try done.
  destruct (decide (x = "")); [done|].
  destruct (decide (50 < utf8.len x)); [done|].
  destruct (fields.all_chars fields.is_slug_char x) eqn:Hchars; [|done].
  intros [= <-]. split; [done|]. split; [|done].
  rewrite <- (slug_len x Hchars). lia.
Qed.

Lemma categories_slug_valid (data : RequestData) (name slug : string) :
  CategoriesSerializer.to_internal_value data = inr (name, slug) -> valid_slug slug.
Proof.
  unfold CategoriesSerializer.to_internal_value.
  destruct (fields.CharField 256 _) as [e|n];
    destruct (fields.SlugField 50 _) as [e'|s] eqn:Hs; try done.
  intros [= _ <-]. by apply (SlugField_valid _ _ Hs).
Qed.

Lemma genres_slug_valid (data : RequestData) (name slug : string) :
  GenresSerializer.to_internal_value data = inr (name, slug) -> valid_slug slug.
Proof.
  unfold GenresSerializer.to_internal_value.
  destruct (fields.CharField 256 _) as [e|n];
    destruct (fields.SlugField 50 _) as [e'|s] eqn:Hs; try done.
  intros [= _ <-]. by apply (SlugField_valid _ _ Hs).
Qed.

Lemma append_keys_wf {A} (pk : A -> nat) (t : Table A) (a : A) :
  keys_wf pk t -> pk a = seq t -> keys_wf pk (mkTable (rows t ++ [a]) (S (seq t))).
Proof.
  intros [Hnd Hlt] Hpk. rewrite Forall_forall in Hlt. split; cbn.
  - rewrite fmap_app. apply NoDup_app. split; [done|].
    split; [|apply NoDup_singleton].
    intros k Hk Hk'. apply list_elem_of_singleton in Hk'. subst k.
    apply list_elem_of_fmap in Hk as (x & Hx1 & Hx2). specialize (Hlt x Hx2). lia.
  - apply Forall_app. split.
    + apply Forall_forall. intros x Hx. specialize (Hlt x Hx). lia.
    + apply Forall_singleton. lia.
Qed.

Lemma create_one_ok (c : Creation) (d : DB) : slugged_ok d -> slugged_ok (create_one c d).
Proof.
  intros (Hc & Hg & Hcs & Hgs). destruct c as [user data|user data]; cbn.
  - unfold CategoriesViewSet.dispatch.
    destruct (permissions.AdminOrReadOnly _ _); [|done].
    unfold CategoriesViewSet.create.
    destruct (CategoriesSerializer.to_internal_value data) as [e|[name slug]] eqn:Hv;
      [done|].
    cbn. split; [by apply append_keys_wf|]. split; [done|]. split; [|done].
    apply Forall_app. split; [done|]. apply Forall_singleton. cbn.
    by apply (categories_slug_valid data name).
  - unfold GenresViewSet.dispatch.
    destruct (permissions.AdminOrReadOnly _ _); [|done].
    unfold GenresViewSet.create.
    destruct (GenresSerializer.to_internal_value data) as [e|[name slug]] eqn:Hv;
      [done|].
    cbn. split; [done|]. split; [by apply append_keys_wf|]. split; [done|].
    apply Forall_app. split; [done|]. apply Forall_singleton. cbn.
    by apply (genres_slug_valid data name).
Qed.

Lemma create_all_ok (cs : list Creation) (d : DB) :
  slugged_ok d -> slugged_ok (create_all cs d).
Proof.
  revert d. induction cs as [|c cs IH]; intros d Hok; [done|].
  cbn. by apply IH, create_one_ok.
Qed.

Lemma empty_slugged_ok : slugged_ok empty_db.
Proof.
  repeat split; cbn; first [apply NoDup_nil_2 | apply Forall_nil_2].
Qed.

(** C9, as the code has it.  After any sequence of create operations on
    categories and genres, starting from the empty store, no two categories
    share a primary key, no two genres share a primary key, and every stored
    slug is a non-empty string of at most 50 letters, digits, hyphens and
    underscores.  Nothing keeps two rows from holding the same slug. *)
Theorem slugged_rows_after_creates (cs : list Creation) :
  NoDup (map Categories.pk (rows (categories (create_all cs empty_db))))
  /\ NoDup (map Genres.pk (rows (genres (create_all cs empty_db))))
  /\ Forall (fun c => valid_slug (Categories.slug c))
            (rows (categories (create_all cs empty_db)))
  /\ Forall (fun g => valid_slug (Genres.slug g))
            (rows (genres (create_all cs empty_db))).
Proof.
  destruct (create_all_ok cs empty_db empty_slugged_ok) as ([Hc _] & [Hg _] & Hcs & Hgs).
  done.
Qed.

End slugs.

(** C9, as the claim states it, fails: two POSTs of a category with the slug
    [film] are both answered 201 and leave two rows with that slug. *)
Lemma slug_uniqueness_counterexample :
  status_code (CategoriesViewSet.dispatch (Some example.bob)
                 (CategoriesViewSet.Create example.film) empty_db).1 = HTTP_201_CREATED
  /\ status_code
       (CategoriesViewSet.dispatch (Some example.bob)
          (CategoriesViewSet.Create example.movie)
          (create_all [NewCategory (Some example.bob) example.film] empty_db)).1
     = HTTP_201_CREATED
  /\ orm.rows (categories (create_all example.same_slug_twice empty_db))
     = [Categories.mk 1 "Film" "film"; Categories.mk 2 "Movie" "film"]
  /\ ~ slugs_unique (create_all example.same_slug_twice empty_db)
  /\ orm.rows (genres (create_all [NewGenre (Some example.bob) example.film;
                                    NewGenre (Some example.bob) example.movie]
                                   empty_db))
     = [Genres.mk 1 "Film" "film"; Genres.mk 2 "Movie" "film"].
Proof.
  split; [reflexivity|]. split; [reflexivity|]. split; [reflexivity|].
  split; [|reflexivity].
  apply (bool_decide_eq_false_1 _). vm_compute. reflexivity.
Qed.

(** ** The rating of a title *)

Section rating.
Import orm.

Lemma Avg_empty : TitlesViewSet.Avg [] = None.
Proof. reflexivity. Qed.

(** The annotation is the arithmetic mean of the joined scores. *)
Lemma Avg_mean (values : list Z) :
  values <> [] ->
  exists q, TitlesViewSet.Avg values = Some q
            /\ (q == inject_Z (total values) / inject_Z (Z.of_nat (length values)))%Q.
Proof.
  intros Hne. destruct values as [|v values]; [done|].
  eexists. split; [reflexivity|].
  rewrite Qred_correct. unfold total.
  set (s := foldr Z.add 0%Z (v :: values)).
  set (n := length (v :: values)).
  assert (Hn : n <> 0) by done.
  rewrite Qmake_Qdiv. unfold inject_Z.
  replace (Z.pos (Pos.of_nat n)) with (Z.of_nat n); [reflexivity|].
  destruct n as [|n]; [done|]. by rewrite <- Pos.of_nat_succ.
Qed.

(** Every row of the title table is in the annotated query set, with the
    mean of the scores of its reviews, or NULL when it has none. *)
Lemma queryset_rating (d : DB) (t : Titles.t) :
  t ∈ rows (titles d) ->
  (t, TitlesViewSet.Avg (map Reviews.score (TitlesViewSet.reviews_of (Titles.pk t) d)))
  ∈ TitlesViewSet.queryset d.
Proof.
  intros Ht. unfold TitlesViewSet.queryset. apply list_elem_of_fmap. by exists t.
Qed.

(** The serializer renders the columns of the model and nothing else: the
    annotation never reaches the representation. *)
Lemma representation_without_rating (obj : TitlesSerializer.Instance) :
  exists items,
    TitlesSerializer.to_representation obj = JObject items
    /\ map fst items = TitlesSerializer.field_names
    /\ dict_get "rating" items = None.
Proof. eexists. split; [reflexivity|]. split; reflexivity. Qed.

End rating.

(** C1, at a title with two reviews, of scores 7 and 8.  The query set of the
    view annotates the title with the mean 15/2, but the list and the
    retrieve responses, rendered by [TitlesSerializer], hold the columns of
    the model only: they carry no rating at all. *)
Theorem titles_rating_not_rendered :
  TitlesViewSet.queryset example.d_reviewed = [(example.dune, Some (15 # 2)%Q)]
  /\ TitlesViewSet.get_serializer_class TitlesViewSet.list_ = TitlesViewSet.serializer_class
  /\ TitlesViewSet.get_serializer_class TitlesViewSet.retrieve = TitlesViewSet.serializer_class
  /\ TitlesViewSet.dispatch None TitlesViewSet.List example.d_reviewed
     = (Response
          (JList [JObject [("id", JInt 1); ("name", JStr "Dune"); ("year", JInt 1965);
                           ("description", JNull); ("genre", JStr "sci-fi");
                           ("category", JStr "book")]]) HTTP_200_OK,
        example.d_reviewed)
  /\ TitlesViewSet.dispatch None (TitlesViewSet.Retrieve 1) example.d_reviewed
     = (Response
          (JObject [("id", JInt 1); ("name", JStr "Dune"); ("year", JInt 1965);
                    ("description", JNull); ("genre", JStr "sci-fi");
                    ("category", JStr "book")]) HTTP_200_OK,
        example.d_reviewed)
  /\ dict_get "rating"
       [("id", JInt 1); ("name", JStr "Dune"); ("year", JInt 1965);
        ("description", JNull); ("genre", JStr "sci-fi"); ("category", JStr "book")]
     = None.
Proof. repeat split; reflexivity. Qed.

(** ** The constraints of the user table hold in every reachable store *)

Section users_invariant.
Context `{Collaborators}.
Import orm.

Lemma rewrite_row_names (u : User.t) (l : list User.t) :
  NoDup (map User.pk l) -> NoDup (map User.username l) ->
  (forall r, r ∈ l -> User.username r = User.username u -> User.pk r = User.pk u) ->
  NoDup (map User.username (rewrite_row u l)).
Proof.
  induction l as [|a l IH]; intros Hk Hn Hfree; [apply NoDup_nil_2|].
  cbn in Hk, Hn. apply NoDup_cons in Hk as [Hka Hk]. apply NoDup_cons in Hn as [Hna Hn].
  assert (Hfree' : forall r, r ∈ l -> User.username r = User.username u ->
                             User.pk r = User.pk u).
  { intros r Hr. apply Hfree. by right. }
  unfold rewrite_row. cbn. fold (rewrite_row u l).
  destruct (decide (User.pk a = User.pk u)) as [Heq|Hne].
  - rewrite rewrite_row_fresh.
    + apply NoDup_cons. split; [|done]. intros Hin.
      apply list_elem_of_fmap in Hin as (r & Hr1 & Hr2).
      apply Hka. apply list_elem_of_fmap. exists r. split; [|done].
      rewrite Heq. symmetry. by apply Hfree'.
    + intros r Hr Hpk. apply Hka. apply list_elem_of_fmap. exists r.
      split; [congruence|done].
  - apply NoDup_cons. split; [|by apply IH]. intros Hin.
    apply list_elem_of_fmap in Hin as (y & Hy1 & Hy2).
    apply rewrite_row_elem in Hy2 as [->|[Hy2 _]].
    + apply Hne. apply Hfree; [by left|done].
    + apply Hna. apply list_elem_of_fmap. by exists y.
Qed.

Lemma save_wf (u : User.t) (t t' : Table User.t) :
  UserObjects.save u t = Ok t' -> users_wf t -> User.pk u < seq t -> users_wf t'.
Proof.
  unfold UserObjects.save. intros Hsave (Hn & Hk & Hlt) Hpk.
  destruct (exists_ (filter _ (rows t))) eqn:Hclash; [done|].
  apply exists_false in Hclash.
  assert (Hfree : forall r, r ∈ rows t -> User.username r = User.username u ->
                            User.pk r = User.pk u).
  { intros r Hr Hname. destruct (decide (User.pk r = User.pk u)) as [|Hne]; [done|].
    by destruct (filter_nil_not_elem_of _ _ r Hclash (conj Hname Hne)). }
  rewrite Forall_forall in Hlt.
  destruct (exists_ (filter (fun r => User.pk r = User.pk u) (rows t))) eqn:Hex;
    injection Hsave as <-; split; [|split| |split]; cbn.
  - by apply rewrite_row_names.
  - fold (rewrite_row u (rows t)). by rewrite rewrite_row_keys.
  - fold (rewrite_row u (rows t)). apply Forall_forall. intros r Hr.
    apply rewrite_row_elem in Hr as [->|[Hr _]]; [done|by apply Hlt].
  - apply exists_false in Hex.
    rewrite fmap_app. apply NoDup_app. split; [done|].
    split; [|apply NoDup_singleton].
    intros n Hin Hin'. apply list_elem_of_singleton in Hin'. subst n.
    apply list_elem_of_fmap in Hin as (r & Hr1 & Hr2).
    apply (filter_nil_not_elem_of _ _ r Hex); [|done]. apply Hfree; [done|congruence].
  - apply exists_false in Hex.
    rewrite fmap_app. apply NoDup_app. split; [done|].
    split; [|apply NoDup_singleton].
    intros n Hin Hin'. apply list_elem_of_singleton in Hin'. subst n.
    apply list_elem_of_fmap in Hin as (r & Hr1 & Hr2).
    apply (filter_nil_not_elem_of _ _ r Hex); [congruence|done].
  - apply Forall_app. split; [by apply Forall_forall|]. by apply Forall_singleton.
Qed.

Lemma create_wf (kw : UserFields) (t t' : Table User.t) (u : User.t) :
  UserObjects.create kw t = Ok (u, t') -> users_wf t ->
  users_wf t' /\ u ∈ rows t' /\ User.pk u < seq t'.
Proof.
  unfold UserObjects.create. intros Hc (Hn & Hk & Hlt).
  destruct (exists_ _) eqn:Hex; [done|]. injection Hc as <- <-.
  apply exists_false in Hex. rewrite Forall_forall in Hlt.
  split; [|split]; cbn; [|apply elem_of_app; right; by left|lia].
  split; [|split]; cbn.
  - rewrite fmap_app. apply NoDup_app. split; [done|].
    split; [|apply NoDup_singleton].
    intros n Hin Hin'. apply list_elem_of_singleton in Hin'. subst n.
    apply list_elem_of_fmap in Hin as (r & Hr1 & Hr2).
    by apply (filter_nil_not_elem_of _ _ r Hex).
  - rewrite fmap_app. apply NoDup_app. split; [done|].
    split; [|apply NoDup_singleton].
    intros n Hin Hin'. apply list_elem_of_singleton in Hin'. subst n.
    apply list_elem_of_fmap in Hin as (r & Hr1 & Hr2).
    specialize (Hlt r Hr2). cbn in Hr1. lia.
  - apply Forall_app. split.
    + apply Forall_forall. intros r Hr. specialize (Hlt r Hr). lia.
    + apply Forall_singleton. cbn. lia.
Qed.

Lemma get_elem {A} (l : list A) (a : A) : get l = Ok a -> a ∈ l.
Proof. destruct l as [|x [|y l]]; cbn; [done| |done]. intros [= ->]. by left. Qed.

Lemma get_or_create_wf (kw : UserFields) (t t' : Table User.t) (u : User.t) (c : bool) :
  UserObjects.get_or_create kw t = Ok (u, c, t') -> users_wf t ->
  users_wf t' /\ u ∈ rows t' /\ User.pk u < seq t'.
Proof.
  unfold UserObjects.get_or_create. intros Hg Hwf.
  assert (Hfound : forall x, get (filter (fun u => UserObjects.matches kw u = true) (rows t))
                             = Ok x -> x ∈ rows t /\ User.pk x < seq t).
  { intros x Hx. apply get_elem, list_elem_of_filter in Hx as [_ Hx].
    split; [done|]. destruct Hwf as (_ & _ & Hlt). rewrite Forall_forall in Hlt.
    by apply Hlt. }
  destruct (get _) as [x|e] eqn:Hget.
  - injection Hg as <- <- <-. destruct (Hfound x eq_refl). done.
  - destruct e; try done.
    destruct (UserObjects.create kw t) as [[x t'']|e] eqn:Hc.
    + injection Hg as <- <- <-. by apply (create_wf kw t).
    + by destruct e.
Qed.

Lemma signup_wf (data : RequestData) (w : World) :
  users_wf (users (db w)) -> users_wf (users (db (signup data w).2)).
Proof.
  intros Hwf. unfold signup.
  destruct (SignUpSerializer data) as [errors|[username email]]; [done|].
  destruct (UserObjects.get_or_create _ _) as [[[user created] t]|e] eqn:Hg; [|done].
  destruct (get_or_create_wf _ _ _ _ _ Hg Hwf) as (Hwf' & _ & Hpk).
  destruct (generator (gen w)) as [code g].
  destruct (UserObjects.save _ t) as [t'|e] eqn:Hs; [|done].
  cbn. by apply (save_wf _ t t' Hs).
Qed.

Lemma users_create_wf (data : RequestData) (w : World) :
  users_wf (users (db w)) -> users_wf (users (db (UserViewSet.create data w).2)).
Proof.
  intros Hwf. unfold UserViewSet.create.
  destruct (UserSerializer _ _ _ _) as [errors|fields]; [done|]. cbn zeta.
  destruct (first _); [done|].
  destruct (UserObjects.get_or_create _ _) as [[[user created] t]|e] eqn:Hg; [|done].
  cbn. by destruct (get_or_create_wf _ _ _ _ _ Hg Hwf).
Qed.

Lemma me_wf (u : User.t) (m : Method) (data : RequestData) (w : World) :
  users_wf (users (db w)) -> u ∈ user_rows w ->
  users_wf (users (db (UserViewSet.me u m data w).2)).
Proof.
  intros Hwf Hu. unfold UserViewSet.me.
  destruct (UserSerializer _ _ _ _) as [errors|fields]; [done|].
  destruct (decide (m = GET)); [done|]. cbn zeta.
  destruct (UserObjects.save _ _) as [t|e] eqn:Hs; [|done].
  cbn. apply (save_wf _ _ t Hs Hwf). cbn.
  destruct Hwf as (_ & _ & Hlt). rewrite Forall_forall in Hlt. by apply Hlt.
Qed.

Lemma sublist_users_wf (l1 l2 : list User.t) (n : nat) :
  l1 `sublist_of` l2 -> users_wf (mkTable l2 n) -> users_wf (mkTable l1 n).
Proof.
  intros Hsub (Hn & Hk & Hlt). cbn in *. split; [|split]; cbn.
  - apply (sublist_NoDup _ (map User.username l2)); [done|]. by apply sublist_map.
  - apply (sublist_NoDup _ (map User.pk l2)); [done|]. by apply sublist_map.
  - rewrite !Forall_forall in *. intros x Hx. apply Hlt. by apply (elem_of_sublist l1).
Qed.

Lemma users_destroy_wf (username : string) (w : World) :
  users_wf (users (db w)) -> users_wf (users (db (UserViewSet.destroy username w).2)).
Proof.
  intros Hwf. unfold UserViewSet.destroy.
  destruct (get_object_or_404 _) as [u|e]; [|done].
  cbn. apply (sublist_users_wf _ (rows (users (db w)))); [apply sublist_filter|].
  by destruct (users (db w)).
Qed.

Lemma titles_users (user : option User.t) (r : TitlesViewSet.Request) (d : DB) :
  users (TitlesViewSet.dispatch user r d).2 = users d.
Proof.
  unfold TitlesViewSet.dispatch.
  destruct (permissions.AdminOrReadOnly _ _); [|done].
  destruct r as [|pk|pk]; cbn; [done| |].
  - unfold TitlesViewSet.handle_retrieve. by destruct (TitlesViewSet.get_object pk d).
  - unfold TitlesViewSet.handle_destroy. by destruct (TitlesViewSet.get_object pk d).
Qed.

Lemma categories_users (user : option User.t) (r : CategoriesViewSet.Request) (d : DB) :
  users (CategoriesViewSet.dispatch user r d).2 = users d.
Proof.
  unfold CategoriesViewSet.dispatch.
  destruct (permissions.AdminOrReadOnly _ _); [|done].
  destruct r as [data|slug|slug data|slug]; cbn; [|done|done|].
  - unfold CategoriesViewSet.create.
    by destruct (CategoriesSerializer.to_internal_value data) as [errors|[name slug]].
  - unfold CategoriesViewSet.destroy. by destruct (get_object_or_404 _).
Qed.

Lemma genres_users (user : option User.t) (r : GenresViewSet.Request) (d : DB) :
  users (GenresViewSet.dispatch user r d).2 = users d.
Proof.
  unfold GenresViewSet.dispatch.
  destruct (permissions.AdminOrReadOnly _ _); [|done].
  destruct r as [data|slug|slug]; cbn; [|done|].
  - unfold GenresViewSet.create.
    by destruct (GenresSerializer.to_internal_value data) as [errors|[name slug]].
  - unfold GenresViewSet.destroy. by destruct (get_object_or_404 _).
Qed.

Lemma reviews_users (user : option User.t) (title_id now : nat)
    (r : ReviewsViewSet.Request) (d : DB) :
  users (ReviewsViewSet.dispatch user title_id now r d).2 = users d.
Proof.
  unfold ReviewsViewSet.dispatch.
  destruct (permissions.AuthorAdminModeratorOrReadOnly _ _); [|done].
  destruct r as [|data|pk|pk data|pk data|pk].
  - unfold ReviewsViewSet.handle_list. by destruct (ReviewsViewSet.get_queryset _ _).
  - destruct user as [u|]; [|done]. unfold ReviewsViewSet.create.
    destruct (ReviewsSerializer data) as [errors|v]; [done|].
    unfold ReviewsViewSet.perform_create.
    destruct (get_object_or_404 _) as [t|e]; cbn; [|done].
    by destruct (exists_ _).
  - unfold ReviewsViewSet.handle_retrieve.
    by destruct (ReviewsViewSet.get_object _ _ _ _ _).
  - unfold ReviewsViewSet.handle_update.
    destruct (ReviewsViewSet.get_object _ _ _ _ _); [|done].
    by destruct (ReviewsSerializer data).
  - unfold ReviewsViewSet.handle_partial_update.
    destruct (ReviewsViewSet.get_object _ _ _ _ _); [|done].
    by destruct (ReviewsSerializer_partial data).
  - unfold ReviewsViewSet.handle_destroy.
    by destruct (ReviewsViewSet.get_object _ _ _ _ _).
Qed.

Lemma authenticate_stored (c : option nat) (w : World) (u : User.t) :
  authenticate c w = Ok (Some u) -> u ∈ user_rows w.
Proof.
  unfold authenticate. destruct c as [pk|]; [|done].
  destruct (first _) as [x|] eqn:Hf; [|done]. intros [= <-].
  unfold first in Hf. apply head_Some_elem_of in Hf.
  by apply list_elem_of_filter in Hf as [_ Hf].
Qed.

Lemma api_users_wf (c : Call) (w : World) :
  users_wf (users (db w)) -> users_wf (users (db (api c w).2)).
Proof.
  intros Hwf. unfold api.
  destruct (authenticate (credentials c) w) as [user|e] eqn:Hauth; [|done].
  destruct (endpoint c) as [data|data|data|m data|username|r|r|r|title_id r].
  - by apply signup_wf.
  - by rewrite get_token_world.
  - destruct (permissions.AdminAndSuperUser user); [|done]. by apply users_create_wf.
  - destruct user as [u|]; [|done]. destruct (decide _); [|done].
    apply me_wf; [done|]. by apply (authenticate_stored (credentials c)).
  - destruct (permissions.AdminAndSuperUser user); [|done]. by apply users_destroy_wf.
  - unfold on_db. pose proof (titles_users user r (db w)) as Hu.
    destruct (TitlesViewSet.dispatch user r (db w)). cbn in *. by rewrite Hu.
  - unfold on_db. pose proof (categories_users user r (db w)) as Hu.
    destruct (CategoriesViewSet.dispatch user r (db w)). cbn in *. by rewrite Hu.
  - unfold on_db. pose proof (genres_users user r (db w)) as Hu.
    destruct (GenresViewSet.dispatch user r (db w)). cbn in *. by rewrite Hu.
  - unfold on_db. pose proof (reviews_users user title_id (now c) r (db w)) as Hu.
    destruct (ReviewsViewSet.dispatch user title_id (now c) r (db w)). cbn in *.
    by rewrite Hu.
Qed.

(** The constraints of the user table, assumed of the store in the results
    above, hold in the empty store and after every sequence of requests. *)
Lemma run_users_wf (cs : list Call) (w : World) :
  users_wf (users (db w)) -> users_wf (users (db (run cs w))).
Proof.
  revert w. induction cs as [|c cs IH]; intros w Hwf; [done|].
  cbn. by apply IH, api_users_wf.
Qed.

Lemma empty_users_wf : users_wf (users empty_db).
Proof. split; [|split]; cbn; [apply NoDup_nil_2|apply NoDup_nil_2|apply Forall_nil_2]. Qed.

End users_invariant.

(** * Further properties of the handlers *)

(** ** Categories and genres: the restricted operations *)

Section restricted.
Import orm.

(** X1. A GET of /genres/{slug} is answered 405 Method Not Allowed for every
    requester, slug and store, and leaves the store as it was. *)
Theorem genres_retrieve_not_allowed (user : option User.t) (slug : string) (d : DB) :
  GenresViewSet.method_of (GenresViewSet.Retrieve slug) = GET
  /\ GenresViewSet.dispatch user (GenresViewSet.Retrieve slug) d
     = (Response JNull HTTP_405_METHOD_NOT_ALLOWED, d).
Proof. split; [done|]. unfold GenresViewSet.dispatch, permissions.AdminOrReadOnly. by cbn. Qed.

(** X2. A PATCH of /categories/{slug} never changes the store and is never
    answered 200, whoever sends it and whatever the body; sent by an admin
    or a superuser it is answered 405. *)
Theorem categories_partial_update_not_allowed
    (user : option User.t) (slug : string) (data : RequestData) (d : DB) :
  (CategoriesViewSet.dispatch user (CategoriesViewSet.PartialUpdate slug data) d).2 = d
  /\ status_code
       (CategoriesViewSet.dispatch user (CategoriesViewSet.PartialUpdate slug data) d).1
     <> HTTP_200_OK
  /\ (permissions.AdminAndSuperUser user = true ->
      CategoriesViewSet.dispatch user (CategoriesViewSet.PartialUpdate slug data) d
      = (Response JNull HTTP_405_METHOD_NOT_ALLOWED, d)).
Proof.
  unfold CategoriesViewSet.dispatch, permissions.AdminOrReadOnly,
    permissions.AdminAndSuperUser.
  cbn [CategoriesViewSet.method_of]. change (permissions.is_safe PATCH) with false.
  cbn [orb]. destruct (from_option permissions.is_admin false user) eqn:Hadm.
  - by cbn.
  - split; [done|]. split; [|done]. by destruct user.
Qed.

Lemma filter_iff_on {A} (P Q : A -> Prop)
    `{!forall a, Decision (P a), !forall a, Decision (Q a)} (l : list A) :
  (forall x, x ∈ l -> P x <-> Q x) -> filter P l = filter Q l.
Proof.
  induction l as [|a l IH]; intros Hiff; [done|].
  assert (Ha : P a <-> Q a) by (apply Hiff; by left).
  assert (Hl : filter P l = filter Q l).
  { apply IH. intros x Hx. apply Hiff. by right. }
  rewrite !filter_cons, Hl.
  destruct (decide (P a)), (decide (Q a)); tauto.
Qed.

Lemma filter_two {A} (P : A -> Prop) `{!forall a, Decision (P a)} (l : list A) (x y : A) :
  x ∈ l -> y ∈ l -> x <> y -> P x -> P y ->
  exists a b rest, filter P l = a :: b :: rest.
Proof.
  intros Hx Hy Hne HPx HPy.
  assert (Hx' : x ∈ filter P l) by by apply list_elem_of_filter.
  assert (Hy' : y ∈ filter P l) by by apply list_elem_of_filter.
  destruct (filter P l) as [|a [|b rest]].
  - by apply elem_of_nil in Hx'.
  - apply list_elem_of_singleton in Hx', Hy'. congruence.
  - by exists a, b, rest.
Qed.

(** X3. DELETE /categories/{slug} by an admin looks the category up by its
    slug: when no category has the slug the answer is 404; when exactly one
    has it (the keys of the table being distinct) the answer is 204 and
    that row, and no other, is removed; when two categories share the slug
    the lookup raises [MultipleObjectsReturned], which nothing handles, and
    nothing is deleted. *)
Theorem categories_destroy_by_slug (user : option User.t) (slug : string) (d : DB) :
  permissions.AdminAndSuperUser user = true ->
  ((forall c, c ∈ rows (categories d) -> Categories.slug c <> slug) ->
     CategoriesViewSet.dispatch user (CategoriesViewSet.Destroy slug) d
     = (Response (detail "Not found.") HTTP_404_NOT_FOUND, d))
  /\ (forall c,
        NoDup (map Categories.pk (rows (categories d))) ->
        filter (fun x => Categories.slug x = slug) (rows (categories d)) = [c] ->
        CategoriesViewSet.dispatch user (CategoriesViewSet.Destroy slug) d
        = (Response JNull HTTP_204_NO_CONTENT,
           with_categories
             (mkTable (filter (fun x => x <> c) (rows (categories d)))
                      (seq (categories d))) d))
  /\ (forall c1 c2,
        c1 ∈ rows (categories d) -> c2 ∈ rows (categories d) -> c1 <> c2 ->
        Categories.slug c1 = slug -> Categories.slug c2 = slug ->
        CategoriesViewSet.dispatch user (CategoriesViewSet.Destroy slug) d
        = (Unhandled MultipleObjectsReturned, d)).
Proof.
  intros Hadm.
  assert (Hd : CategoriesViewSet.dispatch user (CategoriesViewSet.Destroy slug) d
               = CategoriesViewSet.destroy slug d).
  { unfold CategoriesViewSet.dispatch, permissions.AdminOrReadOnly.
    unfold permissions.AdminAndSuperUser in Hadm. rewrite Hadm. by rewrite orb_true_r. }
  rewrite Hd. unfold CategoriesViewSet.destroy. split; [|split].
  - intros Hno. by rewrite (filter_key_none Categories.slug).
  - intros c Hkeys Hone. rewrite Hone. cbn. do 2 f_equal.
    unfold cascade.delete_where. f_equal.
    assert (Hc : c ∈ rows (categories d)).
    { assert (Hin : c ∈ [c]) by by left. rewrite <- Hone in Hin.
      by apply list_elem_of_filter in Hin as [_ Hin]. }
    apply filter_iff_on. intros x Hx. split.
    + intros Hne ->. by apply Hne.
    + intros Hne Heq. apply Hne. by apply (key_inj Categories.pk _ c x Hkeys Hc Hx).
  - intros c1 c2 H1 H2 Hne Hs1 Hs2.
    destruct (filter_two (fun x => Categories.slug x = slug) _ c1 c2 H1 H2 Hne Hs1 Hs2)
      as (a & b & rest & ->).
    done.
Qed.

End restricted.

Lemma categories_destroy_by_slug_witness :
  CategoriesViewSet.dispatch (Some example.bob) (CategoriesViewSet.Destroy "film")
    (create_all example.same_slug_twice empty_db)
  = (Unhandled MultipleObjectsReturned, create_all example.same_slug_twice empty_db)
  /\ CategoriesViewSet.dispatch (Some example.bob) (CategoriesViewSet.Destroy "film")
       (create_all [NewCategory (Some example.bob) example.film] empty_db)
     = (Response JNull HTTP_204_NO_CONTENT, with_categories (orm.mkTable [] 2) empty_db)
  /\ CategoriesViewSet.dispatch (Some example.bob) (CategoriesViewSet.Destroy "film")
       empty_db
     = (Response (detail "Not found.") HTTP_404_NOT_FOUND, empty_db).
Proof.
  split; [|split].
  - apply (categories_destroy_by_slug (Some example.bob) "film"
             (create_all example.same_slug_twice empty_db) eq_refl)
      with (c1 := Categories.mk 1 "Film" "film") (c2 := Categories.mk 2 "Movie" "film");
      [by_evaluation|by_evaluation|discriminate|reflexivity|reflexivity].
  - apply (proj1 (proj2 (categories_destroy_by_slug (Some example.bob) "film"
             (create_all [NewCategory (Some example.bob) example.film] empty_db) eq_refl))
             (Categories.mk 1 "Film" "film")); [by_evaluation|reflexivity].
  - apply (categories_destroy_by_slug (Some example.bob) "film" empty_db eq_refl).
    intros c Hc. by apply elem_of_nil in Hc.
Defined.

(** ** Reviews and comments: scoping and creation *)

Section nested_resources.
Context `{Collaborators} `{CommentCollaborators}.
Import orm.

Lemma title_lookup (title_id : nat) (d : DB) (t : Titles.t) :
  NoDup (map Titles.pk (rows (titles d))) ->
  t ∈ rows (titles d) -> Titles.pk t = title_id ->
  get_object_or_404 (ReviewsViewSet.title_by_pk title_id d) = Ok t.
Proof.
  intros Hkeys Ht <-. unfold ReviewsViewSet.title_by_pk.
  by rewrite (filter_key_unique Titles.pk).
Qed.



(** X5. A first review is stored as the handler builds it.  When the title
    exists (keys being distinct), the requester [u] has no review of it and
    the serializer accepts the body as [(text, score)], the POST is answered
    201 and exactly one row is appended to the review table: its key is
    drawn from the sequence, its title is the title of the URL, its author
    is the requester, its date is the time of the request; every other table
    and every earlier review is as before. *)
Theorem first_review_stored (d : DB) (u : User.t) (title_id now : nat)
    (data : RequestData) (text : string) (score : Z) (t : Titles.t) :
  NoDup (map Titles.pk (rows (titles d))) ->
  t ∈ rows (titles d) -> Titles.pk t = title_id ->
  reviews_by (User.pk u) title_id d = [] ->
  ReviewsSerializer data = inr (text, score) ->
  let r := Reviews.mk (seq (reviews d)) title_id text (User.pk u) score now in
  ReviewsViewSet.dispatch (Some u) title_id now (ReviewsViewSet.Create data) d
  = (Response (ReviewsSerializer_data r) HTTP_201_CREATED,
     with_reviews (mkTable (rows (reviews d) ++ [r]) (S (seq (reviews d)))) d).
Proof.
  intros Hkeys Ht Hpk Hnone Hv r.
  unfold ReviewsViewSet.dispatch, permissions.AuthorAdminModeratorOrReadOnly.
  cbn [ReviewsViewSet.method_of permissions.is_safe].
  rewrite (bool_decide_eq_true_2 (is_Some (Some u))) by done.
  rewrite orb_true_r. unfold ReviewsViewSet.create, ReviewsViewSet.perform_create.
  rewrite Hv, (title_lookup title_id d t) by done. cbn.
  unfold TitlesViewSet.reviews_of. rewrite list_filter_filter.
  unfold reviews_by in Hnone. rewrite Hpk, Hnone. cbn.
  unfold ReviewsViewSet.save_new. cbn. by rewrite Hpk.
Qed.

Lemma review_lookup (title_id review_id : nat) (d : DB) (r : Reviews.t) :
  NoDup (map Reviews.pk (rows (reviews d))) ->
  r ∈ rows (reviews d) -> Reviews.pk r = review_id -> Reviews.title r = title_id ->
  CommentsViewSet.get_review title_id review_id d = Ok r.
Proof.
  intros Hkeys Hr Hpk Ht. unfold CommentsViewSet.get_review.
  rewrite (filter_unique Reviews.pk _ _ r); [done|done|done|done|].
  intros y [Hy _]. congruence.
Qed.



(** X7. A comment is stored with the author and the review the handler
    injects.  When the review is under the title of the URL (keys being
    distinct) and the serializer accepts the body as [text], the POST of an
    authenticated requester [u] is answered 201 and exactly one row is
    appended to the comment table: its key is drawn from the sequence, its
    review is the review of the URL, its author is the requester, its date
    is the time of the request; every other table and every earlier comment
    is as before. *)
Theorem comment_stored (d : DB) (u : User.t) (title_id review_id now : nat)
    (data : RequestData) (text : string) (r : Reviews.t) :
  NoDup (map Reviews.pk (rows (reviews d))) ->
  r ∈ rows (reviews d) -> Reviews.pk r = review_id -> Reviews.title r = title_id ->
  CommentsSerializer data = inr text ->
  let c := Comments.mk (seq (comments d)) text review_id (User.pk u) now in
  CommentsViewSet.dispatch (Some u) title_id review_id now
    (CommentsViewSet.Create data) d
  = (Response (CommentsSerializer_data c) HTTP_201_CREATED,
     with_comments (mkTable (rows (comments d) ++ [c]) (S (seq (comments d)))) d).
Proof.
  intros Hkeys Hr Hpk Ht Hv c.
  unfold CommentsViewSet.dispatch, CommentsViewSet.has_permission,
    permissions.AuthorAdminModeratorOrReadOnly,
    CommentsViewSet.IsAuthenticatedOrReadOnly.
  cbn [CommentsViewSet.method_of permissions.is_safe].
  rewrite (bool_decide_eq_true_2 (is_Some (Some u))) by done.
  rewrite orb_true_r. cbn [andb].
  unfold CommentsViewSet.create, CommentsViewSet.perform_create.
  rewrite Hv, (review_lookup title_id review_id d r) by done. cbn. by rewrite Hpk.
Qed.

End nested_resources.


Lemma first_review_stored_witness :
  ReviewsViewSet.dispatch (Some example.bob) 2 20
    (ReviewsViewSet.Create example.review_body) example_comments.d_commented
  = (Response (example.reviews_data (Reviews.mk 4 2 "again" 2 3 20)) HTTP_201_CREATED,
     with_reviews
       (orm.mkTable [Reviews.mk 1 1 "fine" 1 7 10; Reviews.mk 2 1 "good" 2 8 11;
                     Reviews.mk 3 2 "witty" 1 9 12; Reviews.mk 4 2 "again" 2 3 20] 5)
       example_comments.d_commented).
Proof.
  refine (eq_trans (first_review_stored example_comments.d_commented example.bob 2 20
                      example.review_body "again" 3%Z example_comments.emma
                      _ _ _ _ _) _);
    [by_evaluation|by_evaluation|reflexivity|reflexivity|reflexivity|reflexivity].
Defined.


Lemma comment_stored_witness :
  CommentsViewSet.dispatch (Some example.alice) 2 3 20
    (CommentsViewSet.Create example_comments.comment_body) example_comments.d_commented
  = (Response (example_comments.comments_data (Comments.mk 3 "indeed" 3 1 20))
              HTTP_201_CREATED,
     with_comments
       (orm.mkTable [Comments.mk 1 "agreed" 1 2 12; Comments.mk 2 "thanks" 1 1 13;
                     Comments.mk 3 "indeed" 3 1 20] 4)
       example_comments.d_commented).
Proof.
  refine (eq_trans (comment_stored example_comments.d_commented example.alice 2 3 20
                      example_comments.comment_body "indeed"
                      (Reviews.mk 3 2 "witty" 1 9 12) _ _ _ _ _) _);
    [by_evaluation|by_evaluation|reflexivity|reflexivity|reflexivity|reflexivity].
Defined.

(** ** Registration: the mail and the email column *)

Section signup_mail.
Context `{Collaborators}.
Import orm.

Lemma signup_outbox_failed (data : RequestData) (w : World) :
  status_code (signup data w).1 <> HTTP_200_OK ->
  outbox (signup data w).2 = outbox w.
Proof.
  unfold signup.
  destruct (SignUpSerializer data) as [errors|[username email]]; [done|].
  destruct (UserObjects.get_or_create _ _) as [[[user created] t]|e]; [|done].
  destruct (generator (gen w)) as [code g].
  destruct (UserObjects.save _ t) as [t'|e]; [|done].
  cbn. by intros [].
Qed.

(** X8. A call of [signup] sends a mail exactly when it is answered 200, and
    the mail carries the code drawn during the call.  On a body the
    serializer refuses the answer is 400 and nothing at all changes: no code
    is drawn and no mail is sent.  Whenever the answer is not 200 the outbox
    is as it was.  When the answer is 200 (over a user table that satisfies
    its constraints) the body was accepted as a pair (username, email), one
    mail is added, addressed to that email, its code is the code the
    generator has just produced, the generator has advanced, and exactly one
    row holds the pair. *)
Theorem signup_mails_generated_code (data : RequestData) (w : World) :
  (forall errors,
      SignUpSerializer data = inl errors ->
      signup data w = (Response (errors_json errors) HTTP_400_BAD_REQUEST, w))
  /\ (status_code (signup data w).1 <> HTTP_200_OK ->
      outbox (signup data w).2 = outbox w)
  /\ (users_wf (users (db w)) ->
      status_code (signup data w).1 = HTTP_200_OK ->
      exists username email u,
        SignUpSerializer data = inr (username, email)
        /\ outbox (signup data w).2 = outbox w ++ [(email, Some (generator (gen w)).1)]
        /\ gen (signup data w).2 = (generator (gen w)).2
        /\ with_pair username email (user_rows (signup data w).2) = [u]).
Proof.
  split; [|split].
  - intros errors Hser. unfold signup. by rewrite Hser.
  - apply signup_outbox_failed.
  - intros Hwf Hok.
    destruct (signup_ok_inv data w Hwf Hok) as (username & email & Hser & Hsig).
    destruct (signup_step data username email w Hwf Hser Hsig)
      as (t & u & Heq & _ & _ & Hpair & _).
    exists username, email, u. by rewrite Heq.
Qed.

(** X9. The email column is not unique and [signup] does not make it so:
    over a user table that satisfies its constraints, a call for a username
    that no row holds, with an email that a row [x] already holds, is
    answered 200 and inserts a second row with that email, beside [x]. *)
Theorem signup_shares_email (data : RequestData) (username email : string)
    (w : World) (x : User.t) :
  users_wf (users (db w)) ->
  SignUpSerializer data = inr (username, email) ->
  (forall u, u ∈ user_rows w -> User.username u <> username) ->
  x ∈ user_rows w -> User.email x = email ->
  status_code (signup data w).1 = HTTP_200_OK
  /\ exists u,
       user_rows (signup data w).2 = user_rows w ++ [u]
       /\ u <> x
       /\ User.username u = username
       /\ User.email u = User.email x
       /\ length (filter (fun r => User.email r = email) (user_rows (signup data w).2))
          = S (length (filter (fun r => User.email r = email) (user_rows w))).
Proof.
  intros Hwf Hser Hfree Hx Hmail.
  rewrite (signup_new data username email w Hwf Hser Hfree). cbn.
  split; [done|]. eexists. split; [reflexivity|].
  split; [|split; [done|split; [done|]]].
  - intros <-. by apply (Hfree _ Hx).
  - unfold user_rows. rewrite filter_app, length_app.
    rewrite (filter_cons_True (fun r => User.email r = email)) by done.
    cbn. lia.
Qed.

End signup_mail.

Lemma signup_mails_generated_code_witness :
  signup (example.body [("username", "alice")]) example.w_alice
  = (Response (errors_json [("email", ["required"])]) HTTP_400_BAD_REQUEST,
     example.w_alice)
  /\ outbox (signup (example.body [("username", "alice"); ("email", "alice@y.org")])
                    example.w_alice).2 = []
  /\ outbox (signup example.signup_alice example.w_alice).2
     = [("a@x.com", Some "code-2")].
Proof.
  destruct (signup_mails_generated_code example.signup_alice example.w_alice)
    as (_ & _ & Hsent).
  split; [|split].
  - apply (signup_mails_generated_code (example.body [("username", "alice")])
             example.w_alice). reflexivity.
  - apply (proj1 (proj2 (signup_mails_generated_code
                           (example.body [("username", "alice"); ("email", "alice@y.org")])
                           example.w_alice))).
    vm_compute. discriminate.
  - destruct Hsent as (username & email & u & Hser & Hout & _); [by_evaluation|reflexivity|].
    vm_compute in Hser. injection Hser as <- <-. exact Hout.
Defined.

Lemma signup_shares_email_witness :
  user_rows (signup (example.body [("username", "carol"); ("email", "a@x.com")])
                    example.w_alice).2
  = [example.alice; User.mk 2 "carol" "a@x.com" false None None].
Proof.
  destruct (signup_shares_email
              (example.body [("username", "carol"); ("email", "a@x.com")])
              "carol" "a@x.com" example.w_alice example.alice)
    as (_ & u & Hrows & _); [by_evaluation|reflexivity| |by_evaluation|reflexivity|].
  - intros y Hy. apply list_elem_of_singleton in Hy as ->. discriminate.
  - reflexivity.
Defined.

(** ** Requests that only read *)

Section reading.
Context `{Collaborators} `{CommentCollaborators}.
Import orm.

Lemma set_db_same (w : World) : set_db (db w) w = w.
Proof. by destruct w. Qed.

Lemma on_db_same (f : DB -> Outcome * DB) (w : World) :
  (f (db w)).2 = db w -> (on_db f w).2 = w.
Proof.
  unfold on_db. destruct (f (db w)) as [o d]. cbn. intros ->. apply set_db_same.
Qed.

Lemma titles_read (user : option User.t) (r : TitlesViewSet.Request) (d : DB) :
  TitlesViewSet.method_of r = GET -> (TitlesViewSet.dispatch user r d).2 = d.
Proof.
  intros Hm. unfold TitlesViewSet.dispatch.
  destruct (permissions.AdminOrReadOnly _ _); [|done].
  destruct r as [|pk|pk]; [done| |done].
  unfold TitlesViewSet.handle_retrieve. by destruct (TitlesViewSet.get_object pk d).
Qed.

Lemma categories_read (user : option User.t) (r : CategoriesViewSet.Request) (d : DB) :
  CategoriesViewSet.method_of r = GET -> (CategoriesViewSet.dispatch user r d).2 = d.
Proof.
  intros Hm. unfold CategoriesViewSet.dispatch.
  destruct (permissions.AdminOrReadOnly _ _); [|done].
  by destruct r.
Qed.

Lemma genres_read (user : option User.t) (r : GenresViewSet.Request) (d : DB) :
  GenresViewSet.method_of r = GET -> (GenresViewSet.dispatch user r d).2 = d.
Proof.
  intros Hm. unfold GenresViewSet.dispatch.
  destruct (permissions.AdminOrReadOnly _ _); [|done].
  by destruct r.
Qed.

Lemma reviews_read (user : option User.t) (title_id now : nat)
    (r : ReviewsViewSet.Request) (d : DB) :
  ReviewsViewSet.method_of r = GET ->
  (ReviewsViewSet.dispatch user title_id now r d).2 = d.
Proof.
  intros Hm. unfold ReviewsViewSet.dispatch.
  destruct (permissions.AuthorAdminModeratorOrReadOnly _ _); [|done].
  destruct r as [|data|pk|pk data|pk data|pk]; try done.
  - unfold ReviewsViewSet.handle_list. by destruct (ReviewsViewSet.get_queryset _ _).
  - unfold ReviewsViewSet.handle_retrieve.
    by destruct (ReviewsViewSet.get_object _ _ _ _ _).
Qed.

Lemma comments_read (user : option User.t) (title_id review_id now : nat)
    (r : CommentsViewSet.Request) (d : DB) :
  CommentsViewSet.method_of r = GET ->
  (CommentsViewSet.dispatch user title_id review_id now r d).2 = d.
Proof.
  intros Hm. unfold CommentsViewSet.dispatch.
  destruct (CommentsViewSet.has_permission _ _); [|done].
  destruct r as [|data|pk|pk data|pk data|pk]; try done.
  - unfold CommentsViewSet.handle_list. by destruct (CommentsViewSet.get_queryset _ _ _).
  - unfold CommentsViewSet.handle_retrieve.
    by destruct (CommentsViewSet.get_object _ _ _ _ _ _).
Qed.

Lemma me_read (u : User.t) (data : RequestData) (w : World) :
  (UserViewSet.me u GET data w).2 = w.
Proof. unfold UserViewSet.me. by destruct (UserSerializer _ _ _ _). Qed.

(** X10. Reading changes nothing.  A token exchange and every GET that the
    handlers serve (the caller's own profile, the list and the single object
    of titles, of the reviews of a title and of the comments on a review, the
    single object of categories and of genres) leave the whole world as it
    was: the store, the state of the code generator and the outbox; this
    holds whatever the credentials, whether the request is refused, fails or
    succeeds. *)
Theorem reads_change_nothing (c : AnyCall) (w : World) :
  reads c = true -> (api_all c w).2 = w.
Proof.
  destruct c as [c|cred now title_id review_id r]; cbn [reads api_all].
  - unfold api. destruct (authenticate (credentials c) w) as [user|e].
    2:{ by intros _. }
    destruct (endpoint c) as [data|data|data|m data|username|r|r|r|title_id r];
      try done; intros Hr.
    + apply get_token_world.
    + apply bool_decide_eq_true in Hr. subst m. destruct user as [u|]; [|done].
      destruct (decide _); [|done]. apply me_read.
    + apply bool_decide_eq_true in Hr. by apply on_db_same, titles_read.
    + apply bool_decide_eq_true in Hr. by apply on_db_same, categories_read.
    + apply bool_decide_eq_true in Hr. by apply on_db_same, genres_read.
    + apply bool_decide_eq_true in Hr. by apply on_db_same, reviews_read.
  - intros Hr. apply bool_decide_eq_true in Hr.
    destruct (authenticate cred w) as [user|e]; [|done].
    by apply on_db_same, comments_read.
Qed.

End reading.

Lemma reads_change_nothing_witness :
  (api_all (CoreCall (mkCall (Some 1) 20 (UsersMe GET [("email", JInt 5)])))
           example_comments.w_commented).2 = example_comments.w_commented
  /\ (api_all (CommentsCall None 20 1 1 CommentsViewSet.List)
              example_comments.w_commented).2 = example_comments.w_commented.
Proof.
  split.
  - apply (reads_change_nothing
             (CoreCall (mkCall (Some 1) 20 (UsersMe GET [("email", JInt 5)])))).
    reflexivity.
  - apply (reads_change_nothing (CommentsCall None 20 1 1 CommentsViewSet.List)).
    reflexivity.
Defined.

(** ** Keys and usernames stay unique in every reachable store *)

Section store_constraints.
Context `{Collaborators} `{CommentCollaborators}.
Import orm.

Lemma delete_where_keys {A} (pk : A -> nat) (P : A -> Prop)
    `{!forall a, Decision (P a)} (t : Table A) :
  keys_wf pk t -> keys_wf pk (cascade.delete_where P t).
Proof.
  intros Hk. unfold cascade.delete_where.
  apply (sublist_keys_wf pk _ (rows t)); [apply sublist_filter|by destruct t].
Qed.

Lemma delete_where_users (P : User.t -> Prop) `{!forall a, Decision (P a)}
    (t : Table User.t) :
  users_wf t -> users_wf (cascade.delete_where P t).
Proof.
  intros Hk. unfold cascade.delete_where.
  apply (sublist_users_wf _ (rows t)); [apply sublist_filter|by destruct t].
Qed.

Lemma rewrite_keys {A} (pk : A -> nat) (g : A -> A) (t : Table A) :
  keys_wf pk t -> (forall x, pk (g x) = pk x) ->
  keys_wf pk (mkTable (map g (rows t)) (seq t)).
Proof.
  intros [Hnd Hlt] Hg. split; cbn.
  - rewrite <- list_fmap_compose.
    by rewrite (list_fmap_ext (pk ∘ g) pk (rows t)) by (intros; apply Hg).
  - rewrite Forall_forall in *. intros y Hy.
    apply list_elem_of_fmap in Hy as (x & -> & Hx). rewrite Hg. by apply Hlt.
Qed.

Lemma signup_db (data : RequestData) (w : World) :
  exists t, db (signup data w).2 = with_users t (db w).
Proof.
  assert (Hsame : exists t, db w = with_users t (db w)).
  { exists (users (db w)). by destruct (db w). }
  unfold signup.
  destruct (SignUpSerializer data) as [errors|[username email]]; [done|].
  destruct (UserObjects.get_or_create _ _) as [[[user created] t]|e]; [|done].
  destruct (generator (gen w)) as [code g].
  destruct (UserObjects.save _ t) as [t'|e]; cbn; by eexists.
Qed.

Lemma users_create_db (data : RequestData) (w : World) :
  exists t, db (UserViewSet.create data w).2 = with_users t (db w).
Proof.
  assert (Hsame : exists t, db w = with_users t (db w)).
  { exists (users (db w)). by destruct (db w). }
  unfold UserViewSet.create.
  destruct (UserSerializer _ _ _ _) as [errors|fields]; [done|]. cbn zeta.
  destruct (first _); [done|].
  destruct (UserObjects.get_or_create _ _) as [[[user created] t]|e]; [|done].
  cbn. by eexists.
Qed.

Lemma me_db (u : User.t) (m : Method) (data : RequestData) (w : World) :
  exists t, db (UserViewSet.me u m data w).2 = with_users t (db w).
Proof.
  assert (Hsame : exists t, db w = with_users t (db w)).
  { exists (users (db w)). by destruct (db w). }
  unfold UserViewSet.me.
  destruct (UserSerializer _ _ _ _) as [errors|fields]; [done|].
  destruct (decide (m = GET)); [done|]. cbn zeta.
  destruct (UserObjects.save _ _) as [t|e]; [|done].
  cbn. by eexists.
Qed.

Lemma store_ok_users (t : Table User.t) (d : DB) :
  store_ok d -> users_wf t -> store_ok (with_users t d).
Proof. intros (_ & Hrest) Ht. by split. Qed.

Lemma delete_reviews_store (P : Reviews.t -> Prop) `{!forall r, Decision (P r)}
    (d : DB) :
  store_ok d -> store_ok (cascade.delete_reviews P d).
Proof.
  intros (Hu & Ht & Hc & Hg & Hr & Hm). unfold cascade.delete_reviews.
  repeat split; cbn; try done; try apply Hu; try apply Ht; try apply Hc; try apply Hg;
    by apply delete_where_keys.
Qed.

Lemma delete_title_store (t : Titles.t) (d : DB) :
  store_ok d -> store_ok (cascade.delete_title t d).
Proof.
  intros Hok. apply (delete_reviews_store (fun r => Reviews.title r = Titles.pk t)) in Hok.
  destruct Hok as (Hu & Ht & Hc & Hg & Hr & Hm). unfold cascade.delete_title.
  split; [done|]. split; [by apply delete_where_keys|]. done.
Qed.

Lemma delete_user_store (u : User.t) (d : DB) :
  store_ok d -> store_ok (cascade.delete_user u d).
Proof.
  intros Hok. apply (delete_reviews_store (fun r => Reviews.author r = User.pk u)) in Hok.
  destruct Hok as (Hu & Ht & Hc & Hg & Hr & Hm). unfold cascade.delete_user.
  split; [by apply delete_where_users|].
  do 4 (split; [done|]). by apply delete_where_keys.
Qed.

Lemma titles_store (user : option User.t) (r : TitlesViewSet.Request) (d : DB) :
  store_ok d -> store_ok (TitlesViewSet.dispatch user r d).2.
Proof.
  intros Hok. unfold TitlesViewSet.dispatch.
  destruct (permissions.AdminOrReadOnly _ _); [|done].
  destruct r as [|pk|pk]; cbn; [done| |].
  - unfold TitlesViewSet.handle_retrieve. by destruct (TitlesViewSet.get_object pk d).
  - unfold TitlesViewSet.handle_destroy.
    destruct (TitlesViewSet.get_object pk d); [|done]. by apply delete_title_store.
Qed.

Lemma categories_store (user : option User.t) (r : CategoriesViewSet.Request) (d : DB) :
  store_ok d -> store_ok (CategoriesViewSet.dispatch user r d).2.
Proof.
  intros Hok. pose proof Hok as (Hu & Ht & Hc & Hg & Hr & Hm).
  unfold CategoriesViewSet.dispatch.
  destruct (permissions.AdminOrReadOnly _ _); [|done].
  destruct r as [data|slug|slug data|slug]; cbn; [|done|done|].
  - unfold CategoriesViewSet.create.
    destruct (CategoriesSerializer.to_internal_value data) as [errors|[name slug]];
      [done|].
    cbn. do 2 (split; [done|]). split; [by apply append_keys_wf|done].
  - unfold CategoriesViewSet.destroy.
    destruct (get_object_or_404 _); [|done].
    cbn. do 2 (split; [done|]). split; [by apply delete_where_keys|done].
Qed.

Lemma genres_store (user : option User.t) (r : GenresViewSet.Request) (d : DB) :
  store_ok d -> store_ok (GenresViewSet.dispatch user r d).2.
Proof.
  intros Hok. pose proof Hok as (Hu & Ht & Hc & Hg & Hr & Hm).
  unfold GenresViewSet.dispatch.
  destruct (permissions.AdminOrReadOnly _ _); [|done].
  destruct r as [data|slug|slug]; cbn; [|done|].
  - unfold GenresViewSet.create.
    destruct (GenresSerializer.to_internal_value data) as [errors|[name slug]];
      [done|].
    cbn. do 3 (split; [done|]). split; [by apply append_keys_wf|done].
  - unfold GenresViewSet.destroy.
    destruct (get_object_or_404 _); [|done].
    cbn. do 3 (split; [done|]). split; [by apply delete_where_keys|done].
Qed.

Lemma reviews_store (user : option User.t) (title_id now : nat)
    (r : ReviewsViewSet.Request) (d : DB) :
  store_ok d -> store_ok (ReviewsViewSet.dispatch user title_id now r d).2.
Proof.
  intros Hok. pose proof Hok as (Hu & Ht & Hc & Hg & Hr & Hm).
  unfold ReviewsViewSet.dispatch.
  destruct (permissions.AuthorAdminModeratorOrReadOnly _ _); [|done].
  destruct r as [|data|pk|pk data|pk data|pk].
  - unfold ReviewsViewSet.handle_list. by destruct (ReviewsViewSet.get_queryset _ _).
  - destruct user as [u|]; [|done]. unfold ReviewsViewSet.create.
    destruct (ReviewsSerializer data) as [errors|v]; [done|].
    unfold ReviewsViewSet.perform_create.
    destruct (get_object_or_404 _) as [t|e]; cbn; [|done].
    destruct (exists_ _); [done|]. cbn.
    do 4 (split; [done|]). split; [by apply append_keys_wf|done].
  - unfold ReviewsViewSet.handle_retrieve.
    by destruct (ReviewsViewSet.get_object _ _ _ _ _).
  - unfold ReviewsViewSet.handle_update.
    destruct (ReviewsViewSet.get_object _ _ _ _ _) as [x|e]; [|done].
    destruct (ReviewsSerializer data) as [errors|v]; [done|]. cbn.
    do 4 (split; [done|]). split; [|done].
    apply (rewrite_keys Reviews.pk); [done|].
    intros y. by destruct (decide _) as [->|].
  - unfold ReviewsViewSet.handle_partial_update.
    destruct (ReviewsViewSet.get_object _ _ _ _ _) as [x|e]; [|done].
    destruct (ReviewsSerializer_partial data) as [errors|v]; [done|]. cbn.
    do 4 (split; [done|]). split; [|done].
    apply (rewrite_keys Reviews.pk); [done|].
    intros y. by destruct (decide _) as [->|].
  - unfold ReviewsViewSet.handle_destroy.
    destruct (ReviewsViewSet.get_object _ _ _ _ _) as [x|e]; [|done].
    by apply delete_reviews_store.
Qed.

Lemma comments_store (user : option User.t) (title_id review_id now : nat)
    (r : CommentsViewSet.Request) (d : DB) :
  store_ok d -> store_ok (CommentsViewSet.dispatch user title_id review_id now r d).2.
Proof.
  intros Hok. pose proof Hok as (Hu & Ht & Hc & Hg & Hr & Hm).
  unfold CommentsViewSet.dispatch.
  destruct (CommentsViewSet.has_permission _ _); [|done].
  destruct r as [|data|pk|pk data|pk data|pk].
  - unfold CommentsViewSet.handle_list. by destruct (CommentsViewSet.get_queryset _ _ _).
  - destruct user as [u|]; [|done]. unfold CommentsViewSet.create.
    destruct (CommentsSerializer data) as [errors|v]; [done|].
    unfold CommentsViewSet.perform_create.
    destruct (CommentsViewSet.get_review _ _ _) as [x|e]; cbn; [|done].
    do 5 (split; [done|]). by apply append_keys_wf.
  - unfold CommentsViewSet.handle_retrieve.
    by destruct (CommentsViewSet.get_object _ _ _ _ _ _).
  - unfold CommentsViewSet.handle_update.
    destruct (CommentsViewSet.get_object _ _ _ _ _ _) as [x|e]; [|done].
    destruct (CommentsSerializer data) as [errors|v]; [done|]. cbn.
    do 5 (split; [done|]).
    apply (rewrite_keys Comments.pk); [done|].
    intros y. by destruct (decide _) as [->|].
  - unfold CommentsViewSet.handle_partial_update.
    destruct (CommentsViewSet.get_object _ _ _ _ _ _) as [x|e]; [|done].
    destruct (CommentsSerializer_partial data) as [errors|v]; [done|]. cbn.
    do 5 (split; [done|]).
    apply (rewrite_keys Comments.pk); [done|].
    intros y. by destruct (decide _) as [->|].
  - unfold CommentsViewSet.handle_destroy.
    destruct (CommentsViewSet.get_object _ _ _ _ _ _) as [x|e]; [|done].
    cbn. do 5 (split; [done|]). by apply delete_where_keys.
Qed.

Lemma on_db_store (f : DB -> Outcome * DB) (w : World) :
  store_ok (f (db w)).2 -> store_ok (db (on_db f w).2).
Proof. unfold on_db. by destruct (f (db w)). Qed.

Lemma api_store (c : Call) (w : World) :
  store_ok (db w) -> store_ok (db (api c w).2).
Proof.
  intros Hok. pose proof Hok as (Hu & _). unfold api.
  destruct (authenticate (credentials c) w) as [user|e] eqn:Hauth; [|done].
  destruct (endpoint c) as [data|data|data|m data|username|r|r|r|title_id r].
  - destruct (signup_db data w) as [t Ht]. pose proof (signup_wf data w Hu) as Hwf.
    rewrite Ht in *. by apply store_ok_users.
  - by rewrite get_token_world.
  - destruct (permissions.AdminAndSuperUser user); [|done].
    destruct (users_create_db data w) as [t Ht].
    pose proof (users_create_wf data w Hu) as Hwf.
    rewrite Ht in *. by apply store_ok_users.
  - destruct user as [u|]; [|done]. destruct (decide _); [|done].
    destruct (me_db u m data w) as [t Ht].
    pose proof (me_wf u m data w Hu (authenticate_stored _ _ _ Hauth)) as Hwf.
    rewrite Ht in *. by apply store_ok_users.
  - destruct (permissions.AdminAndSuperUser user); [|done].
    unfold UserViewSet.destroy. destruct (get_object_or_404 _); [|done].
    cbn. by apply delete_user_store.
  - by apply on_db_store, titles_store.
  - by apply on_db_store, categories_store.
  - by apply on_db_store, genres_store.
  - by apply on_db_store, reviews_store.
Qed.

Lemma api_all_store (c : AnyCall) (w : World) :
  store_ok (db w) -> store_ok (db (api_all c w).2).
Proof.
  intros Hok. destruct c as [c|cred now title_id review_id r]; cbn.
  - by apply api_store.
  - destruct (authenticate cred w); [|done]. by apply on_db_store, comments_store.
Qed.

Lemma empty_store_ok : store_ok empty_db.
Proof.
  split; [apply empty_users_wf|].
  repeat split; cbn; first [apply NoDup_nil_2|apply Forall_nil_2].
Qed.

(** X11. The uniqueness constraints are kept by every request written out
    here.  If in a store no two users share a username, and in each of the
    six tables no two rows share a primary key and every key is below the
    table's sequence, then the same holds after any sequence of these
    requests (registration, token exchange, creation and deletion of users,
    the caller's own profile, deletion of titles, creation and deletion of
    categories and genres, every request on reviews and comments), by any
    requesters, with any bodies, whether they succeed, are refused or
    fail.  The requests [AnyCall] leaves out are not covered. *)
Theorem store_constraints_preserved (cs : list AnyCall) (w : World) :
  store_ok (db w) -> store_ok (db (run_all cs w)).
Proof.
  revert w. induction cs as [|c cs IH]; intros w Hok; [done|].
  cbn [run_all]. by apply IH, api_all_store.
Qed.

End store_constraints.

(** ** No foreign key dangles *)

Section references.
Context `{Collaborators} `{CommentCollaborators}.
Import orm.

Lemma save_keeps_keys (u : User.t) (t t' : Table User.t) (x : User.t) :
  UserObjects.save u t = Ok t' -> x ∈ rows t ->
  exists y, y ∈ rows t' /\ User.pk y = User.pk x.
Proof.
  unfold UserObjects.save. intros Hs Hx.
  destruct (exists_ (filter _ (rows t))); [done|].
  destruct (exists_ (filter (fun r => User.pk r = User.pk u) (rows t)));
    injection Hs as <-; cbn.
  - exists (if decide (User.pk x = User.pk u) then u else x). split.
    + apply list_elem_of_fmap. by exists x.
    + by destruct (decide _).
  - exists x. split; [|done]. apply elem_of_app. by left.
Qed.

Lemma get_or_create_keeps (kw : UserFields) (t t' : Table User.t) (u : User.t)
    (c : bool) (x : User.t) :
  UserObjects.get_or_create kw t = Ok (u, c, t') -> x ∈ rows t -> x ∈ rows t'.
Proof.
  unfold UserObjects.get_or_create. intros Hg Hx.
  destruct (get _) as [y|e] eqn:Hget.
  - by injection Hg as <- <- <-.
  - destruct e; try done.
    destruct (UserObjects.create kw t) as [[y t'']|e] eqn:Hc.
    + injection Hg as <- <- <-. unfold UserObjects.create in Hc.
      destruct (exists_ _); [done|]. injection Hc as <- <-. cbn.
      apply elem_of_app. by left.
    + by destruct e.
Qed.

Lemma signup_keeps_users (data : RequestData) (w : World) (pk : nat) :
  user_exists pk (db w) -> user_exists pk (db (signup data w).2).
Proof.
  intros (x & Hx & Hpk). unfold signup.
  destruct (SignUpSerializer data) as [errors|[username email]]; [by exists x|].
  destruct (UserObjects.get_or_create _ _) as [[[user created] t]|e] eqn:Hg;
    [|by exists x].
  pose proof (get_or_create_keeps _ _ _ _ _ x Hg Hx) as Hx'.
  destruct (generator (gen w)) as [code g].
  destruct (UserObjects.save _ t) as [t'|e] eqn:Hs; cbn; [|by exists x].
  destruct (save_keeps_keys _ _ _ x Hs Hx') as (y & Hy & Hyk).
  exists y. split; [done|congruence].
Qed.

Lemma users_create_keeps_users (data : RequestData) (w : World) (pk : nat) :
  user_exists pk (db w) -> user_exists pk (db (UserViewSet.create data w).2).
Proof.
  intros (x & Hx & Hpk). unfold UserViewSet.create.
  destruct (UserSerializer _ _ _ _) as [errors|fields]; [by exists x|]. cbn zeta.
  destruct (first _); [by exists x|].
  destruct (UserObjects.get_or_create _ _) as [[[user created] t]|e] eqn:Hg;
    [|by exists x].
  cbn. exists x. split; [|done]. by apply (get_or_create_keeps _ _ _ _ _ x Hg).
Qed.

Lemma me_keeps_users (u : User.t) (m : Method) (data : RequestData) (w : World)
    (pk : nat) :
  user_exists pk (db w) -> user_exists pk (db (UserViewSet.me u m data w).2).
Proof.
  intros (x & Hx & Hpk). unfold UserViewSet.me.
  destruct (UserSerializer _ _ _ _) as [errors|fields]; [by exists x|].
  destruct (decide (m = GET)); [by exists x|]. cbn zeta.
  destruct (UserObjects.save _ _) as [t|e] eqn:Hs; [|by exists x].
  cbn. destruct (save_keeps_keys _ _ _ x Hs Hx) as (y & Hy & Hyk).
  exists y. split; [done|congruence].
Qed.

Lemma references_users (t : Table User.t) (d : DB) :
  references_ok d ->
  (forall pk, user_exists pk d -> user_exists pk (with_users t d)) ->
  references_ok (with_users t d).
Proof.
  intros [Hr Hc] Hkeep. split.
  - intros r Hin. destruct (Hr r Hin) as [Ht Hu]. split; [done|by apply Hkeep].
  - intros c Hin. destruct (Hc c Hin) as [Hrev Hu]. split; [done|by apply Hkeep].
Qed.

Lemma delete_reviews_references (P : Reviews.t -> Prop) `{!forall r, Decision (P r)}
    (d : DB) :
  references_ok d -> references_ok (cascade.delete_reviews P d).
Proof.
  intros [Hr Hc]. unfold cascade.delete_reviews. split; cbn.
  - intros r Hin. apply list_elem_of_filter in Hin as [_ Hin]. by apply Hr.
  - intros c Hin. apply list_elem_of_filter in Hin as [Hkept Hin].
    destruct (Hc c Hin) as [(r & Hrin & Hrk) Hu]. split; [|done].
    exists r. split; [|done]. cbn. apply list_elem_of_filter. split; [|done].
    intros HP. apply Hkept. rewrite <- Hrk. apply list_elem_of_fmap.
    exists r. split; [done|]. by apply list_elem_of_filter.
Qed.

Lemma delete_title_references (t : Titles.t) (d : DB) :
  references_ok d -> references_ok (cascade.delete_title t d).
Proof.
  intros Hok.
  apply (delete_reviews_references (fun r => Reviews.title r = Titles.pk t)) in Hok.
  destruct Hok as [Hr Hc]. unfold cascade.delete_title. split; [|done].
  intros r Hin. destruct (Hr r Hin) as [(x & Hx & Hxk) Hu]. split; [|done].
  exists x. split; [|done]. cbn. apply list_elem_of_filter. split; [|done].
  cbn in Hin. apply list_elem_of_filter in Hin as [Hkept _]. congruence.
Qed.

Lemma delete_user_references (u : User.t) (d : DB) :
  references_ok d -> references_ok (cascade.delete_user u d).
Proof.
  intros Hok.
  apply (delete_reviews_references (fun r => Reviews.author r = User.pk u)) in Hok.
  destruct Hok as [Hr Hc]. unfold cascade.delete_user. split; cbn.
  - intros r Hin. destruct (Hr r Hin) as [Ht (x & Hx & Hxk)]. split; [done|].
    exists x. split; [|done]. cbn. apply list_elem_of_filter. split; [|done].
    cbn in Hin. apply list_elem_of_filter in Hin as [Hkept _]. congruence.
  - intros c Hin. apply list_elem_of_filter in Hin as [Hkept Hin].
    destruct (Hc c Hin) as [Hrev (x & Hx & Hxk)]. split; [done|].
    exists x. split; [|done]. cbn. apply list_elem_of_filter. split; [|done].
    congruence.
Qed.

Lemma get_review_elem (title_id review_id : nat) (d : DB) (r : Reviews.t) :
  CommentsViewSet.get_review title_id review_id d = Ok r -> r ∈ rows (reviews d).
Proof.
  unfold CommentsViewSet.get_review. intros Hg.
  apply get_object_or_404_elem in Hg.
  assert (Hin : r ∈ [r]) by by left. rewrite <- Hg in Hin.
  by apply list_elem_of_filter in Hin as [_ Hin].
Qed.

Lemma comment_get_object_elem (user : option User.t) (m : Method)
    (title_id review_id pk : nat) (d : DB) (c : Comments.t) :
  CommentsViewSet.get_object user m title_id review_id pk d = Ok c ->
  c ∈ rows (comments d).
Proof.
  unfold CommentsViewSet.get_object, CommentsViewSet.get_queryset.
  destruct (CommentsViewSet.get_review _ _ _) as [r|e]; cbn; [|done].
  destruct (get_object_or_404 (filter _ _)) as [x|e] eqn:Hget; cbn; [|done].
  destruct (permissions.AuthorAdminModeratorOrReadOnly_object _ _ _); [|discriminate].
  intros [= <-]. apply get_object_or_404_elem in Hget.
  assert (Hin : x ∈ [x]) by by left. rewrite <- Hget in Hin.
  apply list_elem_of_filter in Hin as [_ Hin].
  by apply list_elem_of_filter in Hin as [_ Hin].
Qed.

Lemma append_review_references (d : DB) (r : Reviews.t) (n : nat) :
  references_ok d ->
  title_exists (Reviews.title r) d -> user_exists (Reviews.author r) d ->
  references_ok (with_reviews (mkTable (rows (reviews d) ++ [r]) n) d).
Proof.
  intros [Hr Hc] Ht Hu. split; cbn.
  - intros x Hin. apply elem_of_app in Hin as [Hin|Hin]; [by apply Hr|].
    by apply list_elem_of_singleton in Hin as ->.
  - intros c Hin. destruct (Hc c Hin) as [(x & Hx & Hxk) Hcu]. split; [|done].
    exists x. split; [|done]. cbn. apply elem_of_app. by left.
Qed.

Lemma rewrite_review_references (d : DB) (r r' : Reviews.t) :
  references_ok d -> r ∈ rows (reviews d) ->
  Reviews.pk r' = Reviews.pk r -> Reviews.title r' = Reviews.title r ->
  Reviews.author r' = Reviews.author r ->
  references_ok
    (with_reviews
       (mkTable (map (fun x => if decide (Reviews.pk x = Reviews.pk r) then r' else x)
                     (rows (reviews d))) (seq (reviews d))) d).
Proof.
  intros [Hr Hc] Hin Hpk Ht Ha. split; cbn.
  - intros y Hy. apply list_elem_of_fmap in Hy as (x & -> & Hx).
    destruct (decide _); [|by apply Hr].
    rewrite Ht, Ha. by apply Hr.
  - intros c Hcin. destruct (Hc c Hcin) as [(x & Hx & Hxk) Hcu]. split; [|done].
    exists (if decide (Reviews.pk x = Reviews.pk r) then r' else x). split.
    + cbn. apply list_elem_of_fmap. by exists x.
    + destruct (decide _); congruence.
Qed.

Lemma reviews_references (user : option User.t) (title_id now : nat)
    (r : ReviewsViewSet.Request) (d : DB) :
  references_ok d ->
  (forall u, user = Some u -> user_exists (User.pk u) d) ->
  references_ok (ReviewsViewSet.dispatch user title_id now r d).2.
Proof.
  intros Hok Huser. unfold ReviewsViewSet.dispatch.
  destruct (permissions.AuthorAdminModeratorOrReadOnly _ _); [|done].
  destruct r as [|data|pk|pk data|pk data|pk].
  - unfold ReviewsViewSet.handle_list. by destruct (ReviewsViewSet.get_queryset _ _).
  - destruct user as [u|]; [|done]. unfold ReviewsViewSet.create.
    destruct (ReviewsSerializer data) as [errors|v]; [done|].
    unfold ReviewsViewSet.perform_create.
    destruct (get_object_or_404 _) as [t|e] eqn:Ht; cbn; [|done].
    destruct (exists_ _); [done|]. cbn.
    apply append_review_references; cbn; [done| |by apply Huser].
    apply get_object_or_404_elem in Ht.
    assert (Hin : t ∈ [t]) by by left. rewrite <- Ht in Hin.
    apply list_elem_of_filter in Hin as [_ Hin]. by exists t.
  - unfold ReviewsViewSet.handle_retrieve.
    by destruct (ReviewsViewSet.get_object _ _ _ _ _).
  - unfold ReviewsViewSet.handle_update.
    destruct (ReviewsViewSet.get_object _ _ _ _ _) as [x|e] eqn:Hget; [|done].
    destruct (ReviewsSerializer data) as [errors|v]; [done|]. cbn.
    apply rewrite_review_references; try done.
    by apply review_get_object_elem in Hget.
  - unfold ReviewsViewSet.handle_partial_update.
    destruct (ReviewsViewSet.get_object _ _ _ _ _) as [x|e] eqn:Hget; [|done].
    destruct (ReviewsSerializer_partial data) as [errors|v]; [done|]. cbn.
    apply rewrite_review_references; try done.
    by apply review_get_object_elem in Hget.
  - unfold ReviewsViewSet.handle_destroy.
    destruct (ReviewsViewSet.get_object _ _ _ _ _) as [x|e]; [|done].
    by apply delete_reviews_references.
Qed.

Lemma comments_references (user : option User.t) (title_id review_id now : nat)
    (r : CommentsViewSet.Request) (d : DB) :
  references_ok d ->
  (forall u, user = Some u -> user_exists (User.pk u) d) ->
  references_ok (CommentsViewSet.dispatch user title_id review_id now r d).2.
Proof.
  intros Hok Huser. pose proof Hok as [Hr Hc]. unfold CommentsViewSet.dispatch.
  destruct (CommentsViewSet.has_permission _ _); [|done].
  destruct r as [|data|pk|pk data|pk data|pk].
  - unfold CommentsViewSet.handle_list. by destruct (CommentsViewSet.get_queryset _ _ _).
  - destruct user as [u|]; [|done]. unfold CommentsViewSet.create.
    destruct (CommentsSerializer data) as [errors|v]; [done|].
    unfold CommentsViewSet.perform_create.
    destruct (CommentsViewSet.get_review _ _ _) as [x|e] eqn:Hx; cbn; [|done].
    split; [done|]. cbn. intros c Hin.
    apply elem_of_app in Hin as [Hin|Hin]; [by apply Hc|].
    apply list_elem_of_singleton in Hin as ->. cbn. split; [|by apply Huser].
    exists x. split; [|done]. by apply (get_review_elem title_id review_id).
  - unfold CommentsViewSet.handle_retrieve.
    by destruct (CommentsViewSet.get_object _ _ _ _ _ _).
  - unfold CommentsViewSet.handle_update.
    destruct (CommentsViewSet.get_object _ _ _ _ _ _) as [x|e] eqn:Hget; [|done].
    destruct (CommentsSerializer data) as [errors|v]; [done|]. cbn.
    split; [done|]. cbn. intros c Hin.
    apply list_elem_of_fmap in Hin as (y & -> & Hy).
    destruct (decide _); [|by apply Hc]. cbn.
    apply Hc. by apply comment_get_object_elem in Hget.
  - unfold CommentsViewSet.handle_partial_update.
    destruct (CommentsViewSet.get_object _ _ _ _ _ _) as [x|e] eqn:Hget; [|done].
    destruct (CommentsSerializer_partial data) as [errors|v]; [done|]. cbn.
    split; [done|]. cbn. intros c Hin.
    apply list_elem_of_fmap in Hin as (y & -> & Hy).
    destruct (decide _); [|by apply Hc]. cbn.
    apply Hc. by apply comment_get_object_elem in Hget.
  - unfold CommentsViewSet.handle_destroy.
    destruct (CommentsViewSet.get_object _ _ _ _ _ _) as [x|e]; [|done].
    cbn. split; [done|]. cbn. intros c Hin.
    apply list_elem_of_filter in Hin as [_ Hin]. by apply Hc.
Qed.

Lemma titles_references (user : option User.t) (r : TitlesViewSet.Request) (d : DB) :
  references_ok d -> references_ok (TitlesViewSet.dispatch user r d).2.
Proof.
  intros Hok. unfold TitlesViewSet.dispatch.
  destruct (permissions.AdminOrReadOnly _ _); [|done].
  destruct r as [|pk|pk]; cbn; [done| |].
  - unfold TitlesViewSet.handle_retrieve. by destruct (TitlesViewSet.get_object pk d).
  - unfold TitlesViewSet.handle_destroy.
    destruct (TitlesViewSet.get_object pk d); [|done]. by apply delete_title_references.
Qed.

Lemma categories_references (user : option User.t) (r : CategoriesViewSet.Request)
    (d : DB) :
  references_ok d -> references_ok (CategoriesViewSet.dispatch user r d).2.
Proof.
  intros Hok. unfold CategoriesViewSet.dispatch.
  destruct (permissions.AdminOrReadOnly _ _); [|done].
  destruct r as [data|slug|slug data|slug]; cbn; [|done|done|].
  - unfold CategoriesViewSet.create.
    by destruct (CategoriesSerializer.to_internal_value data) as [errors|[name slug]].
  - unfold CategoriesViewSet.destroy. by destruct (get_object_or_404 _).
Qed.

Lemma genres_references (user : option User.t) (r : GenresViewSet.Request) (d : DB) :
  references_ok d -> references_ok (GenresViewSet.dispatch user r d).2.
Proof.
  intros Hok. unfold GenresViewSet.dispatch.
  destruct (permissions.AdminOrReadOnly _ _); [|done].
  destruct r as [data|slug|slug]; cbn; [|done|].
  - unfold GenresViewSet.create.
    by destruct (GenresSerializer.to_internal_value data) as [errors|[name slug]].
  - unfold GenresViewSet.destroy. by destruct (get_object_or_404 _).
Qed.

Lemma on_db_references (f : DB -> Outcome * DB) (w : World) :
  references_ok (f (db w)).2 -> references_ok (db (on_db f w).2).
Proof. unfold on_db. by destruct (f (db w)). Qed.

Lemma authenticate_exists (c : option nat) (w : World) (user : option User.t) :
  authenticate c w = Ok user ->
  forall u, user = Some u -> user_exists (User.pk u) (db w).
Proof.
  intros Hauth u ->. exists u. split; [|done].
  by apply (authenticate_stored c).
Qed.

Lemma api_references (c : Call) (w : World) :
  references_ok (db w) -> references_ok (db (api c w).2).
Proof.
  intros Hok. unfold api.
  destruct (authenticate (credentials c) w) as [user|e] eqn:Hauth; [|done].
  destruct (endpoint c) as [data|data|data|m data|username|r|r|r|title_id r].
  - destruct (signup_db data w) as [t Ht].
    pose proof (signup_keeps_users data w) as Hkeep. rewrite Ht in *.
    by apply references_users.
  - by rewrite get_token_world.
  - destruct (permissions.AdminAndSuperUser user); [|done].
    destruct (users_create_db data w) as [t Ht].
    pose proof (users_create_keeps_users data w) as Hkeep. rewrite Ht in *.
    by apply references_users.
  - destruct user as [u|]; [|done]. destruct (decide _); [|done].
    destruct (me_db u m data w) as [t Ht].
    pose proof (me_keeps_users u m data w) as Hkeep. rewrite Ht in *.
    by apply references_users.
  - destruct (permissions.AdminAndSuperUser user); [|done].
    unfold UserViewSet.destroy. destruct (get_object_or_404 _); [|done].
    cbn. by apply delete_user_references.
  - by apply on_db_references, titles_references.
  - by apply on_db_references, categories_references.
  - by apply on_db_references, genres_references.
  - apply on_db_references, reviews_references; [done|].
    by apply (authenticate_exists (credentials c)).
Qed.

Lemma api_all_references (c : AnyCall) (w : World) :
  references_ok (db w) -> references_ok (db (api_all c w).2).
Proof.
  intros Hok. destruct c as [c|cred now title_id review_id r]; cbn.
  - by apply api_references.
  - destruct (authenticate cred w) as [user|e] eqn:Hauth; [|done].
    apply on_db_references, comments_references; [done|].
    by apply (authenticate_exists cred).
Qed.

Lemma empty_references_ok : references_ok empty_db.
Proof. split; intros x Hx; by apply elem_of_nil in Hx. Qed.

(** X12. No request written out here leaves a foreign key dangling.  If in
    a store the title and the author of every review are stored rows and
    the review and the author of every comment are stored rows, then the
    same holds after any sequence of these requests: a review or a comment
    is only created for a title, a review and a requester that are stored,
    an update leaves the keys alone, and deleting a title, a review or a
    user deletes, as [on_delete=CASCADE] says, what hangs on it.  The
    requests [AnyCall] leaves out are not covered. *)
Theorem references_preserved (cs : list AnyCall) (w : World) :
  references_ok (db w) -> references_ok (db (run_all cs w)).
Proof.
  revert w. induction cs as [|c cs IH]; intros w Hok; [done|].
  cbn [run_all]. by apply IH, api_all_references.
Qed.

End references.

Lemma key_stored {A} (f : A -> nat) (l : list A) (k : nat) :
  k ∈ map f l -> exists a, a ∈ l /\ f a = k.
Proof. intros Hk. apply list_elem_of_fmap in Hk as (a & -> & Ha). by exists a. Qed.

Lemma store_constraints_preserved_witness :
  store_ok (db (run_all example_comments.session example_comments.w_commented))
  /\ map User.username
       (orm.rows (users (db (run_all example_comments.session
                               example_comments.w_commented))))
     = ["bob"; "carol"]
  /\ orm.rows (categories (db (run_all example_comments.session
                                 example_comments.w_commented)))
     = [Categories.mk 1 "Film" "film"].
Proof.
  split; [|split; reflexivity].
  apply (store_constraints_preserved example_comments.session
           example_comments.w_commented).
  by_evaluation.
Defined.

Lemma references_preserved_witness :
  references_ok (db (run_all example_comments.session example_comments.w_commented))
  /\ orm.rows (reviews (db (run_all example_comments.session
                              example_comments.w_commented)))
     = [Reviews.mk 4 2 "again" 2 3 20]
  /\ orm.rows (comments (db (run_all example_comments.session
                               example_comments.w_commented)))
     = [Comments.mk 3 "indeed" 4 3 21].
Proof.
  split; [|split; reflexivity].
  apply (references_preserved example_comments.session example_comments.w_commented).
  split.
  - intros r Hr. cbn in Hr. unfold title_exists, user_exists.
    repeat (apply elem_of_cons in Hr as [->|Hr];
            [split; apply key_stored; by_evaluation|]).
    by apply elem_of_nil in Hr.
  - intros c Hc. cbn in Hc. unfold review_exists, user_exists.
    repeat (apply elem_of_cons in Hc as [->|Hc];
            [split; apply key_stored; by_evaluation|]).
    by apply elem_of_nil in Hc.
Defined.

(** ** Deleting a title or a user *)

Section deletion.
Context `{Collaborators}.
Import orm.

Lemma queryset_filter (k : nat) (d : DB) :
  filter (fun o : TitlesSerializer.Instance => Titles.pk o.1 = k) (TitlesViewSet.queryset d)
  = map (fun t => (t, TitlesViewSet.Avg
                        (map Reviews.score (TitlesViewSet.reviews_of (Titles.pk t) d))))
        (filter (fun t => Titles.pk t = k) (rows (titles d))).
Proof.
  unfold TitlesViewSet.queryset.
  induction (rows (titles d)) as [|a l IH]; [done|].
  cbn [map]. rewrite !filter_cons. cbn [fst].
  destruct (decide (Titles.pk a = k)); cbn [map]; by rewrite IH.
Qed.

Lemma titles_get_object (d : DB) (t : Titles.t) :
  NoDup (map Titles.pk (rows (titles d))) -> t ∈ rows (titles d) ->
  TitlesViewSet.get_object (Titles.pk t) d
  = Ok (t, TitlesViewSet.Avg
             (map Reviews.score (TitlesViewSet.reviews_of (Titles.pk t) d))).
Proof.
  intros Hkeys Ht. unfold TitlesViewSet.get_object.
  by rewrite queryset_filter, (filter_key_unique Titles.pk).
Qed.

Lemma gone_reviews (P : Reviews.t -> Prop) `{!forall r, Decision (P r)}
    (l : list Reviews.t) (k : nat) :
  k ∉ map Reviews.pk (filter P l)
  <-> forall r, r ∈ l -> Reviews.pk r = k -> ~ P r.
Proof.
  split.
  - intros Hno r Hr Hpk HP. apply Hno. apply list_elem_of_fmap.
    exists r. split; [done|]. by apply list_elem_of_filter.
  - intros Hall Hin. apply list_elem_of_fmap in Hin as (r & -> & Hr).
    apply list_elem_of_filter in Hr as [HP Hr]. by apply (Hall r).
Qed.

(** X13. Deleting a title takes its reviews and their comments with it, and
    nothing else.  When the key is that of a stored title (keys being
    distinct), the deletion is answered 204; afterwards the title table
    holds the other titles, the review table the reviews of other titles,
    the comment table the comments on reviews of other titles, and users,
    categories and genres are as before. *)
Theorem title_destroy_cascades (pk : nat) (d : DB) :
  keys_wf Titles.pk (titles d) ->
  title_exists pk d ->
  (TitlesViewSet.handle_destroy pk d).1 = Response JNull HTTP_204_NO_CONTENT
  /\ (forall t, t ∈ rows (titles (TitlesViewSet.handle_destroy pk d).2)
                <-> t ∈ rows (titles d) /\ Titles.pk t <> pk)
  /\ (forall r, r ∈ rows (reviews (TitlesViewSet.handle_destroy pk d).2)
                <-> r ∈ rows (reviews d) /\ Reviews.title r <> pk)
  /\ (forall c, c ∈ rows (comments (TitlesViewSet.handle_destroy pk d).2)
                <-> c ∈ rows (comments d)
                    /\ forall r, r ∈ rows (reviews d) ->
                                 Reviews.pk r = Comments.review c ->
                                 Reviews.title r <> pk)
  /\ users (TitlesViewSet.handle_destroy pk d).2 = users d
  /\ categories (TitlesViewSet.handle_destroy pk d).2 = categories d
  /\ genres (TitlesViewSet.handle_destroy pk d).2 = genres d.
Proof.
  intros [Hkeys _] (t & Ht & <-). unfold TitlesViewSet.handle_destroy.
  rewrite titles_get_object by done. cbn.
  split; [done|]. split; [|split; [|split; [|done]]].
  - intros x. by rewrite list_elem_of_filter, (and_comm (x ∈ _)).
  - intros r. by rewrite list_elem_of_filter, (and_comm (r ∈ _)).
  - intros c. rewrite list_elem_of_filter, (and_comm (c ∈ _)).
    by rewrite (gone_reviews (fun r => Reviews.title r = Titles.pk t)).
Qed.

(** X14. Deleting a user takes the user's reviews, the comments on them and
    the user's own comments with it, and nothing else.  When the name is
    that of a stored user [u] (the user table satisfying its constraints),
    the deletion is answered 204; afterwards the user table holds the other
    users, the review table the reviews of other authors, the comment table
    the comments of other authors on reviews of other authors, and titles,
    categories, genres, the generator and the mails are as before. *)
Theorem user_destroy_cascades (username : string) (w : World) (u : User.t) :
  users_wf (users (db w)) ->
  u ∈ rows (users (db w)) -> User.username u = username ->
  (UserViewSet.destroy username w).1 = Response JNull HTTP_204_NO_CONTENT
  /\ (forall x, x ∈ rows (users (db (UserViewSet.destroy username w).2))
                <-> x ∈ rows (users (db w)) /\ User.pk x <> User.pk u)
  /\ (forall r, r ∈ rows (reviews (db (UserViewSet.destroy username w).2))
                <-> r ∈ rows (reviews (db w)) /\ Reviews.author r <> User.pk u)
  /\ (forall c, c ∈ rows (comments (db (UserViewSet.destroy username w).2))
                <-> c ∈ rows (comments (db w))
                    /\ Comments.author c <> User.pk u
                    /\ forall r, r ∈ rows (reviews (db w)) ->
                                 Reviews.pk r = Comments.review c ->
                                 Reviews.author r <> User.pk u)
  /\ titles (db (UserViewSet.destroy username w).2) = titles (db w)
  /\ categories (db (UserViewSet.destroy username w).2) = categories (db w)
  /\ genres (db (UserViewSet.destroy username w).2) = genres (db w)
  /\ gen (UserViewSet.destroy username w).2 = gen w
  /\ outbox (UserViewSet.destroy username w).2 = outbox w.
Proof.
  intros Hwf Hu <-. unfold UserViewSet.destroy.
  rewrite by_username_stored by done. cbn.
  split; [done|]. split; [|split; [|split; [|done]]].
  - intros x. by rewrite list_elem_of_filter, (and_comm (x ∈ _)).
  - intros r. by rewrite list_elem_of_filter, (and_comm (r ∈ _)).
  - intros c. rewrite !list_elem_of_filter.
    rewrite (gone_reviews (fun r => Reviews.author r = User.pk u)). tauto.
Qed.

End deletion.

Lemma title_destroy_cascades_witness :
  (TitlesViewSet.handle_destroy 1 example_comments.d_commented).1
  = Response JNull HTTP_204_NO_CONTENT
  /\ orm.rows (titles (TitlesViewSet.handle_destroy 1 example_comments.d_commented).2)
     = [example_comments.emma]
  /\ orm.rows (reviews (TitlesViewSet.handle_destroy 1 example_comments.d_commented).2)
     = [Reviews.mk 3 2 "witty" 1 9 12]
  /\ orm.rows (comments (TitlesViewSet.handle_destroy 1 example_comments.d_commented).2)
     = []
  /\ (forall r, r ∈ orm.rows (reviews
                            (TitlesViewSet.handle_destroy 1 example_comments.d_commented).2)
                <-> r ∈ orm.rows (reviews example_comments.d_commented)
                    /\ Reviews.title r <> 1).
Proof.
  split; [reflexivity|]. split; [reflexivity|]. split; [reflexivity|].
  split; [reflexivity|].
  apply (title_destroy_cascades 1 example_comments.d_commented).
  - by_evaluation.
  - exists example.dune. split; [by_evaluation|reflexivity].
Defined.

Lemma user_destroy_cascades_witness :
  orm.rows (users (db (UserViewSet.destroy "bob" example_comments.w_commented).2))
  = [example.alice]
  /\ orm.rows (reviews (db (UserViewSet.destroy "bob" example_comments.w_commented).2))
     = [Reviews.mk 1 1 "fine" 1 7 10; Reviews.mk 3 2 "witty" 1 9 12]
  /\ orm.rows (comments (db (UserViewSet.destroy "bob" example_comments.w_commented).2))
     = [Comments.mk 2 "thanks" 1 1 13]
  /\ (UserViewSet.destroy "bob" example_comments.w_commented).1
     = Response JNull HTTP_204_NO_CONTENT.
Proof.
  split; [reflexivity|]. split; [reflexivity|]. split; [reflexivity|].
  apply (user_destroy_cascades "bob" example_comments.w_commented example.bob).
  - by_evaluation.
  - by_evaluation.
  - reflexivity.
Defined.

(** ** The rating of a title *)

Section rating.
Context `{Collaborators}.
Import orm.

(** X15. A title has a rating exactly when it has a review.  For a title
    of the annotated query set, the rating is NULL if and only if no stored
    review is a review of that title. *)
Theorem rating_null_iff_unreviewed (d : DB) (t : Titles.t) (rating : option Q) :
  (t, rating) ∈ TitlesViewSet.queryset d ->
  rating = None
  <-> forall r, r ∈ rows (reviews d) -> Reviews.title r <> Titles.pk t.
Proof.
  intros Hin. unfold TitlesViewSet.queryset in Hin.
  apply list_elem_of_fmap in Hin as (t' & [= <- ->] & Ht).
  unfold TitlesViewSet.reviews_of.
  destruct (filter _ (rows (reviews d))) as [|r l] eqn:Hf; cbn.
  - split; [|done]. intros _ r Hr Htitle.
    by apply (filter_nil_not_elem_of _ _ r Hf Htitle).
  - split; [done|]. intros Hno.
    assert (Hr : r ∈ filter (fun r => Reviews.title r = Titles.pk t) (rows (reviews d)))
      by (rewrite Hf; by left).
    apply list_elem_of_filter in Hr as [Htitle Hr]. by destruct (Hno r Hr).
Qed.

Lemma first_review_db (d : DB) (u : User.t) (title_id now : nat)
    (data : RequestData) (text : string) (score : Z) (t : Titles.t) :
  NoDup (map Titles.pk (rows (titles d))) ->
  t ∈ rows (titles d) -> Titles.pk t = title_id ->
  reviews_by (User.pk u) title_id d = [] ->
  ReviewsSerializer data = inr (text, score) ->
  (ReviewsViewSet.dispatch (Some u) title_id now (ReviewsViewSet.Create data) d).2
  = with_reviews
      (mkTable (rows (reviews d)
                ++ [Reviews.mk (seq (reviews d)) title_id text (User.pk u) score now])
               (S (seq (reviews d)))) d.
Proof.
  intros Hkeys Ht Hpk Hnone Hv.
  unfold ReviewsViewSet.dispatch, permissions.AuthorAdminModeratorOrReadOnly.
  cbn [ReviewsViewSet.method_of permissions.is_safe].
  rewrite (bool_decide_eq_true_2 (is_Some (Some u))) by done.
  rewrite orb_true_r. unfold ReviewsViewSet.create, ReviewsViewSet.perform_create.
  rewrite Hv, (title_lookup title_id d t) by done. cbn.
  unfold TitlesViewSet.reviews_of. rewrite list_filter_filter.
  unfold reviews_by in Hnone. rewrite Hpk, Hnone. cbn.
  unfold ReviewsViewSet.save_new. cbn. by rewrite Hpk.
Qed.

Lemma reviews_of_append (k : nat) (d : DB) (r : Reviews.t) (n : nat) :
  TitlesViewSet.reviews_of k (with_reviews (mkTable (rows (reviews d) ++ [r]) n) d)
  = TitlesViewSet.reviews_of k d ++ (if decide (Reviews.title r = k) then [r] else []).
Proof.
  unfold TitlesViewSet.reviews_of. cbn [reviews rows with_reviews].
  by rewrite filter_app.
Qed.

(** X16. A stored review enters the rating of its title and of no other.
    Under the conditions in which a first review is stored (the title of the
    URL exists, keys being distinct, the requester has no review of it, the
    serializer accepts the body as [(text, score)]), after the POST the
    title is read back with the mean of its earlier scores and the new
    score, and every other key reads as before. *)
Theorem review_enters_rating (d : DB) (u : User.t) (title_id now : nat)
    (data : RequestData) (text : string) (score : Z) (t : Titles.t) :
  NoDup (map Titles.pk (rows (titles d))) ->
  t ∈ rows (titles d) -> Titles.pk t = title_id ->
  reviews_by (User.pk u) title_id d = [] ->
  ReviewsSerializer data = inr (text, score) ->
  TitlesViewSet.get_object title_id
    (ReviewsViewSet.dispatch (Some u) title_id now (ReviewsViewSet.Create data) d).2
  = Ok (t, TitlesViewSet.Avg
             (map Reviews.score (TitlesViewSet.reviews_of title_id d) ++ [score]))
  /\ forall k, k <> title_id ->
       TitlesViewSet.get_object k
         (ReviewsViewSet.dispatch (Some u) title_id now (ReviewsViewSet.Create data) d).2
       = TitlesViewSet.get_object k d.
Proof.
  intros Hkeys Ht Hpk Hnone Hv.
  rewrite (first_review_db d u title_id now data text score t) by done.
  set (r := Reviews.mk _ _ _ _ _ _). split.
  - rewrite <- Hpk at 1. rewrite titles_get_object by done.
    rewrite Hpk, reviews_of_append. cbn [Reviews.title r].
    rewrite decide_True by done. by rewrite fmap_app.
  - intros k Hk. unfold TitlesViewSet.get_object. rewrite !queryset_filter.
    cbn [titles with_reviews]. f_equal. apply list_fmap_ext.
    intros i x Hx. apply list_elem_of_lookup_2 in Hx.
    apply list_elem_of_filter in Hx as [Hxk _].
    rewrite reviews_of_append. cbn [Reviews.title r].
    rewrite decide_False by congruence. by rewrite app_nil_r.
Qed.

End rating.

Lemma rating_null_iff_unreviewed_witness :
  (example.dune, Some (15 # 2)) ∈ TitlesViewSet.queryset example.d_reviewed
  /\ ~ (forall r, r ∈ orm.rows (reviews example.d_reviewed) -> Reviews.title r <> 1)
  /\ (example.dune, None)
     ∈ TitlesViewSet.queryset (with_reviews orm.empty example.d_reviewed)
  /\ (forall r, r ∈ orm.rows (reviews (with_reviews orm.empty example.d_reviewed)) ->
                Reviews.title r <> 1).
Proof.
  assert (Hsome : (example.dune, Some (15 # 2))
                  ∈ TitlesViewSet.queryset example.d_reviewed)
    by (vm_compute; left).
  assert (Hnone : (example.dune, None)
                  ∈ TitlesViewSet.queryset (with_reviews orm.empty example.d_reviewed))
    by (vm_compute; left).
  split; [exact Hsome|]. split; [|split; [exact Hnone|]].
  - intros Hno.
    apply (rating_null_iff_unreviewed example.d_reviewed example.dune
             (Some (15 # 2)) Hsome) in Hno.
    discriminate.
  - by apply (rating_null_iff_unreviewed (with_reviews orm.empty example.d_reviewed)
                example.dune None Hnone).
Defined.

Lemma review_enters_rating_witness :
  TitlesViewSet.get_object 2
    (ReviewsViewSet.dispatch (Some example.bob) 2 20
       (ReviewsViewSet.Create example.review_body) example_comments.d_commented).2
  = orm.Ok (example_comments.emma, Some (6 # 1))
  /\ TitlesViewSet.get_object 1
       (ReviewsViewSet.dispatch (Some example.bob) 2 20
          (ReviewsViewSet.Create example.review_body) example_comments.d_commented).2
     = orm.Ok (example.dune, Some (15 # 2)).
Proof.
  split.
  - refine (eq_trans (proj1 (review_enters_rating example_comments.d_commented
                               example.bob 2 20 example.review_body "again" 3%Z
                               example_comments.emma _ _ _ _ _)) _);
      [by_evaluation|by_evaluation|reflexivity|reflexivity|reflexivity|reflexivity].
  - refine (eq_trans (proj2 (review_enters_rating example_comments.d_commented
                               example.bob 2 20 example.review_body "again" 3%Z
                               example_comments.emma _ _ _ _ _) 1 _) _);
      [by_evaluation|by_evaluation|reflexivity|reflexivity|reflexivity|lia|reflexivity].
Defined.

(** ** The display of a review *)





